(** * The file-synchronisation engine (src/main/syncfs), embedded in Rocq

    The engine keeps a watched local directory and an S3 bucket in step.
    Two source files are embedded here:

    - [src/main/syncfs/s3.ts]     the static class [S3Service];
    - [src/main/syncfs/syncfs.ts] the watcher listeners, the IPC handlers,
      the tree scanner and the push and pull passes.

    The code is effectful: it calls Node's [fs], the AWS SDK client, the
    chokidar watcher and the Electron window.  Every such call is a query to
    an oracle that owns a state of an arbitrary type [W]; the oracle either
    returns a value or throws.  The code itself is written in a small monad
    that threads the oracle state and the two module-level variables of
    syncfs.ts, propagates exceptions as JavaScript does, and collects the
    calls that were issued, in order.  [await] is sequential composition.
    Calls to the logger have no influence on control flow and are left
    out.

    The watcher listeners start two asynchronous functions and await
    neither, so in the code the calls of the two tasks interleave, in an
    order that depends on when each answer arrives; the embedding runs the
    two tasks one after the other.  What is proved of a listener, or of a
    handler that hands an event to the listeners, is therefore stated on
    what does not depend on that order: the value returned, the snapshot
    left, the uploads started and the calls of one kind, never the place of
    a call of one task among the calls of the other; and where such a
    statement depends on an answer of the outside world other than the
    first one, that answer is assumed the same in every state of the
    world. *)

From Stdlib Require Import String Ascii List ZArith Bool Lia.
Import ListNotations.
Open Scope string_scope.
Open Scope Z_scope.

(** ** JavaScript values *)

(** What a [catch] clause receives.  The code reads [error.name] and
    [error.$metadata?.httpStatusCode]; both may be missing. *)
Record exn : Type := mkExn {
  exn_name : option string;
  exn_httpStatusCode : option Z;
  exn_message : string
}.

(** Outcome of a call that may throw. *)
Inductive result (A : Type) : Type :=
| Ok (a : A)
| Throw (e : exn).
Arguments Ok {A} a.
Arguments Throw {A} e.

(** A [Date]: a time value in milliseconds, or the invalid date, which
    compares false with everything. *)
Inductive JsDate : Type :=
| DateMs (ms : Z)
| InvalidDate.

(** [a > b] on dates. *)
Definition date_gt (a b : JsDate) : bool :=
  match a, b with
  | DateMs x, DateMs y => y <? x
  | _, _ => false
  end.

(** [a <= b] on dates. *)
Definition date_le (a b : JsDate) : bool :=
  match a, b with
  | DateMs x, DateMs y => x <=? y
  | _, _ => false
  end.

(** [s.startsWith(p)] *)
Definition startsWith (s p : string) : bool := String.prefix p s.

(** [s.substring(1)] *)
Definition substring1 (s : string) : string :=
  match s with
  | EmptyString => EmptyString
  | String _ rest => rest
  end.

(** [s.replace(/\\/g, '/')] *)
Fixpoint replaceBackslashes (s : string) : string :=
  match s with
  | EmptyString => EmptyString
  | String c rest =>
      String (if Ascii.eqb c "\"%char then "/"%char else c)
             (replaceBackslashes rest)
  end.

(** [p.startsWith('/') ? p.substring(1) : p], the idiom every handler and
    every key computation uses. *)
Definition stripLeadingSlash (p : string) : string :=
  if startsWith p "/" then substring1 p else p.

(** Truthiness of an optional string: [undefined] and [''] are falsy. *)
Definition truthy (s : option string) : bool :=
  match s with
  | Some EmptyString => false
  | Some _ => true
  | None => false
  end.

(** ** Node and Electron built-ins

    The built-ins the two files use are not part of the repository; the
    embedding takes them as a record, so every theorem holds for any
    implementation of them. *)
Record Platform : Type := mkPlatform {
  path_join : list string -> string;
  path_relative : string -> string -> string;
  path_basename : string -> string;
  path_dirname : string -> string;
  path_isAbsolute : string -> bool;
  os_platform : string;
  os_homedir : string;
  app_getName : string;
  app_getPath_userData : string;
  Date_toISOString : Z -> string;
  Date_new : string -> JsDate;
  Buffer_base64 : string -> string;
  String_of_exn : exn -> string
}.

(** src/main/config/path-config.ts, [getUserFilesDir]. *)
Definition getUserFilesDir (P : Platform) : string :=
  if String.eqb (os_platform P) "win32" then
    path_join P [os_homedir P; "AppData"; "Local"; app_getName P; "UserData"; "Files"]
  else if String.eqb (os_platform P) "darwin" then
    path_join P [os_homedir P; "Library"; "Application Support"; app_getName P;
                 "UserData"; "Files"]
  else if String.eqb (os_platform P) "linux" then
    path_join P [os_homedir P; ".local"; "share"; app_getName P; "UserData"; "Files"]
  else
    path_join P [app_getPath_userData P; "UserData"; "Files"].

(** ** Data of the local file system *)

(** [fs.Stats], the fields the code reads. *)
Record Stats : Type := mkStats {
  st_isDirectory : bool;
  st_isFile : bool;
  st_size : Z;
  st_birthtime : Z;
  st_mtime : Z
}.

Scheme All for list.
Scheme All for option.

(** What one recursive traversal of a directory observes: the entries that
    [readdir(dir, {withFileTypes: true})] lists and, for each of them, what
    [fs.promises.stat] answers and, for a directory, what the nested
    [readdir] answers. *)
Inductive fsentry : Type :=
| EFile (name : string) (st : result Stats)
    (* isFile() *)
| EDir (name : string) (st : result Stats) (entries : list fsentry)
    (* isDirectory(), and its own readdir succeeds *)
| EDirUnreadable (name : string) (st : result Stats) (e : exn)
    (* isDirectory(), and its own readdir throws e *)
| EOther (name : string).
    (* neither: symbolic link, socket, fifo, device *)

Definition entry_name (e : fsentry) : string :=
  match e with
  | EFile n _ => n
  | EDir n _ _ => n
  | EDirUnreadable n _ _ => n
  | EOther n => n
  end.

Definition entry_isDirectory (e : fsentry) : bool :=
  match e with
  | EDir _ _ _ | EDirUnreadable _ _ _ => true
  | _ => false
  end.

(** The answer of [readdir] on a directory, with the nested answers. *)
Definition listing : Type := result (list fsentry).

(** syncfs.ts, [interface FileSystemNode]. *)
Inductive NodeType : Type := TFile | TFolder.

Inductive FileSystemNode : Type := mkNode {
  node_id : string;
  node_name : string;
  node_type : NodeType;
  node_path : string;
  node_size : option Z;
  node_createdAt : option Z;
  node_modifiedAt : option Z;
  node_children : option (list FileSystemNode);
  node_isLeaf : bool
}.

(** ** Data of the object store *)

(** One element of [ListObjectsV2Output.Contents]; [Key] is optional in
    the SDK's type. *)
Record S3Object : Type := mkS3Object {
  obj_Key : option string
}.

(** [ListObjectsV2CommandOutput] *)
Record ListOutput : Type := mkListOutput {
  list_Contents : option (list S3Object)
}.

(** [HeadObjectCommandOutput] *)
Record HeadOutput : Type := mkHeadOutput {
  head_LastModified : option JsDate;
  head_ETag : option string;
  head_Metadata : option (list (string * string))
}.

(** [GetObjectCommandOutput]: the body, when there is one, and what
    [Body.transformToByteArray()] gives. *)
Record GetOutput : Type := mkGetOutput {
  get_Body : option (result string)
}.

(** What [getObjectMetadata] returns when the object exists. *)
Record ObjectMetadata : Type := mkObjectMetadata {
  LastModified : option JsDate;
  ETag : option string;
  XOriginalMtime : option JsDate
}.

(** [obj[key]] on a string-keyed object. *)
Fixpoint lookup (key : string) (o : list (string * string)) : option string :=
  match o with
  | [] => None
  | (k, v) :: rest => if String.eqb k key then Some v else lookup key rest
  end.

(** ** Calls issued to the outside, in the order they are issued *)
Inductive event : Type :=
| EvExistsSync (p : string)
| EvMkdir (p : string)
| EvReadFile (p : string)
| EvWriteFile (p content : string)
| EvStat (p : string)
| EvReaddir (p : string)
| EvRm (p : string)
| EvUnlink (p : string)
| EvCopyFile (src dst : string)
| EvRename (src dst : string)
| EvOpenSync (p : string)
| EvCloseSync (fd : Z)
| EvListObjects (bucket : string)
| EvHeadObject (bucket key : string)
| EvGetObject (bucket key : string)
| EvPutObject (bucket key body : string) (metadata : list (string * string))
| EvDeleteObject (bucket key : string)
| EvIsDestroyed
| EvSend (channel : string) (data : list FileSystemNode)
| EvEmit (name path : string).

(** ** The outside world

    One field per call the code makes.  [existsSync] and [isDestroyed]
    cannot throw; everything else can. *)
Record Oracle (W : Type) : Type := mkOracle {
  fs_existsSync : string -> W -> bool * W;
  fs_mkdir : string -> W -> result unit * W;
  fs_readFile : string -> W -> result string * W;
  fs_writeFile : string -> string -> W -> result unit * W;
  fs_stat : string -> W -> result Stats * W;
  fs_readdir : string -> W -> listing * W;
  fs_rm : string -> W -> result unit * W;
  fs_unlink : string -> W -> result unit * W;
  fs_copyFile : string -> string -> W -> result unit * W;
  fs_rename : string -> string -> W -> result unit * W;
  fs_openSync : string -> W -> result Z * W;
  fs_closeSync : Z -> W -> result unit * W;
  s3_ListObjectsV2 : string -> W -> result ListOutput * W;
  s3_HeadObject : string -> string -> W -> result HeadOutput * W;
  s3_GetObject : string -> string -> W -> result GetOutput * W;
  s3_PutObject : string -> string -> string -> list (string * string) -> W ->
                 result unit * W;
  s3_DeleteObject : string -> string -> W -> result unit * W;
  win_isDestroyed : W -> bool * W;
  win_send : string -> list FileSystemNode -> W -> result unit * W
}.
Arguments fs_existsSync {W} _ _ _.
Arguments fs_mkdir {W} _ _ _.
Arguments fs_readFile {W} _ _ _.
Arguments fs_writeFile {W} _ _ _ _.
Arguments fs_stat {W} _ _ _.
Arguments fs_readdir {W} _ _ _.
Arguments fs_rm {W} _ _ _.
Arguments fs_unlink {W} _ _ _.
Arguments fs_copyFile {W} _ _ _ _.
Arguments fs_rename {W} _ _ _ _.
Arguments fs_openSync {W} _ _ _.
Arguments fs_closeSync {W} _ _ _.
Arguments s3_ListObjectsV2 {W} _ _ _.
Arguments s3_HeadObject {W} _ _ _ _.
Arguments s3_GetObject {W} _ _ _ _.
Arguments s3_PutObject {W} _ _ _ _ _ _.
Arguments s3_DeleteObject {W} _ _ _ _.
Arguments win_isDestroyed {W} _ _.
Arguments win_send {W} _ _ _ _.

(** The state the code runs in: the outside world and the module-level
    variables of syncfs.ts ([watcher] is only ever tested against null). *)
Record state (W : Type) : Type := mkState {
  world : W;
  fileSystemData : list FileSystemNode;
  watcher : bool
}.
Arguments mkState {W} _ _ _.
Arguments world {W} _.
Arguments fileSystemData {W} _.
Arguments watcher {W} _.

(** ** The monad: state, exceptions and the calls issued *)
Definition M (W A : Type) : Type := state W -> result A * state W * list event.

Definition ret {W A} (a : A) : M W A := fun s => (Ok a, s, []).

Definition throw {W A} (e : exn) : M W A := fun s => (Throw e, s, []).

Definition bind {W A B} (m : M W A) (f : A -> M W B) : M W B :=
  fun s =>
    match m s with
    | (Ok a, s1, t1) =>
        match f a s1 with
        | (r, s2, t2) => (r, s2, (t1 ++ t2)%list)
        end
    | (Throw e, s1, t1) => (Throw e, s1, t1)
    end.

(** [try { m } catch (error) { h error }] *)
Definition try_catch {W A} (m : M W A) (h : exn -> M W A) : M W A :=
  fun s =>
    match m s with
    | (Ok a, s1, t1) => (Ok a, s1, t1)
    | (Throw e, s1, t1) =>
        match h e s1 with
        | (r, s2, t2) => (r, s2, (t1 ++ t2)%list)
        end
    end.

Declare Scope js_scope.
Delimit Scope js_scope with js.
Notation "x <- m ;; k" := (bind m (fun x => k))
  (at level 61, m at next level, right associativity) : js_scope.
Notation "m ;; k" := (bind m (fun _ => k))
  (at level 61, right associativity) : js_scope.
Open Scope js_scope.

(** [for (const x of xs) { body x }]; an iteration that throws ends the
    loop, [continue] is an iteration that returns. *)
Definition for_of {W A} (xs : list A) (body : A -> M W unit) : M W unit :=
  (fix loop (l : list A) : M W unit :=
     match l with
     | [] => ret tt
     | x :: rest => body x ;; loop rest
     end) xs.

(** A call that may throw: the oracle answers, the call is recorded. *)
Definition call {W A} (ev : event) (q : W -> result A * W) : M W A :=
  fun s =>
    match q (world s) with
    | (r, w) => (r, mkState w (fileSystemData s) (watcher s), [ev])
    end.

(** A call that cannot throw. *)
Definition ask {W A} (ev : event) (q : W -> A * W) : M W A :=
  fun s =>
    match q (world s) with
    | (a, w) => (Ok a, mkState w (fileSystemData s) (watcher s), [ev])
    end.

Definition get_watcher {W} : M W bool := fun s => (Ok (watcher s), s, []).

Definition get_fileSystemData {W} : M W (list FileSystemNode) :=
  fun s => (Ok (fileSystemData s), s, []).

Definition set_fileSystemData {W} (d : list FileSystemNode) : M W unit :=
  fun s => (Ok tt, mkState (world s) d (watcher s), []).

(** The three components of a run. *)
Definition outcome {W A} (r : result A * state W * list event) : result A :=
  fst (fst r).
Definition final {W A} (r : result A * state W * list event) : state W :=
  snd (fst r).
Definition calls {W A} (r : result A * state W * list event) : list event :=
  snd r.

(** [throw]s or returns what an already-computed outcome says. *)
Definition lift {W A} (r : result A) : M W A :=
  match r with
  | Ok a => ret a
  | Throw e => throw e
  end.

(** A step that issues no call to the oracle but shows in the record. *)
Definition tell {W} (ev : event) : M W unit := fun s => (Ok tt, s, [ev]).

(** [new Error(message)] *)
Definition Error (message : string) : exn := mkExn (Some "Error") None message.

(** * src/main/syncfs/s3.ts *)
Module S3Service.

(** [static readonly BUCKET_NAME = '9527'] *)
Definition BUCKET_NAME : string := "9527".

(** The test both [bucketExists] and [getObjectMetadata] apply to a caught
    error: [name === 'NotFound' || $metadata?.httpStatusCode === 404]. *)
Definition isNotFound (error : exn) : bool :=
  match exn_name error with
  | Some n => String.eqb n "NotFound"
  | None => false
  end
  ||
  match exn_httpStatusCode error with
  | Some c => c =? 404
  | None => false
  end.

(** [response.Metadata?.['x-original-mtime'] ? new Date(...) : null] *)
Definition originalMtimeOf (P : Platform) (response : HeadOutput)
  : option JsDate :=
  match head_Metadata response with
  | Some md =>
      match lookup "x-original-mtime" md with
      | Some v => if truthy (Some v) then Some (Date_new P v) else None
      | None => None
      end
  | None => None
  end.

Section Client.
Context {W : Type} (P : Platform) (O : Oracle W).

(** s3.ts lines 73-83 *)
Definition isFileAccessible (filePath : string) : M W bool :=
  try_catch
    (fd <- call (EvOpenSync filePath) (fs_openSync O filePath) ;;
     call (EvCloseSync fd) (fs_closeSync O fd) ;;
     ret true)
    (fun _ => ret false).

(** s3.ts lines 89-103 *)
Definition listFiles (bucketName : string) : M W (list S3Object) :=
  try_catch
    (response <- call (EvListObjects bucketName) (s3_ListObjectsV2 O bucketName) ;;
     match list_Contents response with
     | Some contents => ret contents
     | None => ret []
     end)
    (fun _ => ret []).

(** s3.ts lines 110-135; [None] is JavaScript's [null]. *)
Definition getObjectMetadata (key : string) : M W (option ObjectMetadata) :=
  try_catch
    (response <- call (EvHeadObject BUCKET_NAME key)
                      (s3_HeadObject O BUCKET_NAME key) ;;
     ret (Some {| LastModified := head_LastModified response;
                  ETag := head_ETag response;
                  XOriginalMtime := originalMtimeOf P response |}))
    (fun error =>
       if isNotFound error then ret None else throw error).

(** s3.ts lines 140-168 *)
Definition downloadFile (key localFilePath : string) : M W bool :=
  try_catch
    (let dir := path_dirname P localFilePath in
     dirExists <- ask (EvExistsSync dir) (fs_existsSync O dir) ;;
     (if negb dirExists then call (EvMkdir dir) (fs_mkdir O dir) else ret tt) ;;
     response <- call (EvGetObject BUCKET_NAME key)
                      (s3_GetObject O BUCKET_NAME key) ;;
     match get_Body response with
     | Some body =>
         bodyContents <- lift body ;;
         call (EvWriteFile localFilePath bodyContents)
              (fs_writeFile O localFilePath bodyContents) ;;
         ret true
     | None => throw (Error "响应体为空")
     end)
    (fun _ => ret false).

(** The comparison of [uploadFile]:
    [metadata && metadata.XOriginalMtime] and then
    [localMtime <= metadata.XOriginalMtime]. *)
Definition remoteSameOrNewer (localMtime : Z) (metadata : option ObjectMetadata)
  : bool :=
  match metadata with
  | Some m =>
      match XOriginalMtime m with
      | Some x => date_le (DateMs localMtime) x
      | None => false
      end
  | None => false
  end.

(** s3.ts lines 197-240 *)
Definition uploadFile (localFilePath relativePath : string) : M W bool :=
  accessible <- isFileAccessible localFilePath ;;
  if negb accessible then ret false
  else
    let key := stripLeadingSlash relativePath in
    localStat <- call (EvStat localFilePath) (fs_stat O localFilePath) ;;
    let localMtime := st_mtime localStat in
    metadata <- getObjectMetadata key ;;
    if remoteSameOrNewer localMtime metadata then ret false
    else
      try_catch
        (body <- call (EvReadFile localFilePath) (fs_readFile O localFilePath) ;;
         let metadata := [("x-original-mtime", Date_toISOString P localMtime)] in
         call (EvPutObject BUCKET_NAME key body metadata)
              (s3_PutObject O BUCKET_NAME key body metadata) ;;
         ret true)
        (fun _ => ret false).

(** s3.ts lines 245-263 *)
Definition deleteFile (relativePath : string) : M W bool :=
  try_catch
    (let key := stripLeadingSlash relativePath in
     call (EvDeleteObject BUCKET_NAME key) (s3_DeleteObject O BUCKET_NAME key) ;;
     ret true)
    (fun _ => ret false).

End Client.
End S3Service.

(** * src/main/syncfs/syncfs.ts *)

(** The result envelope of the IPC handlers. *)
Record Envelope : Type := mkEnvelope {
  success : bool;
  error : option string;
  content : option string
}.

(** A loop that pushes onto one array: the pieces each iteration adds, in
    order; an iteration that throws ends the loop and loses the array. *)
Definition collect {A B} (f : A -> result (list B)) : list A -> result (list B) :=
  fix go (xs : list A) : result (list B) :=
    match xs with
    | [] => Ok []
    | x :: rest =>
        match f x with
        | Throw e => Throw e
        | Ok ys =>
            match go rest with
            | Throw e => Throw e
            | Ok zs => Ok (ys ++ zs)%list
            end
        end
    end.

Module SyncFs.

Section Scanner.
Context (P : Platform).

(** One iteration of the loop of [scanDirectory] (syncfs.ts lines 457-495):
    the nodes it pushes, or the exception that leaves the loop.  The
    recursive call on a sub-directory has its own [try]/[catch] and gives
    the empty list when anything in it throws. *)
Fixpoint scanEntry (relativePath : string) (entry : fsentry) {struct entry}
  : result (list FileSystemNode) :=
  if startsWith (entry_name entry) "." then Ok []
  else
    let entryRelativePath := path_join P [relativePath; entry_name entry] in
    let entryId := Buffer_base64 P entryRelativePath in
    match entry with
    | EDir name st entries =>
        match st with
        | Throw e => Throw e
        | Ok stats =>
            let children :=
              match collect (scanEntry entryRelativePath) entries with
              | Ok nodes => nodes
              | Throw _ => []
              end in
            Ok [ {| node_id := entryId; node_name := name; node_type := TFolder;
                    node_path := entryRelativePath; node_size := None;
                    node_createdAt := Some (st_birthtime stats);
                    node_modifiedAt := Some (st_mtime stats);
                    node_children := Some children; node_isLeaf := false |} ]
        end
    | EDirUnreadable name st _ =>
        match st with
        | Throw e => Throw e
        | Ok stats =>
            Ok [ {| node_id := entryId; node_name := name; node_type := TFolder;
                    node_path := entryRelativePath; node_size := None;
                    node_createdAt := Some (st_birthtime stats);
                    node_modifiedAt := Some (st_mtime stats);
                    node_children := Some []; node_isLeaf := false |} ]
        end
    | EFile name st =>
        match st with
        | Throw e => Throw e
        | Ok stats =>
            Ok [ {| node_id := entryId; node_name := name; node_type := TFile;
                    node_path := entryRelativePath;
                    node_size := Some (st_size stats);
                    node_createdAt := Some (st_birthtime stats);
                    node_modifiedAt := Some (st_mtime stats);
                    node_children := None; node_isLeaf := true |} ]
        end
    | EOther _ => Ok []
    end.

(** syncfs.ts lines 452-502, on what [readdir(dirPath)] answered. *)
Definition scanDirectory (entries : listing) (relativePath : string)
  : list FileSystemNode :=
  match entries with
  | Throw _ => []
  | Ok es =>
      match collect (scanEntry relativePath) es with
      | Ok nodes => nodes
      | Throw _ => []
      end
  end.

(** One iteration of the loop of [getAllFilesInDirectory] (syncfs.ts lines
    586-598): the keys it adds to [result]. *)
Fixpoint filesOfEntry (baseRelativePath : string) (entry : fsentry)
  {struct entry} : list string :=
  let entryRelativePath :=
    replaceBackslashes (path_join P [baseRelativePath; entry_name entry]) in
  match entry with
  | EDir _ _ entries => flat_map (filesOfEntry entryRelativePath) entries
  | EDirUnreadable _ _ _ => []
  | EFile _ _ | EOther _ => [entryRelativePath]
  end.

(** syncfs.ts lines 577-604, on what [readdir(dirPath)] answered. *)
Definition getAllFilesInDirectory (entries : listing) (baseRelativePath : string)
  : list string :=
  match entries with
  | Throw _ => []
  | Ok es => flat_map (filesOfEntry baseRelativePath) es
  end.

End Scanner.

Section Engine.
Context {W : Type} (P : Platform) (O : Oracle W).

(** syncfs.ts lines 433-445 *)
Definition updateFileSystemData : M W unit :=
  try_catch
    (let userFilesDir := getUserFilesDir P in
     entries <- ask (EvReaddir userFilesDir) (fs_readdir O userFilesDir) ;;
     set_fileSystemData (scanDirectory P entries "/") ;;
     data <- get_fileSystemData ;;
     destroyed <- ask EvIsDestroyed (win_isDestroyed O) ;;
     if negb destroyed
     then call (EvSend "file-system-updated" data)
               (win_send O "file-system-updated" data)
     else ret tt)
    (fun _ => ret tt).

(** syncfs.ts lines 509-519 *)
Definition syncFile (filePath baseDir : string) : M W unit :=
  try_catch
    (let relativePath := replaceBackslashes (path_relative P baseDir filePath) in
     S3Service.uploadFile P O filePath relativePath ;;
     ret tt)
    (fun _ => ret tt).

(** syncfs.ts lines 526-534 *)
Definition deleteFile (filePath baseDir : string) : M W unit :=
  try_catch
    (let relativePath := replaceBackslashes (path_relative P baseDir filePath) in
     S3Service.deleteFile O relativePath ;;
     ret tt)
    (fun _ => ret tt).

(** One iteration of the loop of [processDirectory] (syncfs.ts lines
    548-561), [baseDir] being the argument of the enclosing
    [syncAllFiles]. *)
Fixpoint processEntry (baseDir directory : string) (entry : fsentry)
  {struct entry} : M W unit :=
  if startsWith (entry_name entry) "." then ret tt
  else
    let fullPath := path_join P [directory; entry_name entry] in
    match entry with
    | EDir _ _ entries => for_of entries (processEntry baseDir fullPath)
    | EDirUnreadable _ _ e => throw e
    | EFile _ _ => syncFile fullPath baseDir
    | EOther _ => ret tt
    end.

(** syncfs.ts lines 545-562, on what [readdir(directory)] answered. *)
Definition processDirectory (baseDir directory : string) (entries : listing)
  : M W unit :=
  match entries with
  | Throw e => throw e
  | Ok es => for_of es (processEntry baseDir directory)
  end.

(** syncfs.ts lines 540-569 *)
Definition syncAllFiles (baseDir : string) : M W unit :=
  try_catch
    (entries <- ask (EvReaddir baseDir) (fs_readdir O baseDir) ;;
     processDirectory baseDir baseDir entries)
    (fun _ => ret tt).

(** The body of the loop of [pullAllFilesFromS3] (syncfs.ts lines
    384-420). *)
Definition pullFile (baseDir : string) (file : S3Object) : M W unit :=
  match obj_Key file with
  | None => ret tt
  | Some s3Key =>
      if negb (truthy (Some s3Key)) then ret tt
      else
        let localPath := path_join P [baseDir; s3Key] in
        try_catch
          (localExists <- ask (EvExistsSync localPath) (fs_existsSync O localPath) ;;
           if negb localExists then
             S3Service.downloadFile P O s3Key localPath ;;
             ret tt
           else
             localStat <- call (EvStat localPath) (fs_stat O localPath) ;;
             let localMtime := st_mtime localStat in
             metadata <- S3Service.getObjectMetadata P O s3Key ;;
             match metadata with
             | None => ret tt
             | Some md =>
                 match LastModified md with
                 | None => ret tt
                 | Some lastModified =>
                     if date_gt lastModified (DateMs localMtime) then
                       S3Service.downloadFile P O s3Key localPath ;;
                       ret tt
                     else ret tt
                 end
             end)
          (fun _ => ret tt)
  end.

(** syncfs.ts lines 379-428 *)
Definition pullAllFilesFromS3 (baseDir : string) : M W unit :=
  try_catch
    (files <- S3Service.listFiles O "9527" ;;
     for_of files (pullFile baseDir))
    (fun error => throw error).

(** ** The watcher listeners (syncfs.ts lines 55-80)

    Each listener calls [updateFileSystemData] and then, for a file event,
    one more asynchronous function, without awaiting either.  The two are
    run here one after the other; the code interleaves their calls. *)

Definition on_ready : M W unit :=
  updateFileSystemData ;;
  syncAllFiles (getUserFilesDir P).

Definition on_add (filePath : string) : M W unit :=
  updateFileSystemData ;;
  syncFile filePath (getUserFilesDir P).

Definition on_addDir : M W unit := updateFileSystemData.

Definition on_change (filePath : string) : M W unit :=
  updateFileSystemData ;;
  syncFile filePath (getUserFilesDir P).

Definition on_unlink (filePath : string) : M W unit :=
  updateFileSystemData ;;
  deleteFile filePath (getUserFilesDir P).

Definition on_unlinkDir : M W unit := updateFileSystemData.

(** [watcher.emit(name, path)]: the listener registered for [name] runs.
    In the code [emit] returns as soon as the listener has started its two
    tasks; here the tasks have run when [emit] returns. *)
Definition emit (name path : string) : M W unit :=
  tell (EvEmit name path) ;;
  if String.eqb name "ready" then on_ready
  else if String.eqb name "add" then on_add path
  else if String.eqb name "addDir" then on_addDir
  else if String.eqb name "change" then on_change path
  else if String.eqb name "unlink" then on_unlink path
  else if String.eqb name "unlinkDir" then on_unlinkDir
  else ret tt.

(** ** The IPC handlers (syncfs.ts lines 92-374) *)

Definition succeeded : Envelope :=
  {| success := true; error := None; content := None |}.

Definition failed (message : string) : Envelope :=
  {| success := false; error := Some message; content := None |}.

(** 'get-file-system-data' *)
Definition get_file_system_data : M W (list FileSystemNode) :=
  get_fileSystemData.

(** 'read-file-content' *)
Definition read_file_content (filePath : string) : M W Envelope :=
  try_catch
    (let fullPath :=
       if path_isAbsolute P filePath then filePath
       else path_join P [getUserFilesDir P; filePath] in
     text <- call (EvReadFile fullPath) (fs_readFile O fullPath) ;;
     ret {| success := true; error := None; content := Some text |})
    (fun _ => ret (failed "读取文件失败")).

(** 'force-sync-from-s3' *)
Definition force_sync_from_s3 : M W Envelope :=
  try_catch
    (pullAllFilesFromS3 (getUserFilesDir P) ;;
     ret succeeded)
    (fun _ => ret (failed "同步失败")).

(** 'create-file'; an absent [content] is [None]. *)
Definition create_file (parentPath fileName : string) (text : option string)
  : M W Envelope :=
  try_catch
    (let normalizedParentPath := stripLeadingSlash parentPath in
     let fullParentPath := path_join P [getUserFilesDir P; normalizedParentPath] in
     let fullPath := path_join P [fullParentPath; fileName] in
     parentExists <- ask (EvExistsSync fullParentPath)
                         (fs_existsSync O fullParentPath) ;;
     (if negb parentExists
      then call (EvMkdir fullParentPath) (fs_mkdir O fullParentPath)
      else ret tt) ;;
     let written := match text with Some t => t | None => "" end in
     call (EvWriteFile fullPath written) (fs_writeFile O fullPath written) ;;
     ret succeeded)
    (fun _ => ret (failed "创建文件失败")).

(** 'create-folder' *)
Definition create_folder (parentPath folderName : string) : M W Envelope :=
  try_catch
    (let normalizedParentPath := stripLeadingSlash parentPath in
     let fullParentPath := path_join P [getUserFilesDir P; normalizedParentPath] in
     let fullPath := path_join P [fullParentPath; folderName] in
     call (EvMkdir fullPath) (fs_mkdir O fullPath) ;;
     ret succeeded)
    (fun _ => ret (failed "创建文件夹失败")).

(** The loop of 'delete-item' over the enumerated keys (syncfs.ts lines
    181-188). *)
Definition deleteRemoteFiles (allFiles : list string) : M W unit :=
  for_of allFiles
    (fun filePath =>
       try_catch
         (S3Service.deleteFile O filePath ;; ret tt)
         (fun _ => ret tt)).

(** 'delete-item' *)
Definition delete_item (itemPath : string) : M W Envelope :=
  try_catch
    (let normalizedPath := stripLeadingSlash itemPath in
     let fullPath := path_join P [getUserFilesDir P; normalizedPath] in
     stats <- call (EvStat fullPath) (fs_stat O fullPath) ;;
     (if st_isDirectory stats then
        entries <- ask (EvReaddir fullPath) (fs_readdir O fullPath) ;;
        let allFiles := getAllFilesInDirectory P entries normalizedPath in
        deleteRemoteFiles allFiles ;;
        call (EvRm fullPath) (fs_rm O fullPath)
      else
        S3Service.deleteFile O normalizedPath ;;
        call (EvUnlink fullPath) (fs_unlink O fullPath)) ;;
     ret succeeded)
    (fun _ => ret (failed "删除失败")).

(** 'import-file' *)
Definition import_file (sourcePath targetDirectory : string) : M W Envelope :=
  try_catch
    (sourceExists <- ask (EvExistsSync sourcePath) (fs_existsSync O sourcePath) ;;
     if negb sourceExists then ret (failed "源文件不存在")
     else
       let normalizedTargetDir := stripLeadingSlash targetDirectory in
       let fullTargetDir := path_join P [getUserFilesDir P; normalizedTargetDir] in
       dirExists <- ask (EvExistsSync fullTargetDir)
                        (fs_existsSync O fullTargetDir) ;;
       (if negb dirExists
        then call (EvMkdir fullTargetDir) (fs_mkdir O fullTargetDir)
        else ret tt) ;;
       let fileName := path_basename P sourcePath in
       let targetPath := path_join P [fullTargetDir; fileName] in
       ask (EvExistsSync targetPath) (fs_existsSync O targetPath) ;;
       call (EvCopyFile sourcePath targetPath)
            (fs_copyFile O sourcePath targetPath) ;;
       call (EvStat targetPath) (fs_stat O targetPath) ;;
       watching <- get_watcher ;;
       (if watching then emit "add" targetPath else ret tt) ;;
       ret succeeded)
    (fun e => ret (failed ("导入失败: " ++ String_of_exn P e))).

(** 'import-file-from-buffer' *)
Definition import_file_from_buffer (fileName buffer targetDirectory : string)
  : M W Envelope :=
  try_catch
    (let normalizedTargetDir := stripLeadingSlash targetDirectory in
     let fullTargetDir := path_join P [getUserFilesDir P; normalizedTargetDir] in
     dirExists <- ask (EvExistsSync fullTargetDir)
                      (fs_existsSync O fullTargetDir) ;;
     (if negb dirExists
      then call (EvMkdir fullTargetDir) (fs_mkdir O fullTargetDir)
      else ret tt) ;;
     let targetPath := path_join P [fullTargetDir; fileName] in
     ask (EvExistsSync targetPath) (fs_existsSync O targetPath) ;;
     call (EvWriteFile targetPath buffer) (fs_writeFile O targetPath buffer) ;;
     call (EvStat targetPath) (fs_stat O targetPath) ;;
     watching <- get_watcher ;;
     (if watching then emit "add" targetPath else ret tt) ;;
     ret succeeded)
    (fun e => ret (failed ("导入失败: " ++ String_of_exn P e))).

(** 'move-item' *)
Definition move_item (sourcePath targetDirectory : string) : M W Envelope :=
  try_catch
    (let normalizedSourcePath := stripLeadingSlash sourcePath in
     let normalizedTargetDir := stripLeadingSlash targetDirectory in
     let baseDir := getUserFilesDir P in
     let fullSourcePath := path_join P [baseDir; normalizedSourcePath] in
     let fullTargetDir := path_join P [baseDir; normalizedTargetDir] in
     sourceExists <- ask (EvExistsSync fullSourcePath)
                         (fs_existsSync O fullSourcePath) ;;
     if negb sourceExists then ret (failed "源文件不存在")
     else
       dirExists <- ask (EvExistsSync fullTargetDir)
                        (fs_existsSync O fullTargetDir) ;;
       (if negb dirExists
        then call (EvMkdir fullTargetDir) (fs_mkdir O fullTargetDir)
        else ret tt) ;;
       let fileName := path_basename P fullSourcePath in
       let targetPath := path_join P [fullTargetDir; fileName] in
       ask (EvExistsSync targetPath) (fs_existsSync O targetPath) ;;
       call (EvRename fullSourcePath targetPath)
            (fs_rename O fullSourcePath targetPath) ;;
       stats <- call (EvStat targetPath) (fs_stat O targetPath) ;;
       watching <- get_watcher ;;
       (if st_isFile stats && watching then
          emit "unlink" fullSourcePath ;;
          emit "add" targetPath
        else ret tt) ;;
       ret succeeded)
    (fun e => ret (failed ("移动失败: " ++ String_of_exn P e))).

(** The calls that cross the IPC boundary with a result envelope. *)
Inductive request : Type :=
| ReadFileContent (filePath : string)
| ForceSyncFromS3
| CreateFile (parentPath fileName : string) (text : option string)
| CreateFolder (parentPath folderName : string)
| DeleteItem (itemPath : string)
| ImportFile (sourcePath targetDirectory : string)
| ImportFileFromBuffer (fileName buffer targetDirectory : string)
| MoveItem (sourcePath targetDirectory : string).

(** [ipcMain.handle] dispatches on the channel name. *)
Definition handle (r : request) : M W Envelope :=
  match r with
  | ReadFileContent filePath => read_file_content filePath
  | ForceSyncFromS3 => force_sync_from_s3
  | CreateFile parentPath fileName text => create_file parentPath fileName text
  | CreateFolder parentPath folderName => create_folder parentPath folderName
  | DeleteItem itemPath => delete_item itemPath
  | ImportFile sourcePath targetDirectory => import_file sourcePath targetDirectory
  | ImportFileFromBuffer fileName buffer targetDirectory =>
      import_file_from_buffer fileName buffer targetDirectory
  | MoveItem sourcePath targetDirectory => move_item sourcePath targetDirectory
  end.

End Engine.
End SyncFs.

(** * What the statements below are written with *)

(** The files a listing shows, each by the names on the way from the listed
    directory to it: every entry that is not a directory counts as a file,
    as in the [else] branch of [getAllFilesInDirectory]; a directory whose
    own listing fails shows nothing of what it holds. *)
Fixpoint filesUnder (entry : fsentry) : list (list string) :=
  match entry with
  | EDir n _ entries => map (cons n) (flat_map filesUnder entries)
  | EDirUnreadable _ _ _ => []
  | EFile n _ | EOther n => [[n]]
  end.

Definition listedFiles (entries : listing) : list (list string) :=
  match entries with
  | Throw _ => []
  | Ok es => flat_map filesUnder es
  end.

(** The key of a file from the key of the directory and the names that lead
    to the file: one [path.join] and one separator replacement per level. *)
Definition keyOf (P : Platform) (base : string) (names : list string) : string :=
  fold_left (fun acc n => replaceBackslashes (path_join P [acc; n])) names base.

(** A listing without its dot entries, at every depth. *)
Fixpoint pruneEntry (entry : fsentry) : list fsentry :=
  if startsWith (entry_name entry) "." then []
  else
    match entry with
    | EDir n st entries => [EDir n st (flat_map pruneEntry entries)]
    | _ => [entry]
    end.

Definition withoutDotfiles (entries : listing) : listing :=
  match entries with
  | Throw e => Throw e
  | Ok es => Ok (flat_map pruneEntry es)
  end.

(** The full paths of the regular files outside dot entries. *)
Fixpoint visibleUnder (P : Platform) (directory : string) (entry : fsentry)
  : list string :=
  if startsWith (entry_name entry) "." then []
  else
    let fullPath := path_join P [directory; entry_name entry] in
    match entry with
    | EDir _ _ entries => flat_map (visibleUnder P fullPath) entries
    | EFile _ _ => [fullPath]
    | _ => []
    end.

(** No directory outside dot entries fails to list. *)
Fixpoint readableEntry (entry : fsentry) : bool :=
  if startsWith (entry_name entry) "." then true
  else
    match entry with
    | EDir _ _ entries => forallb readableEntry entries
    | EDirUnreadable _ _ _ => false
    | _ => true
    end.

(** No node of a snapshot, at any depth, has a name that begins with a
    dot. *)
Fixpoint dotfree (n : FileSystemNode) : bool :=
  match n with
  | mkNode _ name _ _ _ _ _ children _ =>
      negb (startsWith name ".") &&
      match children with
      | Some cs => forallb dotfree cs
      | None => true
      end
  end.

(** Classes of calls. *)
Definition isDeleteObject (ev : event) : bool :=
  match ev with EvDeleteObject _ _ => true | _ => false end.

Definition isPutObject (ev : event) : bool :=
  match ev with EvPutObject _ _ _ _ => true | _ => false end.

Definition isGetObject (ev : event) : bool :=
  match ev with EvGetObject _ _ => true | _ => false end.


Definition isRm (ev : event) : bool :=
  match ev with EvRm _ => true | _ => false end.


(** The local files an upload was started for: [uploadFile] opens the file
    first, and nothing else in the engine opens a file. *)
Fixpoint uploadsStarted (tr : list event) : list string :=
  match tr with
  | [] => []
  | EvOpenSync p :: rest => p :: uploadsStarted rest
  | _ :: rest => uploadsStarted rest
  end.


(** * A concrete platform and a simulated world, to run the code on *)
Module Posix.

(** [s.split('/')] *)
Fixpoint splitSlash (s : string) : list string :=
  match s with
  | EmptyString => [EmptyString]
  | String c rest =>
      if Ascii.eqb c "/"%char then EmptyString :: splitSlash rest
      else
        match splitSlash rest with
        | [] => [String c EmptyString]
        | seg :: segs => String c seg :: segs
        end
  end.

Definition joinSlash (segs : list string) : string := String.concat "/" segs.

(** The segment walk of Node's [normalizeString]: the kept segments, last
    one first. *)
Fixpoint normalizeSegments (allowAboveRoot : bool) (segs kept : list string)
  : list string :=
  match segs with
  | [] => kept
  | seg :: rest =>
      if (String.eqb seg "" || String.eqb seg ".")%bool then
        normalizeSegments allowAboveRoot rest kept
      else if String.eqb seg ".." then
        match kept with
        | top :: below =>
            if String.eqb top ".." then
              normalizeSegments allowAboveRoot rest (seg :: kept)
            else normalizeSegments allowAboveRoot rest below
        | [] =>
            if allowAboveRoot then normalizeSegments allowAboveRoot rest [seg]
            else normalizeSegments allowAboveRoot rest []
        end
      else normalizeSegments allowAboveRoot rest (seg :: kept)
  end.

Fixpoint endsWithSlash (s : string) : bool :=
  match s with
  | EmptyString => false
  | String c EmptyString => Ascii.eqb c "/"%char
  | String _ rest => endsWithSlash rest
  end.

(** [path.posix.normalize] *)
Definition normalize (p : string) : string :=
  if String.eqb p "" then "."
  else
    let isAbsolute := startsWith p "/" in
    let trailing := endsWithSlash p in
    let body :=
      joinSlash (rev (normalizeSegments (negb isAbsolute) (splitSlash p) [])) in
    if String.eqb body "" then
      if isAbsolute then "/" else if trailing then "./" else "."
    else
      let body := if trailing then body ++ "/" else body in
      if isAbsolute then "/" ++ body else body.

(** [path.posix.join] *)
Definition join (parts : list string) : string :=
  let joined := joinSlash (filter (fun s => negb (String.eqb s "")) parts) in
  if String.eqb joined "" then "." else normalize joined.

Fixpoint dropCommon (a b : list string) : list string * list string :=
  match a, b with
  | x :: a', y :: b' => if String.eqb x y then dropCommon a' b' else (a, b)
  | _, _ => (a, b)
  end.

(** [path.posix.relative], both arguments absolute. *)
Definition relative (from to : string) : string :=
  let f := rev (normalizeSegments false (splitSlash from) []) in
  let t := rev (normalizeSegments false (splitSlash to) []) in
  let (f', t') := dropCommon f t in
  joinSlash (map (fun _ => "..") f' ++ t')%list.

(** [path.posix.basename]: the part after the last slash, trailing slashes
    dropped; [..] and [.] are segments like any other. *)
Definition basename (p : string) : string :=
  match filter (fun s => negb (String.eqb s "")) (rev (splitSlash p)) with
  | last :: _ => last
  | [] => ""
  end.

(** [path.posix.dirname] *)
Definition dirname (p : string) : string :=
  match filter (fun s => negb (String.eqb s "")) (rev (splitSlash p)) with
  | _ :: (_ :: _) as above =>
      (if startsWith p "/" then "/" else "") ++ joinSlash (rev above)
  | _ => if startsWith p "/" then "/" else "."
  end.

(** Decimal digits, [width] of them. *)
Fixpoint digits (width : nat) (n : Z) : string :=
  match width with
  | O => ""
  | S w => digits w (n / 10) ++ String (ascii_of_nat (48 + Z.to_nat (n mod 10))) ""
  end.

(** [Date.prototype.toISOString] for the years 0 to 9999. *)
Definition toISOString (ms : Z) : string :=
  let days := ms / 86400000 in
  let rest := ms mod 86400000 in
  let z := days + 719468 in
  let era := z / 146097 in
  let doe := z - era * 146097 in
  let yoe := (doe - doe / 1460 + doe / 36524 - doe / 146096) / 365 in
  let doy := doe - (365 * yoe + yoe / 4 - yoe / 100) in
  let mp := (5 * doy + 2) / 153 in
  let d := doy - (153 * mp + 2) / 5 + 1 in
  let m := if mp <? 10 then mp + 3 else mp - 9 in
  let y := yoe + era * 400 + (if m <=? 2 then 1 else 0) in
  digits 4 y ++ "-" ++ digits 2 m ++ "-" ++ digits 2 d ++ "T" ++
  digits 2 (rest / 3600000) ++ ":" ++ digits 2 (rest / 60000 mod 60) ++ ":" ++
  digits 2 (rest / 1000 mod 60) ++ "." ++ digits 3 (rest mod 1000) ++ "Z".

(** The number a string of decimal digits writes, if it is one. *)
Fixpoint number (s : string) (acc : Z) : option Z :=
  match s with
  | EmptyString => Some acc
  | String c rest =>
      let v := Z.of_nat (nat_of_ascii c) - 48 in
      if ((0 <=? v) && (v <=? 9))%bool then number rest (10 * acc + v) else None
  end.

Definition field (s : string) (start len : nat) : option Z :=
  number (String.substring start len s) 0.

Definition inRange (lo hi v : Z) : bool := (lo <=? v) && (v <=? hi).

(** The time value of the fields of a date-time string, with the range
    checks V8 applies: month 1-12, day 1-31, hour 0-23, minute and second
    0-59, and 24:00:00.000 for the end of the day. *)
Definition dateOfFields (y m d hh mm ss mss : Z) : JsDate :=
  if (inRange 1 12 m && inRange 1 31 d
      && ((inRange 0 23 hh && inRange 0 59 mm && inRange 0 59 ss)
          || ((hh =? 24) && (mm =? 0) && (ss =? 0) && (mss =? 0))))%bool
  then
    let y' := if m <=? 2 then y - 1 else y in
    let era := y' / 400 in
    let yoe := y' - era * 400 in
    let mp := if 2 <? m then m - 3 else m + 9 in
    let doy := (153 * mp + 2) / 5 + d - 1 in
    let doe := yoe * 365 + yoe / 4 - yoe / 100 + doy in
    let days := era * 146097 + doe - 719468 in
    DateMs (days * 86400000 + hh * 3600000 + mm * 60000 + ss * 1000 + mss)
  else InvalidDate.

(** [new Date(s)] on the two UTC date-time forms [YYYY-MM-DDTHH:mm:ss.sssZ]
    (what [toISOString] writes) and [YYYY-MM-DDTHH:mm:ssZ].  The other
    strings [new Date] reads (offsets, date-only and legacy forms) are taken
    as unparseable: the runs below only meet stamps [toISOString] wrote. *)
Definition newDate (s : string) : JsDate :=
  let separators (n : bool) :=
    String.substring 4 1 s ++ String.substring 7 1 s ++
    String.substring 10 1 s ++ String.substring 13 1 s ++
    String.substring 16 1 s ++ String.substring 19 1 s ++
    (if n then String.substring 23 1 s else "") in
  if (Nat.eqb (String.length s) 24 && String.eqb (separators true) "--T::.Z")%bool
  then
    match field s 0 4, field s 5 2, field s 8 2, field s 11 2, field s 14 2,
          field s 17 2, field s 20 3 with
    | Some y, Some m, Some d, Some hh, Some mm, Some ss, Some mss =>
        dateOfFields y m d hh mm ss mss
    | _, _, _, _, _, _, _ => InvalidDate
    end
  else if (Nat.eqb (String.length s) 20 && String.eqb (separators false) "--T::Z")%bool
  then
    match field s 0 4, field s 5 2, field s 8 2, field s 11 2, field s 14 2,
          field s 17 2 with
    | Some y, Some m, Some d, Some hh, Some mm, Some ss =>
        dateOfFields y m d hh mm ss 0
    | _, _, _, _, _, _ => InvalidDate
    end
  else InvalidDate.

(** Base64 of a byte string. *)
Definition b64char (n : Z) : ascii :=
  match String.get (Z.to_nat n)
    "ABCDEFGHIJKLMNOPQRSTUVWXYZabcdefghijklmnopqrstuvwxyz0123456789+/" with
  | Some c => c
  | None => "="%char
  end.

Fixpoint base64 (s : string) : string :=
  match s with
  | EmptyString => ""
  | String a EmptyString =>
      let x := Z.of_nat (nat_of_ascii a) in
      String (b64char (x / 4)) (String (b64char (x mod 4 * 16)) "==")
  | String a (String b EmptyString) =>
      let x := Z.of_nat (nat_of_ascii a) in
      let y := Z.of_nat (nat_of_ascii b) in
      String (b64char (x / 4))
        (String (b64char (x mod 4 * 16 + y / 16))
           (String (b64char (y mod 16 * 4)) "="))
  | String a (String b (String c rest)) =>
      let x := Z.of_nat (nat_of_ascii a) in
      let y := Z.of_nat (nat_of_ascii b) in
      let z := Z.of_nat (nat_of_ascii c) in
      String (b64char (x / 4))
        (String (b64char (x mod 4 * 16 + y / 16))
           (String (b64char (y mod 16 * 4 + z / 64))
              (String (b64char (z mod 64)) (base64 rest))))
  end.

(** [`${error}`] *)
Definition stringOfExn (e : exn) : string :=
  match exn_name e with
  | Some n => n ++ ": " ++ exn_message e
  | None => exn_message e
  end.

Definition platform : Platform :=
  {| path_join := join;
     path_relative := relative;
     path_basename := basename;
     path_dirname := dirname;
     path_isAbsolute := fun p => startsWith p "/";
     os_platform := "linux";
     os_homedir := "/home/user";
     app_getName := "Axi";
     app_getPath_userData := "/home/user/.config/Axi";
     Date_toISOString := toISOString;
     Date_new := newDate;
     Buffer_base64 := base64;
     String_of_exn := stringOfExn |}.

End Posix.

(** A small world: local files with their times and locks, the listings of
    the directories, a bucket, and a clock that every write advances.  The
    listings are given and stay as they are. *)
Module Sim.

Record LocalFile : Type := mkLocalFile {
  lf_content : string;
  lf_mtime : Z;
  lf_locked : bool
}.

Record RemoteObject : Type := mkRemoteObject {
  ro_body : string;
  ro_lastModified : Z;
  ro_metadata : option (list (string * string))
}.

Record World : Type := mkWorld {
  clock : Z;
  files : list (string * LocalFile);
  dirs : list (string * listing);
  bucket : list (string * RemoteObject);
  online : bool;
  destroyed : bool
}.

Fixpoint find {A} (k : string) (l : list (string * A)) : option A :=
  match l with
  | [] => None
  | (k', v) :: rest => if String.eqb k' k then Some v else find k rest
  end.

Definition remove {A} (k : string) (l : list (string * A)) : list (string * A) :=
  filter (fun kv => negb (String.eqb (fst kv) k)) l.

Definition put {A} (k : string) (v : A) (l : list (string * A))
  : list (string * A) :=
  (remove k l ++ [(k, v)])%list.

(** The path [k] is [dir] or lies below it. *)
Definition below (dir k : string) : bool :=
  String.eqb k dir || startsWith k (dir ++ "/").

(** What a recursive removal of [dir] leaves. *)
Definition removeTree {A} (dir : string) (l : list (string * A))
  : list (string * A) :=
  filter (fun kv => negb (below dir (fst kv))) l.

(** The paths of the local files at or below [dir]. *)
Definition filesBelow (dir : string) (l : list (string * LocalFile)) : list string :=
  map fst (filter (fun kv => below dir (fst kv)) l).

Definition ENOENT : exn := mkExn (Some "Error") None "ENOENT: no such file or directory".
Definition EBUSY : exn := mkExn (Some "Error") None "EBUSY: resource busy or locked".
Definition EACCES : exn := mkExn (Some "Error") None "EACCES: permission denied".
Definition ECONNREFUSED : exn := mkExn (Some "Error") None "connect ECONNREFUSED".
Definition NotFound : exn := mkExn (Some "NotFound") (Some 404) "UnknownError".
Definition NoSuchKey : exn := mkExn (Some "NoSuchKey") (Some 404) "The specified key does not exist.".

Definition statOfFile (f : LocalFile) : Stats :=
  mkStats false true (Z.of_nat (String.length (lf_content f))) (lf_mtime f) (lf_mtime f).

Definition statOfDir : Stats := mkStats true false 0 0 0.

Definition withFiles (w : World) (fs : list (string * LocalFile)) : World :=
  mkWorld (clock w + 1) fs (dirs w) (bucket w) (online w) (destroyed w).

Definition withDirs (w : World) (ds : list (string * listing)) : World :=
  mkWorld (clock w) (files w) ds (bucket w) (online w) (destroyed w).

Definition withBucket (w : World) (b : list (string * RemoteObject)) : World :=
  mkWorld (clock w + 1) (files w) (dirs w) b (online w) (destroyed w).

Definition write (p text : string) (w : World) : World :=
  let locked := match find p (files w) with Some f => lf_locked f | None => false end in
  withFiles w (put p (mkLocalFile text (clock w) locked) (files w)).

Definition isSome {A} (o : option A) : bool :=
  match o with Some _ => true | None => false end.

(** What the store does when it can be reached. *)
Definition whenOnline {A} (w : World) (answer : result A * World)
  : result A * World :=
  if online w then answer else (Throw ECONNREFUSED, w).

Definition oracle : Oracle World :=
  {| fs_existsSync := fun p w =>
       (isSome (find p (files w)) || isSome (find p (dirs w)), w);
     fs_mkdir := fun p w =>
       if isSome (find p (dirs w)) then (Ok tt, w)
       else (Ok tt, withDirs w (put p (Ok []) (dirs w)));
     fs_readFile := fun p w =>
       match find p (files w) with
       | Some f => (Ok (lf_content f), w)
       | None => (Throw ENOENT, w)
       end;
     fs_writeFile := fun p text w => (Ok tt, write p text w);
     fs_stat := fun p w =>
       match find p (files w) with
       | Some f => (Ok (statOfFile f), w)
       | None =>
           if isSome (find p (dirs w)) then (Ok statOfDir, w)
           else (Throw ENOENT, w)
       end;
     fs_readdir := fun p w =>
       match find p (dirs w) with
       | Some l => (l, w)
       | None => (Throw ENOENT, w)
       end;
     fs_rm := fun p w =>
       (Ok tt, withDirs (withFiles w (removeTree p (files w)))
                        (removeTree p (dirs w)));
     fs_unlink := fun p w =>
       if isSome (find p (files w)) then (Ok tt, withFiles w (remove p (files w)))
       else (Throw ENOENT, w);
     fs_copyFile := fun src dst w =>
       match find src (files w) with
       | Some f => (Ok tt, write dst (lf_content f) w)
       | None => (Throw ENOENT, w)
       end;
     fs_rename := fun src dst w =>
       match find src (files w) with
       | Some f => (Ok tt, withFiles w (put dst f (remove src (files w))))
       | None => (Throw ENOENT, w)
       end;
     fs_openSync := fun p w =>
       match find p (files w) with
       | Some f => if lf_locked f then (Throw EBUSY, w) else (Ok 3, w)
       | None => (Throw ENOENT, w)
       end;
     fs_closeSync := fun _ w => (Ok tt, w);
     s3_ListObjectsV2 := fun _ w =>
       whenOnline w
         (Ok (mkListOutput
                (match bucket w with
                 | [] => None
                 | b => Some (map (fun kv => mkS3Object (Some (fst kv))) b)
                 end)), w);
     s3_HeadObject := fun _ key w =>
       whenOnline w
         match find key (bucket w) with
         | Some o =>
             (Ok (mkHeadOutput (Some (DateMs (ro_lastModified o))) None
                               (ro_metadata o)), w)
         | None => (Throw NotFound, w)
         end;
     s3_GetObject := fun _ key w =>
       whenOnline w
         match find key (bucket w) with
         | Some o => (Ok (mkGetOutput (Some (Ok (ro_body o)))), w)
         | None => (Throw NoSuchKey, w)
         end;
     s3_PutObject := fun _ key body metadata w =>
       whenOnline w
         (Ok tt, withBucket w
                   (put key (mkRemoteObject body (clock w) (Some metadata))
                        (bucket w)));
     s3_DeleteObject := fun _ key w =>
       whenOnline w (Ok tt, withBucket w (remove key (bucket w)));
     win_isDestroyed := fun w => (destroyed w, w);
     win_send := fun _ _ w => (Ok tt, w) |}.

(** The watched directory of [Posix.platform]. *)
Definition root : string := "/home/user/.local/share/Axi/UserData/Files".

Definition start (w : World) : state World := mkState w [] true.

End Sim.

(** The remote delete call issued for an enumerated key. *)
Definition deleteCall (key : string) : event :=
  EvDeleteObject S3Service.BUCKET_NAME (stripLeadingSlash key).

Definition isOpenSync (ev : event) : bool :=
  match ev with EvOpenSync _ => true | _ => false end.

(** The origin time of the remote object exists and is not older than the
    local modification time. *)
Definition remoteAtLeastAsNew (metadata : option ObjectMetadata) (localMtime : Z)
  : Prop :=
  exists m x,
    metadata = Some m /\ XOriginalMtime m = Some (DateMs x) /\ localMtime <= x.

(** The same on the answer to the HEAD request: the object exists and
    carries a non-empty x-original-mtime that [new Date] reads as a time
    not before the local modification time. *)
Definition originNotOlder (P : Platform) (answer : result HeadOutput)
    (localMtime : Z) : Prop :=
  exists response md v x,
    answer = Ok response
    /\ head_Metadata response = Some md
    /\ lookup "x-original-mtime" md = Some v
    /\ v <> ""
    /\ Date_new P v = DateMs x
    /\ localMtime <= x.

(** [m] never throws, whatever the state it starts in. *)
Definition returns {W A} (m : M W A) : Prop :=
  forall s, exists a, outcome (m s) = Ok a.

(** Every value [m] returns satisfies [Q]. *)
Definition ensures {W A} (Q : A -> Prop) (m : M W A) : Prop :=
  forall s a, outcome (m s) = Ok a -> Q a.

(** An envelope says [success: true] and no error, or [success: false] and
    an error message. *)
Definition wellFormed (env : Envelope) : Prop :=
  match error env with
  | None => success env = true
  | Some _ => success env = false
  end.

(** [m] leaves the module's variables as they are and issues no call of
    the class [c]. *)
Definition quiet {W A} (c : event -> bool) (m : M W A) : Prop :=
  forall s,
    fileSystemData (final (m s)) = fileSystemData s
    /\ watcher (final (m s)) = watcher s
    /\ existsb c (calls (m s)) = false.

(** [m] returns and starts an upload for each of [paths], in order. *)
Definition pushes {W} (paths : list string) (m : M W unit) : Prop :=
  forall s, outcome (m s) = Ok tt /\ uploadsStarted (calls (m s)) = paths.

(** Worlds to run the code in. *)
Module Scenario.
Import Sim.

Definition fileStats (mtime : Z) : result Stats :=
  Ok (mkStats false true 5 mtime mtime).

Definition dirStats : result Stats := Ok statOfDir.

(** docs/ holds a.txt, the dotfile .secret, sub/b.txt and .git/config. *)
Definition docsEntries : list fsentry :=
  [EFile "a.txt" (fileStats 1000);
   EFile ".secret" (fileStats 1000);
   EDir "sub" dirStats [EFile "b.txt" (fileStats 1000)];
   EDir ".git" dirStats [EFile "config" (fileStats 1000)]].

Definition rootEntries : list fsentry :=
  [EFile "a.txt" (fileStats 1000);
   EFile ".hidden" (fileStats 1000);
   EDir "docs" dirStats docsEntries].

Definition hello : LocalFile := mkLocalFile "hello" 1000 false.

(** A watched tree with hidden entries, and a bucket that holds one object
    the tree does not have. *)
Definition tree : World :=
  mkWorld 2000
    [(root ++ "/a.txt", hello);
     (root ++ "/.hidden", hello);
     (root ++ "/docs/a.txt", hello);
     (root ++ "/docs/.secret", hello);
     (root ++ "/docs/sub/b.txt", hello);
     (root ++ "/docs/.git/config", hello)]
    [(root, Ok rootEntries);
     (root ++ "/docs", Ok docsEntries)]
    [("remote.txt",
      mkRemoteObject "remote" 1500
        (Some [("x-original-mtime", "1970-01-01T00:00:01.500Z")]))]
    true false.

(** One local file, held open by another program; an empty bucket. *)
Definition locked : World :=
  mkWorld 2000
    [(root ++ "/a.txt", mkLocalFile "hello" 1000 true)]
    [(root, Ok [EFile "a.txt" (fileStats 1000)])]
    [] true false.

(** One local file, modified at time 1000; an empty bucket; the clock
    stands at 2000. *)
Definition fresh : World :=
  mkWorld 2000
    [(root ++ "/a.txt", hello)]
    [(root, Ok [EFile "a.txt" (fileStats 1000)])]
    [] true false.

(** One local file, modified at time 1000; the bucket holds an object of
    the same key that another tool wrote at time 2000, without the
    x-original-mtime metadata. *)
Definition foreign : World :=
  mkWorld 3000
    [(root ++ "/a.txt", mkLocalFile "mine" 1000 false)]
    [(root, Ok [EFile "a.txt" (fileStats 1000)])]
    [("a.txt", mkRemoteObject "theirs" 2000 None)]
    true false.

(** One local file, modified at time 3000; the bucket holds an object of
    the same key whose x-original-mtime is 5000 and that the store received
    at time 2000 (the uploading machine's clock is ahead). *)
Definition skewed : World :=
  mkWorld 6000
    [(root ++ "/a.txt", mkLocalFile "old" 3000 false)]
    [(root, Ok [EFile "a.txt" (fileStats 3000)])]
    [("a.txt",
      mkRemoteObject "new" 2000
        (Some [("x-original-mtime", "1970-01-01T00:00:05.000Z")]))]
    true false.

(** The tree of [tree], and a store that cannot be reached. *)
Definition offline : World :=
  mkWorld (clock tree) (files tree) (dirs tree) (bucket tree) false false.

Definition guardedEntries : list fsentry :=
  [EFile "a.txt" (fileStats 1000);
   EDirUnreadable "private" dirStats EACCES].

(** The watched directory holds link.txt, a symbolic link, and docs/;
    docs/ holds a.txt and the directory private/, which holds key.txt and
    cannot be listed; the bucket holds an object for each of the two files
    of docs/. *)
Definition guarded : World :=
  mkWorld 2000
    [(root ++ "/link.txt", hello);
     (root ++ "/docs/a.txt", hello);
     (root ++ "/docs/private/key.txt", hello)]
    [(root, Ok [EOther "link.txt"; EDir "docs" dirStats guardedEntries]);
     (root ++ "/docs", Ok guardedEntries);
     (root ++ "/docs/private", Throw EACCES)]
    [("docs/a.txt",
      mkRemoteObject "hello" 1500
        (Some [("x-original-mtime", "1970-01-01T00:00:01.000Z")]));
     ("docs/private/key.txt",
      mkRemoteObject "hello" 1500
        (Some [("x-original-mtime", "1970-01-01T00:00:01.000Z")]))]
    true false.

End Scenario.

(** * s3.ts, the start-up of the service *)

(** [bucketExists], [createBucket] and [init] (s3.ts lines 39-68 and
    173-190) send the two bucket commands and nothing else; they are run
    against the store alone, the commands they send collected in order. *)
Module S3ServiceInit.

Inductive BucketCommand : Type :=
| HeadBucket (bucket : string)
| CreateBucket (bucket : string).

Record BucketOracle (W : Type) : Type := mkBucketOracle {
  s3_HeadBucket : string -> W -> result unit * W;
  s3_CreateBucket : string -> W -> result unit * W
}.
Arguments s3_HeadBucket {W} _ _ _.
Arguments s3_CreateBucket {W} _ _ _.

Section Init.
Context {W : Type} (O : BucketOracle W).

(** s3.ts lines 39-52 *)
Definition bucketExists (bucketName : string) (w : W)
  : result bool * W * list BucketCommand :=
  match s3_HeadBucket O bucketName w with
  | (Ok _, w1) => (Ok true, w1, [HeadBucket bucketName])
  | (Throw error, w1) =>
      if S3Service.isNotFound error
      then (Ok false, w1, [HeadBucket bucketName])
      else (Throw error, w1, [HeadBucket bucketName])
  end.

(** s3.ts lines 58-68 *)
Definition createBucket (bucketName : string) (w : W)
  : result bool * W * list BucketCommand :=
  match s3_CreateBucket O bucketName w with
  | (Ok _, w1) => (Ok true, w1, [CreateBucket bucketName])
  | (Throw _, w1) => (Ok false, w1, [CreateBucket bucketName])
  end.

(** s3.ts lines 173-190 *)
Definition init (w : W) : result unit * W * list BucketCommand :=
  match bucketExists S3Service.BUCKET_NAME w with
  | (Ok exists_, w1, t1) =>
      if negb exists_ then
        match createBucket S3Service.BUCKET_NAME w1 with
        | (Ok _, w2, t2) => (Ok tt, w2, (t1 ++ t2)%list)
        | (Throw _, w2, t2) => (Ok tt, w2, (t1 ++ t2)%list)
        end
      else (Ok tt, w1, t1)
  | (Throw _, w1, t1) => (Ok tt, w1, t1)
  end.

End Init.
End S3ServiceInit.

(** A store for the start-up: it cannot be reached ([None]), or it can and
    the bucket exists or not. *)
Definition bucketStore : S3ServiceInit.BucketOracle (option bool) :=
  {| S3ServiceInit.s3_HeadBucket := fun _ w =>
       match w with
       | None => (Throw Sim.ECONNREFUSED, w)
       | Some true => (Ok tt, w)
       | Some false => (Throw Sim.NotFound, w)
       end;
     S3ServiceInit.s3_CreateBucket := fun _ w =>
       match w with
       | None => (Throw Sim.ECONNREFUSED, w)
       | Some _ => (Ok tt, Some true)
       end |}.

(** * More classes of calls, and properties of keys *)

(** A command sent to the store. *)
Definition isS3 (ev : event) : bool :=
  match ev with
  | EvListObjects _ | EvHeadObject _ _ | EvGetObject _ _
  | EvPutObject _ _ _ _ | EvDeleteObject _ _ => true
  | _ => false
  end.

Definition isEmit (ev : event) : bool :=
  match ev with EvEmit _ _ => true | _ => false end.


Definition isWriteFile (ev : event) : bool :=
  match ev with EvWriteFile _ _ => true | _ => false end.

Definition isMkdir (ev : event) : bool :=
  match ev with EvMkdir _ => true | _ => false end.

(** A command to the store or an event handed to the watcher's listeners:
    what reaches, or can come to reach, the remote side. *)
Definition isRemoteOrEmit (ev : event) : bool := isS3 ev || isEmit ev.

(** A command that changes the bucket. *)
Definition changesStore (ev : event) : bool :=
  isPutObject ev || isDeleteObject ev.

(** A call that changes the local tree. *)
Definition changesLocalTree (ev : event) : bool :=
  match ev with
  | EvMkdir _ | EvWriteFile _ _ | EvRm _ | EvUnlink _
  | EvCopyFile _ _ | EvRename _ _ => true
  | _ => false
  end.

(** The string holds no backslash. *)
Fixpoint noBackslash (s : string) : bool :=
  match s with
  | EmptyString => true
  | String c rest => negb (Ascii.eqb c "\"%char) && noBackslash rest
  end.

(** A command to the store on one object whose key holds a backslash. *)
Definition hasBackslashKey (ev : event) : bool :=
  match ev with
  | EvHeadObject _ k | EvGetObject _ k | EvPutObject _ k _ _
  | EvDeleteObject _ k => negb (noBackslash k)
  | _ => false
  end.

(** What push-all may issue: the listing of the watched directory, calls
    that only read a local file, and HEAD and PUT on the engine's bucket
    for a key without backslash. *)
Definition pushFootprint (ev : event) : bool :=
  match ev with
  | EvReaddir _ | EvOpenSync _ | EvCloseSync _ | EvStat _ | EvReadFile _ => true
  | EvHeadObject b k | EvPutObject b k _ _ =>
      String.eqb b "9527" && noBackslash k
  | _ => false
  end.

(** What a pull pass may issue: the listing of the engine's bucket, HEAD
    and GET on it, existence and stat probes, the creation of a directory
    and the write of a file. *)
Definition pullFootprint (ev : event) : bool :=
  match ev with
  | EvListObjects b | EvHeadObject b _ | EvGetObject b _ => String.eqb b "9527"
  | EvExistsSync _ | EvStat _ | EvMkdir _ | EvWriteFile _ _ => true
  | _ => false
  end.

(** What the upload of one local file under one key may issue: calls that
    read that file, and HEAD and PUT on the engine's bucket for that key. *)
Definition uploadFootprint (localFilePath key : string) (ev : event) : bool :=
  match ev with
  | EvOpenSync p | EvStat p | EvReadFile p => String.eqb p localFilePath
  | EvCloseSync _ => true
  | EvHeadObject b k | EvPutObject b k _ _ =>
      String.eqb b "9527" && String.eqb k key
  | _ => false
  end.

(** The key the watcher listeners derive from the full path of a file:
    syncfs.ts lines 511 and 528, then s3.ts lines 205 and 248. *)
Definition keyOfPath (P : Platform) (filePath : string) : string :=
  stripLeadingSlash
    (replaceBackslashes (path_relative P (getUserFilesDir P) filePath)).

(** A world in which every call succeeds, every path exists and [stat]
    answers the same for every path. *)
Definition uniformOracle (stats : Stats) : Oracle unit :=
  {| fs_existsSync := fun _ w => (true, w);
     fs_mkdir := fun _ w => (Ok tt, w);
     fs_readFile := fun _ w => (Ok "", w);
     fs_writeFile := fun _ _ w => (Ok tt, w);
     fs_stat := fun _ w => (Ok stats, w);
     fs_readdir := fun _ w => (Ok [], w);
     fs_rm := fun _ w => (Ok tt, w);
     fs_unlink := fun _ w => (Ok tt, w);
     fs_copyFile := fun _ _ w => (Ok tt, w);
     fs_rename := fun _ _ w => (Ok tt, w);
     fs_openSync := fun _ w => (Ok 3, w);
     fs_closeSync := fun _ w => (Ok tt, w);
     s3_ListObjectsV2 := fun _ w => (Ok (mkListOutput None), w);
     s3_HeadObject := fun _ _ w => (Throw (mkExn (Some "NotFound") (Some 404) ""), w);
     s3_GetObject := fun _ _ w => (Throw (mkExn (Some "NoSuchKey") (Some 404) ""), w);
     s3_PutObject := fun _ _ _ _ w => (Ok tt, w);
     s3_DeleteObject := fun _ _ w => (Ok tt, w);
     win_isDestroyed := fun w => (false, w);
     win_send := fun _ _ w => (Ok tt, w) |}.


(** The depth-first walk of the entries of [directory] meets a directory
    outside dot entries whose listing fails, at whatever depth, after
    having met the regular files [pushed] outside dot entries: the failing
    directory is an entry of [directory] itself, or lies in a listable
    sub-directory; every directory met before it lists. *)
Inductive stopsAt (P : Platform) : string -> list fsentry -> list string -> Prop :=
| stops_here (directory : string) (before : list fsentry) (name : string)
    (st : result Stats) (e : exn) (after : list fsentry) :
    startsWith name "." = false ->
    forallb readableEntry before = true ->
    stopsAt P directory (before ++ EDirUnreadable name st e :: after)
      (flat_map (visibleUnder P directory) before)
| stops_below (directory : string) (before : list fsentry) (name : string)
    (st : result Stats) (entries after : list fsentry) (pushed : list string) :
    startsWith name "." = false ->
    forallb readableEntry before = true ->
    stopsAt P (path_join P [directory; name]) entries pushed ->
    stopsAt P directory (before ++ EDir name st entries :: after)
      (flat_map (visibleUnder P directory) before ++ pushed).

(** A call the refresh of the snapshot makes. *)
Definition isRefreshCall (ev : event) : bool :=
  match ev with
  | EvReaddir _ | EvIsDestroyed | EvSend _ _ => true
  | _ => false
  end.

(** ** Shapes of snapshots and listings *)

Definition present {A} (o : option A) : bool :=
  match o with Some _ => true | None => false end.

(** A node as [scanDirectory] builds it: the id is the base64 of the path;
    a file is a leaf with a size and no children; a folder is no leaf, has
    no size and has children, each of them such a node whose path is the
    folder's path joined with its name; the two dates are there. *)
Fixpoint wellShaped (P : Platform) (n : FileSystemNode) : bool :=
  match n with
  | mkNode id name type path size created modified children isLeaf =>
      String.eqb id (Buffer_base64 P path)
      && present created && present modified
      && match type with
         | TFile => isLeaf && present size && negb (present children)
         | TFolder =>
             negb isLeaf && negb (present size)
             && match children with
                | Some cs =>
                    forallb (fun c =>
                               String.eqb (node_path c)
                                          (path_join P [path; node_name c])
                               && wellShaped P c) cs
                | None => false
                end
         end
  end.

(** An entry the scan makes a node of: a regular file or a directory whose
    name does not begin with a dot. *)
Definition shown (entry : fsentry) : bool :=
  negb (startsWith (entry_name entry) ".")
  && match entry with EOther _ => false | _ => true end.

(** The stat of the entry throws. *)
Definition statThrows (entry : fsentry) : bool :=
  match entry with
  | EFile _ (Throw _) | EDir _ (Throw _) _ | EDirUnreadable _ (Throw _) _ => true
  | _ => false
  end.

(** * Runs that return *)

Section Returns.
Context {W : Type}.

Lemma returns_ret {A} (a : A) : returns (@ret W A a).
Proof. intros s. exists a. reflexivity. Qed.

Lemma returns_ask {A} ev (q : W -> A * W) : returns (ask ev q).
Proof.
  intros s. unfold ask, outcome. destruct (q (world s)) as [a w].
  exists a. reflexivity.
Qed.

Lemma returns_tell ev : returns (@tell W ev).
Proof. intros s. exists tt. reflexivity. Qed.

Lemma returns_bind {A B} (m : M W A) (f : A -> M W B) :
  returns m -> (forall a, returns (f a)) -> returns (bind m f).
Proof.
  intros Hm Hf s. unfold bind, outcome.
  destruct (Hm s) as [a Ha]. unfold outcome in Ha.
  destruct (m s) as [[r s1] t1]. simpl in Ha. subst r.
  destruct (Hf a s1) as [b Hb]. unfold outcome in Hb.
  destruct (f a s1) as [[r2 s2] t2]. simpl in *. eauto.
Qed.

(** A [catch] clause that returns makes the whole statement return. *)
Lemma returns_try_catch {A} (m : M W A) (h : exn -> M W A) :
  (forall e, returns (h e)) -> returns (try_catch m h).
Proof.
  intros Hh s. unfold try_catch, outcome.
  destruct (m s) as [[[a|e] s1] t1]; simpl; eauto.
  destruct (Hh e s1) as [b Hb]. unfold outcome in Hb.
  destruct (h e s1) as [[r2 s2] t2]. simpl in *. eauto.
Qed.

(** A body that returns makes the [catch] clause dead. *)
Lemma returns_try_body {A} (m : M W A) (h : exn -> M W A) :
  returns m -> returns (try_catch m h).
Proof.
  intros Hm s. unfold try_catch, outcome.
  destruct (Hm s) as [a Ha]. unfold outcome in Ha.
  destruct (m s) as [[r s1] t1]. simpl in Ha. subst r. simpl. eauto.
Qed.

Lemma returns_for_of {A} (xs : list A) (body : A -> M W unit) :
  (forall x, returns (body x)) -> returns (for_of xs body).
Proof.
  intros Hb. induction xs as [|x rest IH].
  - apply returns_ret.
  - change (for_of (x :: rest) body) with (body x ;; for_of rest body).
    apply returns_bind; auto.
Qed.

Lemma returns_if {A} (b : bool) (m1 m2 : M W A) :
  returns m1 -> returns m2 -> returns (if b then m1 else m2).
Proof. destruct b; auto. Qed.

End Returns.

Create HintDb returns.
#[global] Hint Resolve returns_ret returns_ask returns_tell returns_bind
  returns_try_catch returns_for_of returns_if : returns.

(** What a run that returns the unit value amounts to. *)
Lemma returns_value {W} (m : M W unit) s :
  returns m -> outcome (m s) = Ok tt.
Proof. intros H. destruct (H s) as [[] E]. exact E. Qed.

Section S3Facts.
Context {W : Type} (P : Platform) (O : Oracle W).

Lemma listFiles_returns bucketName : returns (S3Service.listFiles O bucketName).
Proof. unfold S3Service.listFiles. auto with returns. Qed.

Lemma downloadFile_returns key localFilePath :
  returns (S3Service.downloadFile P O key localFilePath).
Proof. unfold S3Service.downloadFile. auto with returns. Qed.

Lemma deleteFile_returns relativePath :
  returns (S3Service.deleteFile O relativePath).
Proof. unfold S3Service.deleteFile. auto with returns. Qed.

Lemma isFileAccessible_returns filePath :
  returns (S3Service.isFileAccessible O filePath).
Proof. unfold S3Service.isFileAccessible. auto with returns. Qed.

Lemma pullFile_returns baseDir file : returns (SyncFs.pullFile P O baseDir file).
Proof.
  unfold SyncFs.pullFile. destruct (obj_Key file) as [k|]; auto with returns.
Qed.

Lemma pullAllFilesFromS3_returns baseDir :
  returns (SyncFs.pullAllFilesFromS3 P O baseDir).
Proof.
  unfold SyncFs.pullAllFilesFromS3. apply returns_try_body.
  apply returns_bind.
  - apply listFiles_returns.
  - intros files. apply returns_for_of. intros file. apply pullFile_returns.
Qed.

Lemma updateFileSystemData_returns : returns (SyncFs.updateFileSystemData P O).
Proof. unfold SyncFs.updateFileSystemData. auto with returns. Qed.

Lemma syncFile_returns filePath baseDir :
  returns (SyncFs.syncFile P O filePath baseDir).
Proof. unfold SyncFs.syncFile. auto with returns. Qed.

Lemma syncAllFiles_returns baseDir : returns (SyncFs.syncAllFiles P O baseDir).
Proof. unfold SyncFs.syncAllFiles. auto with returns. Qed.

End S3Facts.

(** * What a run returns, when it returns *)

Section Ensures.
Context {W : Type}.

Lemma ensures_ret {A} (Q : A -> Prop) (a : A) : Q a -> ensures Q (@ret W A a).
Proof. intros H s b E. injection E as <-. exact H. Qed.

Lemma ensures_bind {A B} (Q : B -> Prop) (m : M W A) (f : A -> M W B) :
  (forall a, ensures Q (f a)) -> ensures Q (bind m f).
Proof.
  intros Hf s b. unfold bind, outcome.
  destruct (m s) as [[[a|e] s1] t1]; simpl; [|discriminate].
  specialize (Hf a s1 b). unfold outcome in Hf.
  destruct (f a s1) as [[r2 s2] t2]. exact Hf.
Qed.

Lemma ensures_try_catch {A} (Q : A -> Prop) (m : M W A) (h : exn -> M W A) :
  ensures Q m -> (forall e, ensures Q (h e)) -> ensures Q (try_catch m h).
Proof.
  intros Hm Hh s b. unfold try_catch, outcome.
  specialize (Hm s). unfold outcome in Hm.
  destruct (m s) as [[[a|e] s1] t1]; simpl.
  - apply Hm.
  - specialize (Hh e s1 b). unfold outcome in Hh.
    destruct (h e s1) as [[r2 s2] t2]. exact Hh.
Qed.

Lemma ensures_if {A} (Q : A -> Prop) (b : bool) (m1 m2 : M W A) :
  ensures Q m1 -> ensures Q m2 -> ensures Q (if b then m1 else m2).
Proof. destruct b; auto. Qed.

End Ensures.

Ltac walk_handler :=
  repeat first
    [ apply ensures_try_catch; [|intros ?]
    | apply ensures_bind; intros ?
    | apply ensures_if
    | apply ensures_ret; reflexivity ].

Section HandlerFacts.
Context {W : Type} (P : Platform) (O : Oracle W).

Lemma handle_returns r : returns (SyncFs.handle P O r).
Proof.
  destruct r; simpl;
    apply returns_try_catch; intros e; apply returns_ret.
Qed.

Lemma handle_wellFormed r : ensures wellFormed (SyncFs.handle P O r).
Proof.
  destruct r; simpl;
    [ unfold SyncFs.read_file_content | unfold SyncFs.force_sync_from_s3
    | unfold SyncFs.create_file | unfold SyncFs.create_folder
    | unfold SyncFs.delete_item | unfold SyncFs.import_file
    | unfold SyncFs.import_file_from_buffer | unfold SyncFs.move_item ];
    walk_handler.
Qed.

End HandlerFacts.

(** * The claims *)

(** C8.  Each of the eight handlers that answer with a result envelope
    (read-file-content, force-sync-from-s3, create-file, create-folder,
    delete-item, import-file, import-file-from-buffer, move-item), on every
    input and whatever the file system, the store, the window and the
    watcher's listeners do, returns an envelope and throws nothing; the
    envelope carries an error message exactly when [success] is false. *)
Theorem handlers_answer_with_an_envelope {W : Type} (P : Platform) (O : Oracle W)
    (r : SyncFs.request) (s : state W) :
  exists env : Envelope,
    outcome (SyncFs.handle P O r s) = Ok env /\ wellFormed env.
Proof.
  destruct (handle_returns P O r s) as [env E].
  exists env. split; [exact E|].
  exact (handle_wellFormed P O r s env E).
Qed.

(** C6.  The force-sync-from-s3 handler answers [{success: true}] in every
    state of the world, the unreachable store included: [listFiles] returns
    the listed objects, and the empty list when the listing throws or has
    no [Contents]; the body of the pull loop returns for every listed
    object; [pullAllFilesFromS3] returns; so the handler's [catch] clause
    never runs. *)
Theorem forceSync_always_succeeds {W : Type} (P : Platform) (O : Oracle W)
    (s : state W) :
  outcome (SyncFs.force_sync_from_s3 P O s) = Ok SyncFs.succeeded
  /\ (forall bucketName s',
        outcome (S3Service.listFiles O bucketName s') =
        Ok match fst (s3_ListObjectsV2 O bucketName (world s')) with
           | Ok response =>
               match list_Contents response with
               | Some contents => contents
               | None => []
               end
           | Throw _ => []
           end)
  /\ (forall baseDir file s',
        outcome (SyncFs.pullFile P O baseDir file s') = Ok tt)
  /\ (forall baseDir s',
        outcome (SyncFs.pullAllFilesFromS3 P O baseDir s') = Ok tt).
Proof.
  assert (Hpull : forall baseDir s',
             outcome (SyncFs.pullAllFilesFromS3 P O baseDir s') = Ok tt).
  { intros. apply returns_value, pullAllFilesFromS3_returns. }
  repeat split.
  - unfold SyncFs.force_sync_from_s3, try_catch, bind, outcome.
    specialize (Hpull (getUserFilesDir P) s). unfold outcome in Hpull.
    destruct (SyncFs.pullAllFilesFromS3 P O (getUserFilesDir P) s)
      as [[r s1] t1]. simpl in Hpull. subst r. reflexivity.
  - intros bucketName s'.
    unfold S3Service.listFiles, try_catch, bind, call, ret, outcome.
    destruct (s3_ListObjectsV2 O bucketName (world s')) as [[response|e] w];
      simpl; [destruct (list_Contents response)|]; reflexivity.
  - intros. apply returns_value, pullFile_returns.
  - exact Hpull.
Qed.

(** The test of s3.ts lines 46 and 129, spelled out. *)
Lemma isNotFound_spec (e : exn) :
  S3Service.isNotFound e = true <->
  exn_name e = Some "NotFound" \/ exn_httpStatusCode e = Some 404.
Proof.
  unfold S3Service.isNotFound. rewrite orb_true_iff.
  destruct (exn_name e) as [n|], (exn_httpStatusCode e) as [c|];
    rewrite ?String.eqb_eq, ?Z.eqb_eq; split; intros [H|H];
    try discriminate; try (injection H as H); subst; auto.
Qed.

Lemma isNotFound_false (e : exn) :
  S3Service.isNotFound e = false <->
  ~ (exn_name e = Some "NotFound" \/ exn_httpStatusCode e = Some 404).
Proof.
  rewrite <- isNotFound_spec. destruct (S3Service.isNotFound e); split;
    congruence.
Qed.

(** C7.  [getObjectMetadata] sends one HEAD request for the key to bucket
    9527.  When the request succeeds it returns a metadata object (the
    store's LastModified and ETag, and the date the x-original-mtime entry
    writes when the response carries a non-empty one).  It returns [null]
    exactly when the request fails with an error whose name is [NotFound]
    or whose HTTP status is 404.  It throws exactly when the request fails
    with any other error, and then it throws that same error.  So an absent
    object and a transport failure never give the same result. *)
Theorem getObjectMetadata_tells_absence_from_failure {W : Type}
    (P : Platform) (O : Oracle W) (key : string) (s : state W) :
  let answer := fst (s3_HeadObject O "9527" key (world s)) in
  let run := S3Service.getObjectMetadata P O key s in
  let notFound (e : exn) :=
    exn_name e = Some "NotFound" \/ exn_httpStatusCode e = Some 404 in
  calls run = [EvHeadObject "9527" key]
  /\ (forall response,
        answer = Ok response ->
        outcome run =
        Ok (Some {| LastModified := head_LastModified response;
                    ETag := head_ETag response;
                    XOriginalMtime :=
                      match head_Metadata response with
                      | Some md =>
                          match lookup "x-original-mtime" md with
                          | Some "" => None
                          | Some v => Some (Date_new P v)
                          | None => None
                          end
                      | None => None
                      end |}))
  /\ (outcome run = Ok None <-> exists e, answer = Throw e /\ notFound e)
  /\ (forall e, outcome run = Throw e <-> answer = Throw e /\ ~ notFound e).
Proof.
  cbv zeta.
  unfold S3Service.getObjectMetadata, try_catch, bind, call, ret, throw,
    outcome, calls, S3Service.BUCKET_NAME.
  destruct (s3_HeadObject O "9527" key (world s)) as [[response|e] w];
    cbn [fst snd app].
  - split; [reflexivity|]. split; [|split].
    + intros response' E. injection E as <-.
      unfold S3Service.originalMtimeOf, truthy.
      destruct (head_Metadata response) as [md|]; [|reflexivity].
      destruct (lookup "x-original-mtime" md) as [[|c v]|]; reflexivity.
    + split; [discriminate|]. intros (e & E & _). discriminate.
    + intros e. split; [discriminate|]. intros [E _]. discriminate.
  - destruct (S3Service.isNotFound e) eqn:Hnf; cbn [fst snd app].
    + apply isNotFound_spec in Hnf.
      split; [reflexivity|]. split; [|split].
      * intros response E. discriminate.
      * split; [|reflexivity]. intros _. exists e. split; [reflexivity|exact Hnf].
      * intros e'. split; [discriminate|].
        intros [E Hno]. injection E as <-. contradiction.
    + apply isNotFound_false in Hnf.
      split; [reflexivity|]. split; [|split].
      * intros response E. discriminate.
      * split; [discriminate|].
        intros (e' & E & Hyes). injection E as <-. contradiction.
      * intros e'. split.
        -- intros H. injection H as <-. split; [reflexivity|exact Hnf].
        -- intros [H _]. injection H as <-. reflexivity.
Qed.

(** The probe at work on a reachable store without the object, and on an
    unreachable store. *)
Lemma getObjectMetadata_tells_absence_from_failure_witness :
  outcome (S3Service.getObjectMetadata Posix.platform Sim.oracle "a.txt"
             (Sim.start Scenario.fresh)) = Ok None
  /\ outcome (S3Service.getObjectMetadata Posix.platform Sim.oracle "a.txt"
                (Sim.start Scenario.offline)) = Throw Sim.ECONNREFUSED.
Proof.
  split.
  - apply (getObjectMetadata_tells_absence_from_failure
             Posix.platform Sim.oracle "a.txt" (Sim.start Scenario.fresh)).
    exists Sim.NotFound. split; [reflexivity|]. left. reflexivity.
  - apply (getObjectMetadata_tells_absence_from_failure
             Posix.platform Sim.oracle "a.txt" (Sim.start Scenario.offline)).
    split; [reflexivity|]. intros [H|H]; discriminate H.
Defined.

(** ** The scanner *)

Section ScannerFacts.
Context (P : Platform).

(** A loop whose iterations push dot-free nodes leaves a dot-free array. *)
Lemma collect_dotfree {A} (f : A -> result (list FileSystemNode)) (xs : list A) :
  Forall (fun x => forall ns, f x = Ok ns -> forallb dotfree ns = true) xs ->
  forall ns, collect f xs = Ok ns -> forallb dotfree ns = true.
Proof.
  induction 1 as [|x rest Hx _ IH]; intros ns; simpl.
  - intros E. injection E as <-. reflexivity.
  - destruct (f x) as [ys|e] eqn:Ex; [|discriminate].
    destruct (collect f rest) as [zs|e] eqn:Er; [|discriminate].
    intros E. injection E as <-.
    rewrite forallb_app, (Hx ys eq_refl), (IH zs eq_refl). reflexivity.
Qed.

Lemma list_all_Forall {A} (Q : A -> Prop) (xs : list A) :
  list_all A Q xs -> Forall Q xs.
Proof. induction 1; constructor; assumption. Qed.

Lemma scanEntry_dotfree (entry : fsentry) :
  forall relativePath ns,
    SyncFs.scanEntry P relativePath entry = Ok ns -> forallb dotfree ns = true.
Proof.
  induction entry as [name st|name st entries IH|name st e|name];
    intros relativePath ns; simpl;
    destruct (startsWith _ ".") eqn:Hdot;
    try (intros E; injection E as <-; reflexivity);
    try (destruct st as [stats|e']; [|discriminate];
         intros E; injection E as <-; simpl; rewrite Hdot; simpl).
  - reflexivity.
  - rewrite andb_true_r.
    destruct (collect _ entries) as [nodes|e'] eqn:Ec; [|reflexivity].
    eapply collect_dotfree; [|exact Ec].
    apply list_all_Forall in IH.
    eapply Forall_impl; [|exact IH]. intros x Hx ns. apply Hx.
  - reflexivity.
Qed.

Lemma scanDirectory_dotfree (entries : listing) (relativePath : string) :
  forallb dotfree (SyncFs.scanDirectory P entries relativePath) = true.
Proof.
  unfold SyncFs.scanDirectory. destruct entries as [es|e]; [|reflexivity].
  destruct (collect _ es) as [nodes|e] eqn:Ec; [|reflexivity].
  eapply collect_dotfree; [|exact Ec].
  apply Forall_forall. intros x _ ns. apply scanEntry_dotfree.
Qed.

End ScannerFacts.

Section RefreshFacts.
Context {W : Type} (P : Platform) (O : Oracle W).

(** What one refresh does: it lists the watched directory, stores the scan
    of the listing and, unless the window is destroyed, sends it. *)
Lemma updateFileSystemData_run (s : state W) :
  let root := getUserFilesDir P in
  let listed := fs_readdir O root (world s) in
  let snapshot := SyncFs.scanDirectory P (fst listed) "/" in
  let run := SyncFs.updateFileSystemData P O s in
  outcome run = Ok tt
  /\ fileSystemData (final run) = snapshot
  /\ watcher (final run) = watcher s
  /\ calls run =
     EvReaddir root :: EvIsDestroyed ::
     (if fst (win_isDestroyed O (snd listed)) then []
      else [EvSend "file-system-updated" snapshot]).
Proof.
  cbv zeta.
  unfold SyncFs.updateFileSystemData, try_catch, bind, ask, call,
    set_fileSystemData, get_fileSystemData, ret, outcome, final, calls.
  destruct (fs_readdir O (getUserFilesDir P) (world s)) as [l w1]. simpl.
  destruct (win_isDestroyed O w1) as [d w2]. simpl.
  destruct d; simpl; [repeat split|].
  destruct (win_send O _ _ w2) as [[u|e] w3]; simpl; repeat split.
  destruct u. reflexivity.
Qed.

End RefreshFacts.

(** C9.  No snapshot a scan produces has, at any depth, a node whose name
    begins with a dot: this holds of what [scanDirectory] returns on any
    listing, of the snapshot every refresh stores in [fileSystemData], and
    of the snapshot every refresh sends to the window. *)
Theorem snapshots_have_no_dotfiles {W : Type} (P : Platform) (O : Oracle W) :
  (forall (entries : listing) (relativePath : string),
      forallb dotfree (SyncFs.scanDirectory P entries relativePath) = true)
  /\ (forall s : state W,
        forallb dotfree
          (fileSystemData (final (SyncFs.updateFileSystemData P O s))) = true)
  /\ (forall s : state W,
        forallb
          (fun ev => match ev with
                     | EvSend _ data => forallb dotfree data
                     | _ => true
                     end)
          (calls (SyncFs.updateFileSystemData P O s)) = true).
Proof.
  split; [|split].
  - apply scanDirectory_dotfree.
  - intros s.
    destruct (updateFileSystemData_run P O s) as (_ & -> & _).
    apply scanDirectory_dotfree.
  - intros s.
    destruct (updateFileSystemData_run P O s) as (_ & _ & _ & ->).
    simpl. destruct (fst (win_isDestroyed O _)); simpl; [reflexivity|].
    rewrite scanDirectory_dotfree. reflexivity.
Qed.

(** ** The enumeration of [getAllFilesInDirectory] *)

Section EnumerationFacts.
Context (P : Platform).

Lemma keyOf_cons base n names :
  keyOf P base (n :: names) =
  keyOf P (replaceBackslashes (path_join P [base; n])) names.
Proof. reflexivity. Qed.

Lemma flat_map_map_keys {A} (f : A -> list string) (g : A -> list (list string))
    (k : list string -> string) (xs : list A) :
  Forall (fun x => f x = map k (g x)) xs ->
  flat_map f xs = map k (flat_map g xs).
Proof.
  induction 1 as [|x rest Hx _ IH]; simpl; [reflexivity|].
  rewrite map_app, Hx, IH. reflexivity.
Qed.

(** The loop adds one key per contained file, in the order of the listing. *)
Lemma filesOfEntry_keys (entry : fsentry) :
  forall base,
    SyncFs.filesOfEntry P base entry = map (keyOf P base) (filesUnder entry).
Proof.
  induction entry as [name st|name st entries IH|name st e|name];
    intros base; simpl; try reflexivity.
  rewrite map_map. simpl.
  apply flat_map_map_keys.
  apply list_all_Forall in IH.
  eapply Forall_impl; [|exact IH]. intros x Hx. apply Hx.
Qed.

Lemma getAllFilesInDirectory_keys (entries : listing) (base : string) :
  SyncFs.getAllFilesInDirectory P entries base =
  map (keyOf P base) (listedFiles entries).
Proof.
  destruct entries as [es|e]; simpl; [|reflexivity].
  apply flat_map_map_keys, Forall_forall. intros x _. apply filesOfEntry_keys.
Qed.

End EnumerationFacts.

(** ** The delete-item handler on a directory *)

Section DeleteFacts.
Context {W : Type} (P : Platform) (O : Oracle W).

(** One iteration of the loop: one delete call, whatever the store
    answers. *)
Lemma deleteRemoteFile_run (filePath : string) (s : state W) :
  exists w,
    try_catch (S3Service.deleteFile O filePath ;; ret tt) (fun _ => ret tt) s =
    (Ok tt, mkState w (fileSystemData s) (watcher s), [deleteCall filePath]).
Proof.
  unfold S3Service.deleteFile, try_catch, bind, call, ret, deleteCall.
  destruct (s3_DeleteObject O S3Service.BUCKET_NAME (stripLeadingSlash filePath)
              (world s)) as [[u|e] w1]; simpl; exists w1; reflexivity.
Qed.

(** The loop over the keys issues one delete call per key, in order, and
    goes on whatever the store answers. *)
Lemma deleteRemoteFiles_run (allFiles : list string) :
  forall s : state W,
  exists w,
    SyncFs.deleteRemoteFiles O allFiles s =
    (Ok tt, mkState w (fileSystemData s) (watcher s), map deleteCall allFiles).
Proof.
  induction allFiles as [|k rest IH]; intros s.
  - exists (world s). destruct s. reflexivity.
  - unfold SyncFs.deleteRemoteFiles.
    change (for_of (k :: rest) ?body) with (body k ;; for_of rest body).
    unfold bind at 1. cbv beta.
    destruct (deleteRemoteFile_run k s) as [w1 ->].
    fold (SyncFs.deleteRemoteFiles O rest).
    destruct (IH (mkState w1 (fileSystemData s) (watcher s))) as [w2 ->].
    exists w2. reflexivity.
Qed.

(** What delete-item does on a directory: it asks what the target is,
    lists it, issues the remote delete calls for the enumerated keys and
    then removes the local tree. *)
Lemma delete_item_directory_calls (itemPath : string) (s : state W)
    (stats : Stats) (w1 : W) (entries : listing) (w2 : W) :
  let normalizedPath := stripLeadingSlash itemPath in
  let fullPath := path_join P [getUserFilesDir P; normalizedPath] in
  fs_stat O fullPath (world s) = (Ok stats, w1) ->
  st_isDirectory stats = true ->
  fs_readdir O fullPath w1 = (entries, w2) ->
  calls (SyncFs.delete_item P O itemPath s) =
  ([EvStat fullPath; EvReaddir fullPath] ++
   map deleteCall (SyncFs.getAllFilesInDirectory P entries normalizedPath) ++
   [EvRm fullPath])%list.
Proof.
  cbv zeta. intros Hstat Hdir Hread.
  unfold SyncFs.delete_item, try_catch.
  unfold bind at 1. unfold call at 1. rewrite Hstat. cbn [world fileSystemData watcher].
  rewrite Hdir.
  unfold bind at 1. unfold bind at 1. unfold ask at 1.
  cbn [world fileSystemData watcher]. rewrite Hread.
  unfold bind at 1.
  destruct (deleteRemoteFiles_run
              (SyncFs.getAllFilesInDirectory P entries (stripLeadingSlash itemPath))
              (mkState w2 (fileSystemData s) (watcher s))) as [w3 ->].
  unfold call, ret, calls. cbn [world fileSystemData watcher].
  destruct (fs_rm O _ w3) as [[u|e] w4]; simpl;
    rewrite ?app_nil_r; reflexivity.
Qed.

End DeleteFacts.

(** ** Loops *)

Section LoopFacts.
Context {W : Type}.

Lemma bind_assoc {A B C} (m : M W A) (f : A -> M W B) (g : B -> M W C) s :
  bind (bind m f) g s = bind m (fun a => bind (f a) g) s.
Proof.
  unfold bind.
  destruct (m s) as [[[a|e] s1] t1]; [|reflexivity].
  destruct (f a s1) as [[[b|e] s2] t2]; [|reflexivity].
  destruct (g b s2) as [[r s3] t3]. rewrite app_assoc. reflexivity.
Qed.

Lemma bind_ext {A B} (m : M W A) (f g : A -> M W B) s :
  (forall a s1, f a s1 = g a s1) -> bind m f s = bind m g s.
Proof.
  intros H. unfold bind.
  destruct (m s) as [[[a|e] s1] t1]; [|reflexivity].
  rewrite H. reflexivity.
Qed.

Lemma for_of_cons {A} (x : A) (rest : list A) (body : A -> M W unit) :
  for_of (x :: rest) body = (body x ;; for_of rest body).
Proof. reflexivity. Qed.

Lemma for_of_nil {A} (body : A -> M W unit) : for_of [] body = ret tt.
Proof. reflexivity. Qed.

Lemma for_of_single {A} (x : A) (body : A -> M W unit) (s : state W) :
  for_of [x] body s = body x s.
Proof.
  rewrite for_of_cons, for_of_nil. unfold bind, ret.
  destruct (body x s) as [[[[]|e] s1] t1]; rewrite ?app_nil_r; reflexivity.
Qed.

Lemma for_of_app {A} (xs ys : list A) (body : A -> M W unit) :
  forall s, for_of (xs ++ ys) body s = (for_of xs body ;; for_of ys body) s.
Proof.
  induction xs as [|x rest IH]; intros s.
  - simpl app. unfold bind. rewrite for_of_nil. unfold ret.
    destruct (for_of ys body s) as [[r s2] t2]. reflexivity.
  - simpl app. rewrite !for_of_cons, bind_assoc.
    apply bind_ext. intros _ s1. apply IH.
Qed.

(** Replacing every element by elements the body treats the same way
    changes nothing. *)
Lemma for_of_flat_map {A} (g : A -> list A) (body : A -> M W unit) (xs : list A) :
  Forall (fun x => forall s, for_of (g x) body s = body x s) xs ->
  forall s, for_of (flat_map g xs) body s = for_of xs body s.
Proof.
  induction 1 as [|x rest Hx _ IH]; intros s; cbn [flat_map]; [reflexivity|].
  rewrite for_of_app, for_of_cons.
  transitivity ((body x ;; for_of (flat_map g rest) body) s).
  - unfold bind. rewrite Hx. reflexivity.
  - apply bind_ext. intros _ s1. apply IH.
Qed.

End LoopFacts.

Lemma collect_app {A B} (f : A -> result (list B)) (xs ys : list A) :
  collect f (xs ++ ys) =
  match collect f xs with
  | Throw e => Throw e
  | Ok a =>
      match collect f ys with
      | Throw e => Throw e
      | Ok b => Ok (a ++ b)%list
      end
  end.
Proof.
  induction xs as [|x rest IH]; simpl.
  - destruct (collect f ys); reflexivity.
  - destruct (f x) as [zs|e]; [|reflexivity]. rewrite IH.
    destruct (collect f rest) as [a|e]; [|reflexivity].
    destruct (collect f ys) as [b|e]; [|reflexivity].
    rewrite app_assoc. reflexivity.
Qed.

Lemma collect_flat_map {A B} (g : A -> list A) (f : A -> result (list B))
    (xs : list A) :
  Forall (fun x => collect f (g x) = f x) xs ->
  collect f (flat_map g xs) = collect f xs.
Proof.
  induction 1 as [|x rest Hx _ IH]; simpl; [reflexivity|].
  rewrite collect_app, Hx, IH. reflexivity.
Qed.

(** ** Dot entries are invisible to the scan and to push-all *)

Section DotFacts.
Context {W : Type} (P : Platform) (O : Oracle W).

Lemma collect_single {A B} (f : A -> result (list B)) (x : A) :
  collect f [x] = f x.
Proof. simpl. destruct (f x); rewrite ?app_nil_r; reflexivity. Qed.

Lemma scanEntry_prune (entry : fsentry) :
  forall relativePath,
    collect (SyncFs.scanEntry P relativePath) (pruneEntry entry) =
    SyncFs.scanEntry P relativePath entry.
Proof.
  induction entry as [name st|name st entries IH|name st e|name];
    intros relativePath; cbn [pruneEntry entry_name];
    destruct (startsWith _ ".") eqn:Hdot;
    try (rewrite collect_single);
    cbn [collect SyncFs.scanEntry entry_name]; rewrite ?Hdot; try reflexivity.
  destruct st as [stats|e]; [|reflexivity].
  rewrite collect_flat_map; [reflexivity|].
  apply list_all_Forall in IH.
  eapply Forall_impl; [|exact IH]. intros x Hx. apply Hx.
Qed.

Lemma scanDirectory_prune (entries : listing) (relativePath : string) :
  SyncFs.scanDirectory P (withoutDotfiles entries) relativePath =
  SyncFs.scanDirectory P entries relativePath.
Proof.
  destruct entries as [es|e]; [|reflexivity].
  unfold withoutDotfiles, SyncFs.scanDirectory.
  rewrite collect_flat_map; [reflexivity|].
  apply Forall_forall. intros x _. apply scanEntry_prune.
Qed.

Lemma processEntry_prune (entry : fsentry) :
  forall baseDir directory (s : state W),
    for_of (pruneEntry entry) (SyncFs.processEntry P O baseDir directory) s =
    SyncFs.processEntry P O baseDir directory entry s.
Proof.
  induction entry as [name st|name st entries IH|name st e|name];
    intros baseDir directory s; cbn [pruneEntry entry_name];
    destruct (startsWith _ ".") eqn:Hdot;
    try (rewrite for_of_single);
    cbn [SyncFs.processEntry entry_name]; rewrite ?Hdot; try reflexivity.
  apply for_of_flat_map.
  apply list_all_Forall in IH.
  eapply Forall_impl; [|exact IH]. intros x Hx. apply Hx.
Qed.

Lemma processDirectory_prune baseDir directory (entries : listing) (s : state W) :
  SyncFs.processDirectory P O baseDir directory (withoutDotfiles entries) s =
  SyncFs.processDirectory P O baseDir directory entries s.
Proof.
  destruct entries as [es|e]; [|reflexivity].
  unfold withoutDotfiles, SyncFs.processDirectory.
  apply for_of_flat_map.
  apply Forall_forall. intros x _. apply processEntry_prune.
Qed.

End DotFacts.

(** The files of a listing without dot entries have no dot on their way. *)
Lemma filesUnder_prune (entry : fsentry) :
  Forall (fun names => existsb (fun n => startsWith n ".") names = false)
         (flat_map filesUnder (pruneEntry entry)).
Proof.
  induction entry as [name st|name st entries IH|name st e|name];
    cbn [pruneEntry entry_name];
    destruct (startsWith _ ".") eqn:Hdot; simpl;
    try (constructor; simpl; rewrite ?Hdot; auto; fail).
  rewrite app_nil_r. apply Forall_forall. intros names Hin.
  apply in_map_iff in Hin. destruct Hin as (tl & <- & Hin).
  simpl. rewrite Hdot. simpl.
  apply list_all_Forall in IH.
  apply in_flat_map in Hin. destruct Hin as (x & Hx & Hin).
  apply in_flat_map in Hx. destruct Hx as (y & Hy & Hx).
  rewrite Forall_forall in IH. specialize (IH y Hy).
  rewrite Forall_forall in IH. apply IH.
  apply in_flat_map. exists x. split; assumption.
Qed.

Lemma listedFiles_prune (entries : listing) (names : list string) :
  In names (listedFiles (withoutDotfiles entries)) ->
  existsb (fun n => startsWith n ".") names = false.
Proof.
  destruct entries as [es|e]; simpl; [|intros []].
  intros Hin.
  apply in_flat_map in Hin. destruct Hin as (x & Hx & Hin).
  apply in_flat_map in Hx. destruct Hx as (y & Hy & Hx).
  pose proof (filesUnder_prune y) as H. rewrite Forall_forall in H. apply H.
  apply in_flat_map. exists x. split; assumption.
Qed.

(** C4, as the code has it.  When delete-item is called on a directory
    (the stat of the target says so), the handler asks what the target is,
    lists it, then issues one remote delete call for the key of each file
    the listing shows, in the order of the listing, and only then issues
    the one removal of the local tree: as many remote delete calls as the
    listing shows files, all of them before the local removal.  The listing
    shows every entry that is not a directory, at any depth, except below a
    sub-directory whose own listing fails: of such a sub-directory, and of a
    target whose listing fails, it shows no file. *)
Theorem deleteItem_deletes_remote_before_local {W : Type}
    (P : Platform) (O : Oracle W) (itemPath : string) (s : state W)
    (stats : Stats) (w1 : W) (entries : listing) (w2 : W) :
  let normalizedPath := stripLeadingSlash itemPath in
  let fullPath := path_join P [getUserFilesDir P; normalizedPath] in
  fs_stat O fullPath (world s) = (Ok stats, w1) ->
  st_isDirectory stats = true ->
  fs_readdir O fullPath w1 = (entries, w2) ->
  let files := listedFiles entries in
  let issued := calls (SyncFs.delete_item P O itemPath s) in
  issued =
    ([EvStat fullPath; EvReaddir fullPath] ++
     map (fun names => deleteCall (keyOf P normalizedPath names)) files ++
     [EvRm fullPath])%list
  /\ length (filter isDeleteObject issued) = length files
  /\ filter isRm issued = [EvRm fullPath].
Proof.
  cbv zeta. intros Hstat Hdir Hread.
  rewrite (delete_item_directory_calls P O itemPath s stats w1 entries w2
             Hstat Hdir Hread).
  rewrite getAllFilesInDirectory_keys, map_map.
  assert (Hdel : forall l : list (list string),
             filter isDeleteObject
               (map (fun names =>
                       deleteCall (keyOf P (stripLeadingSlash itemPath) names)) l) =
             map (fun names =>
                    deleteCall (keyOf P (stripLeadingSlash itemPath) names)) l).
  { induction l as [|x l IH]; simpl; [|rewrite IH]; reflexivity. }
  assert (Hrm : forall l : list (list string),
             filter isRm
               (map (fun names =>
                       deleteCall (keyOf P (stripLeadingSlash itemPath) names)) l) =
             []).
  { induction l as [|x l IH]; simpl; [|rewrite IH]; reflexivity. }
  split; [reflexivity|]. split.
  - cbn [app filter isDeleteObject]. rewrite filter_app, Hdel.
    cbn [filter isDeleteObject]. rewrite app_nil_r, length_map. reflexivity.
  - cbn [app filter isRm]. rewrite filter_app, Hrm. reflexivity.
Qed.

Lemma deleteItem_deletes_remote_before_local_witness :
  calls (SyncFs.delete_item Posix.platform Sim.oracle "/docs"
           (Sim.start Scenario.tree)) =
  [EvStat "/home/user/.local/share/Axi/UserData/Files/docs";
   EvReaddir "/home/user/.local/share/Axi/UserData/Files/docs";
   EvDeleteObject "9527" "docs/a.txt";
   EvDeleteObject "9527" "docs/.secret";
   EvDeleteObject "9527" "docs/sub/b.txt";
   EvDeleteObject "9527" "docs/.git/config";
   EvRm "/home/user/.local/share/Axi/UserData/Files/docs"].
Proof.
  destruct (deleteItem_deletes_remote_before_local
              Posix.platform Sim.oracle "/docs" (Sim.start Scenario.tree)
              Sim.statOfDir Scenario.tree (Ok Scenario.docsEntries) Scenario.tree)
    as [E _].
  - reflexivity.
  - reflexivity.
  - reflexivity.
  - rewrite E. reflexivity.
Defined.

(** C4, as the specification states it, fails on a directory that holds
    a sub-directory which cannot be listed: docs/ contains two files, a.txt
    and private/key.txt, and the handler issues one remote delete call, for
    a.txt, then removes the local tree and answers success; afterwards no
    local file is left below docs/ and the bucket still holds the object of
    private/key.txt. *)
Lemma deleteItem_unlistable_counterexample :
  let docs := "/home/user/.local/share/Axi/UserData/Files/docs" in
  let run :=
    SyncFs.delete_item Posix.platform Sim.oracle "/docs"
      (Sim.start Scenario.guarded) in
  Sim.filesBelow docs (Sim.files Scenario.guarded) =
    ["/home/user/.local/share/Axi/UserData/Files/docs/a.txt";
     "/home/user/.local/share/Axi/UserData/Files/docs/private/key.txt"]
  /\ filter isDeleteObject (calls run) = [EvDeleteObject "9527" "docs/a.txt"]
  /\ filter isRm (calls run) = [EvRm docs]
  /\ outcome run = Ok SyncFs.succeeded
  /\ Sim.filesBelow docs (Sim.files (world (final run))) = []
  /\ map fst (Sim.bucket (world (final run))) = ["docs/private/key.txt"].
Proof. vm_compute. repeat split. Qed.

(** C10, as the code has it.  The enumeration delete-item uses does not
    skip dot entries, while the scan and push-all do.  When delete-item is
    called on a directory, a remote delete call is issued for the key of
    every file the listing shows, the files that are dotfiles or lie under
    a dot directory included; the scan and push-all behave on a listing
    exactly as on the same listing with its dot entries removed at every
    depth, which shows no such file: the scan never lists it and push-all
    never uploads it. *)
Theorem deleteItem_deletes_keys_of_dotfiles {W : Type}
    (P : Platform) (O : Oracle W) (itemPath : string) (s : state W)
    (stats : Stats) (w1 : W) (entries : listing) (w2 : W)
    (names : list string) :
  let normalizedPath := stripLeadingSlash itemPath in
  let fullPath := path_join P [getUserFilesDir P; normalizedPath] in
  fs_stat O fullPath (world s) = (Ok stats, w1) ->
  st_isDirectory stats = true ->
  fs_readdir O fullPath w1 = (entries, w2) ->
  In names (listedFiles entries) ->
  existsb (fun n => startsWith n ".") names = true ->
  In (deleteCall (keyOf P normalizedPath names))
     (calls (SyncFs.delete_item P O itemPath s))
  /\ SyncFs.getAllFilesInDirectory P entries normalizedPath =
     map (keyOf P normalizedPath) (listedFiles entries)
  /\ ~ In names (listedFiles (withoutDotfiles entries))
  /\ (forall relativePath,
        SyncFs.scanDirectory P entries relativePath =
        SyncFs.scanDirectory P (withoutDotfiles entries) relativePath)
  /\ (forall baseDir directory (s' : state W),
        SyncFs.processDirectory P O baseDir directory entries s' =
        SyncFs.processDirectory P O baseDir directory (withoutDotfiles entries) s').
Proof.
  cbv zeta. intros Hstat Hdir Hread Hin Hdot.
  split; [|split; [|split; [|split]]].
  - rewrite (delete_item_directory_calls P O itemPath s stats w1 entries w2
               Hstat Hdir Hread).
    rewrite getAllFilesInDirectory_keys, map_map.
    apply in_or_app. right. apply in_or_app. left.
    apply in_map_iff. exists names. split; [reflexivity|exact Hin].
  - apply getAllFilesInDirectory_keys.
  - intros Hpruned. apply listedFiles_prune in Hpruned. congruence.
  - intros relativePath. symmetry. apply scanDirectory_prune.
  - intros baseDir directory s'. symmetry. apply processDirectory_prune.
Qed.

Lemma deleteItem_deletes_keys_of_dotfiles_witness :
  In (EvDeleteObject "9527" "docs/.git/config")
     (calls (SyncFs.delete_item Posix.platform Sim.oracle "/docs"
               (Sim.start Scenario.tree)))
  /\ ~ In [".git"; "config"]
         (listedFiles (withoutDotfiles (Ok Scenario.docsEntries))).
Proof.
  destruct (deleteItem_deletes_keys_of_dotfiles
              Posix.platform Sim.oracle "/docs" (Sim.start Scenario.tree)
              Sim.statOfDir Scenario.tree (Ok Scenario.docsEntries) Scenario.tree
              [".git"; "config"])
    as (Hcall & _ & Hpruned & _).
  - reflexivity.
  - reflexivity.
  - reflexivity.
  - simpl. right. right. right. left. reflexivity.
  - reflexivity.
  - split; [exact Hcall | exact Hpruned].
Defined.

(** C10, as the specification states it, fails where it says that the
    engine never uploads a dotfile: push-all does not, but the [add] and
    [change] listeners upload the file they are given, whatever its name,
    and the import and move handlers hand them such files.  In the sample
    world a buffer imported as docs/.env is put under the key docs/.env, a
    change of docs/.secret puts docs/.secret, and a move of .hidden into
    docs/ puts docs/.hidden. *)
Lemma dotfile_upload_counterexample :
  filter isPutObject
    (calls (SyncFs.import_file_from_buffer Posix.platform Sim.oracle
              ".env" "KEY=1" "/docs" (Sim.start Scenario.tree))) =
  [EvPutObject "9527" "docs/.env" "KEY=1"
     [("x-original-mtime", "1970-01-01T00:00:02.000Z")]]
  /\ filter isPutObject
       (calls (SyncFs.on_change Posix.platform Sim.oracle
                 "/home/user/.local/share/Axi/UserData/Files/docs/.secret"
                 (Sim.start Scenario.tree))) =
     [EvPutObject "9527" "docs/.secret" "hello"
        [("x-original-mtime", "1970-01-01T00:00:01.000Z")]]
  /\ filter isPutObject
       (calls (SyncFs.move_item Posix.platform Sim.oracle "/.hidden" "/docs"
                 (Sim.start Scenario.tree))) =
     [EvPutObject "9527" "docs/.hidden" "hello"
        [("x-original-mtime", "1970-01-01T00:00:01.000Z")]].
Proof. vm_compute. repeat split. Qed.

(** ** Runs that leave the snapshot alone and issue no call of a class *)

Section Quiet.
Context {W : Type} (c : event -> bool).

Lemma quiet_ret {A} (a : A) : quiet c (@ret W A a).
Proof. intros s. repeat split. Qed.

Lemma quiet_throw {A} e : quiet c (@throw W A e).
Proof. intros s. repeat split. Qed.

Lemma quiet_lift {A} (r : result A) : quiet c (@lift W A r).
Proof. destruct r; [apply quiet_ret|apply quiet_throw]. Qed.

Lemma quiet_call {A} ev (q : W -> result A * W) :
  c ev = false -> quiet c (call ev q).
Proof.
  intros Hev s. unfold call, final, calls.
  destruct (q (world s)) as [r w]. simpl. rewrite Hev. repeat split.
Qed.

Lemma quiet_ask {A} ev (q : W -> A * W) : c ev = false -> quiet c (ask ev q).
Proof.
  intros Hev s. unfold ask, final, calls.
  destruct (q (world s)) as [r w]. simpl. rewrite Hev. repeat split.
Qed.

Lemma quiet_bind {A B} (m : M W A) (f : A -> M W B) :
  quiet c m -> (forall a, quiet c (f a)) -> quiet c (bind m f).
Proof.
  intros Hm Hf s. specialize (Hm s). unfold bind, final, calls in *.
  destruct (m s) as [[[a|e] s1] t1]; simpl in *; [|exact Hm].
  specialize (Hf a s1). unfold final, calls in Hf.
  destruct (f a s1) as [[r2 s2] t2]. simpl in *.
  destruct Hm as (E1 & E2 & E3), Hf as (F1 & F2 & F3).
  rewrite F1, F2, E1, E2, existsb_app, E3, F3. repeat split.
Qed.

Lemma quiet_try_catch {A} (m : M W A) (h : exn -> M W A) :
  quiet c m -> (forall e, quiet c (h e)) -> quiet c (try_catch m h).
Proof.
  intros Hm Hh s. specialize (Hm s). unfold try_catch, final, calls in *.
  destruct (m s) as [[[a|e] s1] t1]; simpl in *; [exact Hm|].
  specialize (Hh e s1). unfold final, calls in Hh.
  destruct (h e s1) as [[r2 s2] t2]. simpl in *.
  destruct Hm as (E1 & E2 & E3), Hh as (F1 & F2 & F3).
  rewrite F1, F2, E1, E2, existsb_app, E3, F3. repeat split.
Qed.

Lemma quiet_for_of {A} (xs : list A) (body : A -> M W unit) :
  Forall (fun x => quiet c (body x)) xs -> quiet c (for_of xs body).
Proof.
  induction 1 as [|x rest Hx _ IH].
  - apply quiet_ret.
  - rewrite for_of_cons. apply quiet_bind; auto.
Qed.

Lemma quiet_if {A} (b : bool) (m1 m2 : M W A) :
  quiet c m1 -> quiet c m2 -> quiet c (if b then m1 else m2).
Proof. destruct b; auto. Qed.

End Quiet.

Create HintDb quiet.
#[global] Hint Resolve quiet_ret quiet_throw quiet_lift quiet_bind
  quiet_try_catch quiet_if : quiet.
#[global] Hint Extern 1 (quiet _ (call _ _)) =>
  apply quiet_call; reflexivity : quiet.
#[global] Hint Extern 1 (quiet _ (ask _ _)) =>
  apply quiet_ask; reflexivity : quiet.

Section PushFacts.
Context {W : Type} (P : Platform) (O : Oracle W).

Lemma getObjectMetadata_quiet c key :
  c (EvHeadObject S3Service.BUCKET_NAME key) = false ->
  quiet c (S3Service.getObjectMetadata P O key).
Proof.
  intros Hc. unfold S3Service.getObjectMetadata.
  apply quiet_try_catch.
  - apply quiet_bind; [apply quiet_call; exact Hc|]. auto with quiet.
  - intros e. auto with quiet.
Qed.







End PushFacts.

(** ** The uploads push-all starts *)

Lemma uploadsStarted_app (t1 t2 : list event) :
  uploadsStarted (t1 ++ t2) = (uploadsStarted t1 ++ uploadsStarted t2)%list.
Proof.
  induction t1 as [|ev t1 IH]; simpl; [reflexivity|].
  destruct ev; simpl; rewrite IH; reflexivity.
Qed.

Lemma uploadsStarted_none (t : list event) :
  existsb isOpenSync t = false -> uploadsStarted t = [].
Proof.
  induction t as [|ev t IH]; simpl; [reflexivity|].
  destruct ev; simpl; intros H; try discriminate; auto.
Qed.

Section Pushes.
Context {W : Type} (P : Platform) (O : Oracle W).

Lemma pushes_ret : pushes [] (@ret W unit tt).
Proof. intros s. split; reflexivity. Qed.

Lemma pushes_bind p1 p2 (m k : M W unit) :
  pushes p1 m -> pushes p2 k -> pushes (p1 ++ p2) (m ;; k).
Proof.
  intros Hm Hk s. specialize (Hm s). unfold bind, outcome, calls in *.
  destruct (m s) as [[r s1] t1]. simpl in Hm. destruct Hm as [-> Hm].
  specialize (Hk s1). unfold outcome, calls in Hk.
  destruct (k s1) as [[r2 s2] t2]. simpl in *. destruct Hk as [-> Hk].
  rewrite uploadsStarted_app, Hm, Hk. split; reflexivity.
Qed.

Lemma pushes_for_of {A} (g : A -> list string) (body : A -> M W unit)
    (xs : list A) :
  Forall (fun x => pushes (g x) (body x)) xs ->
  pushes (flat_map g xs) (for_of xs body).
Proof.
  induction 1 as [|x rest Hx _ IH]; cbn [flat_map].
  - apply pushes_ret.
  - rewrite for_of_cons. apply pushes_bind; assumption.
Qed.

(** The lock probe opens the file, once, whatever comes of it. *)
Lemma isFileAccessible_run filePath (s : state W) :
  exists b w t,
    S3Service.isFileAccessible O filePath s =
    (Ok b, mkState w (fileSystemData s) (watcher s), t)
    /\ uploadsStarted t = [filePath]
    /\ (b = true <->
        exists fd w1,
          fs_openSync O filePath (world s) = (Ok fd, w1)
          /\ fst (fs_closeSync O fd w1) = Ok tt).
Proof.
  unfold S3Service.isFileAccessible, try_catch, bind, call, ret.
  destruct (fs_openSync O filePath (world s)) as [[fd|e] w1] eqn:Eo; simpl.
  - destruct (fs_closeSync O fd w1) as [[[]|e] w2] eqn:Ec; simpl.
    + exists true, w2, [EvOpenSync filePath; EvCloseSync fd].
      repeat split. intros _. exists fd, w1. rewrite Ec. split; reflexivity.
    + exists false, w2, [EvOpenSync filePath; EvCloseSync fd].
      repeat split; [discriminate|].
      intros (fd' & w1' & E & Hc). injection E as <- <-.
      rewrite Ec in Hc. discriminate.
  - exists false, w1, [EvOpenSync filePath].
    repeat split; [discriminate|].
    intros (fd' & w1' & E & _). discriminate.
Qed.

Lemma getObjectMetadata_noOpen key :
  quiet isOpenSync (S3Service.getObjectMetadata P O key).
Proof. apply getObjectMetadata_quiet. reflexivity. Qed.

(** An upload opens the file it is given, and no other. *)
Lemma uploadFile_opens localFilePath relativePath (s : state W) :
  uploadsStarted (calls (S3Service.uploadFile P O localFilePath relativePath s))
  = [localFilePath].
Proof.
  unfold S3Service.uploadFile. unfold bind at 1.
  destruct (isFileAccessible_run localFilePath s) as (b & w & t & -> & Ht & _).
  match goal with
  | |- context [(if negb b then ?m1 else ?m2) ?s1] =>
      assert (Hq : quiet isOpenSync (if negb b then m1 else m2));
      [|specialize (Hq s1); destruct Hq as (_ & _ & Hq);
        unfold calls in *;
        destruct ((if negb b then m1 else m2) s1) as [[r2 s2] t2]]
  end.
  - apply quiet_if; [auto with quiet|].
    apply quiet_bind; [auto with quiet|]. intros localStat.
    apply quiet_bind; [apply getObjectMetadata_noOpen|].
    intros metadata. auto 10 with quiet.
  - simpl in *. rewrite uploadsStarted_app, Ht, (uploadsStarted_none _ Hq).
    reflexivity.
Qed.

Lemma syncFile_pushes filePath baseDir :
  pushes [filePath] (SyncFs.syncFile P O filePath baseDir).
Proof.
  intros s. split; [apply returns_value, syncFile_returns|].
  unfold SyncFs.syncFile, try_catch, bind, ret, calls.
  pose proof (uploadFile_opens filePath
                (replaceBackslashes (path_relative P baseDir filePath)) s) as H.
  unfold calls in H.
  destruct (S3Service.uploadFile P O filePath _ s) as [[[b|e] s1] t1];
    simpl in *; rewrite ?app_nil_r; exact H.
Qed.

Lemma processEntry_pushes (entry : fsentry) :
  forall baseDir directory,
    readableEntry entry = true ->
    pushes (visibleUnder P directory entry)
           (SyncFs.processEntry P O baseDir directory entry).
Proof.
  induction entry as [name st|name st entries IH|name st e|name];
    intros baseDir directory;
    cbn [SyncFs.processEntry visibleUnder readableEntry entry_name];
    destruct (startsWith _ ".") eqn:Hdot; intros Hr;
    try apply pushes_ret; try discriminate.
  - apply syncFile_pushes.
  - apply pushes_for_of.
    apply list_all_Forall in IH. rewrite forallb_forall in Hr.
    rewrite Forall_forall in IH |- *. intros x Hx.
    apply IH; auto.
Qed.

Lemma processDirectory_pushes baseDir directory (es : list fsentry) :
  forallb readableEntry es = true ->
  pushes (flat_map (visibleUnder P directory) es)
         (SyncFs.processDirectory P O baseDir directory (Ok es)).
Proof.
  intros Hr. cbn [SyncFs.processDirectory]. apply pushes_for_of.
  rewrite forallb_forall in Hr. apply Forall_forall. intros x Hx.
  apply processEntry_pushes. auto.
Qed.

End Pushes.

(** ** Footprints of the two passes *)

Lemma replaceBackslashes_noBackslash (s : string) :
  noBackslash (replaceBackslashes s) = true.
Proof.
  induction s as [|c rest IH]; simpl; [reflexivity|].
  rewrite IH, andb_true_r.
  destruct (Ascii.eqb c "\"%char) eqn:E; [reflexivity|].
  rewrite E. reflexivity.
Qed.

Lemma stripLeadingSlash_noBackslash (s : string) :
  noBackslash s = true -> noBackslash (stripLeadingSlash s) = true.
Proof.
  unfold stripLeadingSlash. destruct (startsWith s "/"); [|auto].
  destruct s as [|c rest]; simpl; [auto|].
  intros H. apply andb_true_iff in H. apply H.
Qed.

Lemma quiet_forallb {W A} (footprint : event -> bool) (m : M W A) :
  quiet (fun ev => negb (footprint ev)) m ->
  forall s, forallb footprint (calls (m s)) = true.
Proof.
  intros Hq s. destruct (Hq s) as (_ & _ & H).
  apply forallb_forall. intros ev Hin.
  destruct (footprint ev) eqn:E; [reflexivity|].
  assert (Hex : existsb (fun ev => negb (footprint ev)) (calls (m s)) = true).
  { apply existsb_exists. exists ev. rewrite E. split; [exact Hin|reflexivity]. }
  congruence.
Qed.

Section Footprints.
Context {W : Type} (P : Platform) (O : Oracle W).

Let offPush : event -> bool := fun ev => negb (pushFootprint ev).
Let offPull : event -> bool := fun ev => negb (pullFootprint ev).

Lemma uploadFile_offPush localFilePath relativePath :
  noBackslash relativePath = true ->
  quiet offPush (S3Service.uploadFile P O localFilePath relativePath).
Proof.
  intros Hrel.
  assert (Hkey : noBackslash (stripLeadingSlash relativePath) = true)
    by (apply stripLeadingSlash_noBackslash, Hrel).
  unfold S3Service.uploadFile.
  apply quiet_bind.
  { unfold S3Service.isFileAccessible. auto 10 with quiet. }
  intros accessible. apply quiet_if; [auto with quiet|].
  apply quiet_bind; [auto with quiet|]. intros localStat.
  apply quiet_bind.
  { apply getObjectMetadata_quiet. unfold offPush. simpl. rewrite Hkey.
    reflexivity. }
  intros metadata. apply quiet_if; [auto with quiet|].
  apply quiet_try_catch; [|auto with quiet].
  apply quiet_bind; [auto with quiet|]. intros body.
  apply quiet_bind; [|auto with quiet].
  apply quiet_call. unfold offPush. simpl. rewrite Hkey. reflexivity.
Qed.

Lemma syncFile_offPush filePath baseDir :
  quiet offPush (SyncFs.syncFile P O filePath baseDir).
Proof.
  unfold SyncFs.syncFile. apply quiet_try_catch; [|auto with quiet].
  apply quiet_bind; [|auto with quiet].
  apply uploadFile_offPush, replaceBackslashes_noBackslash.
Qed.

Lemma processEntry_offPush (entry : fsentry) :
  forall baseDir directory,
    quiet offPush (SyncFs.processEntry P O baseDir directory entry).
Proof.
  induction entry as [name st|name st entries IH|name st e|name];
    intros baseDir directory; cbn [SyncFs.processEntry entry_name];
    apply quiet_if; auto using syncFile_offPush with quiet.
  apply quiet_for_of. apply list_all_Forall in IH.
  eapply Forall_impl; [|exact IH]. intros x Hx. apply Hx.
Qed.

Lemma syncAllFiles_offPush baseDir :
  quiet offPush (SyncFs.syncAllFiles P O baseDir).
Proof.
  unfold SyncFs.syncAllFiles. apply quiet_try_catch; [|auto with quiet].
  apply quiet_bind; [auto with quiet|]. intros entries.
  destruct entries as [es|e]; simpl; [|apply quiet_throw].
  apply quiet_for_of, Forall_forall. intros x _. apply processEntry_offPush.
Qed.

Lemma downloadFile_offPull key localFilePath :
  quiet offPull (S3Service.downloadFile P O key localFilePath).
Proof.
  unfold S3Service.downloadFile.
  apply quiet_try_catch; [|auto with quiet].
  apply quiet_bind; [auto with quiet|]. intros dirExists.
  apply quiet_bind; [auto with quiet|]. intros _.
  apply quiet_bind; [auto with quiet|]. intros response.
  destruct (get_Body response); auto 10 with quiet.
Qed.

Lemma pullFile_offPull baseDir file :
  quiet offPull (SyncFs.pullFile P O baseDir file).
Proof.
  unfold SyncFs.pullFile. destruct (obj_Key file) as [k|]; [|auto with quiet].
  apply quiet_if; [auto with quiet|].
  apply quiet_try_catch; [|auto with quiet].
  apply quiet_bind; [auto with quiet|]. intros localExists.
  apply quiet_if.
  { apply quiet_bind; [apply downloadFile_offPull|auto with quiet]. }
  apply quiet_bind; [auto with quiet|]. intros localStat.
  apply quiet_bind; [apply getObjectMetadata_quiet; reflexivity|].
  intros [md|]; [|auto with quiet].
  destruct (LastModified md); [|auto with quiet].
  apply quiet_if; [|auto with quiet].
  apply quiet_bind; [apply downloadFile_offPull|auto with quiet].
Qed.

Lemma pullAllFilesFromS3_offPull baseDir :
  quiet offPull (SyncFs.pullAllFilesFromS3 P O baseDir).
Proof.
  unfold SyncFs.pullAllFilesFromS3.
  apply quiet_try_catch; [|auto with quiet].
  apply quiet_bind.
  { unfold S3Service.listFiles. apply quiet_try_catch; [|auto with quiet].
    apply quiet_bind; [auto with quiet|]. intros response.
    destruct (list_Contents response); auto with quiet. }
  intros files. apply quiet_for_of, Forall_forall. intros file _.
  apply pullFile_offPull.
Qed.

End Footprints.

(** ** The [ready] listener *)

Section ReadyFacts.
Context {W : Type} (P : Platform) (O : Oracle W).





End ReadyFacts.







(** ** [uploadFile] *)

Section UploadFacts.
Context {W : Type} (P : Platform) (O : Oracle W).

Lemma isFileAccessible_ok filePath (s : state W) fd w1 w2 :
  fs_openSync O filePath (world s) = (Ok fd, w1) ->
  fs_closeSync O fd w1 = (Ok tt, w2) ->
  S3Service.isFileAccessible O filePath s =
  (Ok true, mkState w2 (fileSystemData s) (watcher s),
   [EvOpenSync filePath; EvCloseSync fd]).
Proof.
  intros Ho Hc. unfold S3Service.isFileAccessible, try_catch, bind, call, ret.
  rewrite Ho. cbn [world]. rewrite Hc. reflexivity.
Qed.

(** The metadata probe is one HEAD request and leaves the module's
    variables alone. *)
Lemma getObjectMetadata_run key (s : state W) :
  calls (S3Service.getObjectMetadata P O key s) =
    [EvHeadObject S3Service.BUCKET_NAME key]
  /\ fileSystemData (final (S3Service.getObjectMetadata P O key s)) =
     fileSystemData s
  /\ watcher (final (S3Service.getObjectMetadata P O key s)) = watcher s.
Proof.
  unfold S3Service.getObjectMetadata, try_catch, bind, call, ret, throw,
    calls, final.
  destruct (s3_HeadObject O S3Service.BUCKET_NAME key (world s))
    as [[response|e] w]; simpl; [repeat split|].
  destruct (S3Service.isNotFound e); repeat split.
Qed.

Lemma remoteSameOrNewer_spec localMtime metadata :
  S3Service.remoteSameOrNewer localMtime metadata = true <->
  remoteAtLeastAsNew metadata localMtime.
Proof.
  unfold S3Service.remoteSameOrNewer, remoteAtLeastAsNew. split.
  - destruct metadata as [m|]; [|discriminate].
    destruct (XOriginalMtime m) as [[x|]|] eqn:Ex; try discriminate.
    simpl. intros H. apply Z.leb_le in H. exists m, x. auto.
  - intros (m & x & -> & -> & H). simpl. apply Z.leb_le. exact H.
Qed.

End UploadFacts.

(** [uploadFile] on a file that passes the lock probe, whose stat succeeds
    and whose metadata probe returns. *)
Lemma uploadFile_when_accessible {W : Type} (P : Platform) (O : Oracle W)
    (localFilePath relativePath : string) (s : state W)
    (fd : Z) (w1 w2 : W) (stats : Stats) (w3 : W)
    (metadata : option ObjectMetadata) (s4 : state W) (t4 : list event) :
  let key := stripLeadingSlash relativePath in
  let localMtime := st_mtime stats in
  let stamp := [("x-original-mtime", Date_toISOString P localMtime)] in
  fs_openSync O localFilePath (world s) = (Ok fd, w1) ->
  fs_closeSync O fd w1 = (Ok tt, w2) ->
  fs_stat O localFilePath w2 = (Ok stats, w3) ->
  S3Service.getObjectMetadata P O key
    (mkState w3 (fileSystemData s) (watcher s)) = (Ok metadata, s4, t4) ->
  let run := S3Service.uploadFile P O localFilePath relativePath s in
  (remoteAtLeastAsNew metadata localMtime ->
   outcome run = Ok false /\ filter isPutObject (calls run) = [])
  /\ (~ remoteAtLeastAsNew metadata localMtime ->
      forall body w5,
        fs_readFile O localFilePath (world s4) = (Ok body, w5) ->
        filter isPutObject (calls run) =
          [EvPutObject S3Service.BUCKET_NAME key body stamp]
        /\ outcome run =
           Ok match fst (s3_PutObject O S3Service.BUCKET_NAME key body stamp w5) with
              | Ok _ => true
              | Throw _ => false
              end).
Proof.
  cbv zeta. intros Hopen Hclose Hstat Hmeta.
  destruct (getObjectMetadata_run P O (stripLeadingSlash relativePath)
              (mkState w3 (fileSystemData s) (watcher s))) as (Ht4 & _).
  rewrite Hmeta in Ht4. unfold calls in Ht4. cbn [snd] in Ht4. subst t4.
  assert (Hrun :
    S3Service.uploadFile P O localFilePath relativePath s =
    if S3Service.remoteSameOrNewer (st_mtime stats) metadata
    then (Ok false, s4,
          [EvOpenSync localFilePath; EvCloseSync fd; EvStat localFilePath;
           EvHeadObject S3Service.BUCKET_NAME (stripLeadingSlash relativePath)])
    else
      match
        try_catch
          (body <- call (EvReadFile localFilePath) (fs_readFile O localFilePath) ;;
           call (EvPutObject S3Service.BUCKET_NAME (stripLeadingSlash relativePath)
                   body [("x-original-mtime", Date_toISOString P (st_mtime stats))])
                (s3_PutObject O S3Service.BUCKET_NAME
                   (stripLeadingSlash relativePath) body
                   [("x-original-mtime", Date_toISOString P (st_mtime stats))]) ;;
           ret true)
          (fun _ => ret false) s4
      with
      | (r, s5, t5) =>
          (r, s5,
           [EvOpenSync localFilePath; EvCloseSync fd; EvStat localFilePath;
            EvHeadObject S3Service.BUCKET_NAME (stripLeadingSlash relativePath)]
           ++ t5)%list
      end).
  { unfold S3Service.uploadFile. unfold bind at 1.
    rewrite (isFileAccessible_ok O localFilePath s fd w1 w2 Hopen Hclose).
    cbn [negb]. unfold bind at 1. unfold call at 1.
    cbn [world fileSystemData watcher]. rewrite Hstat.
    unfold bind at 1. rewrite Hmeta.
    destruct (S3Service.remoteSameOrNewer (st_mtime stats) metadata).
    - reflexivity.
    - destruct (try_catch _ _ s4) as [[r s5] t5]. reflexivity. }
  rewrite Hrun. split.
  - intros Hnew. apply remoteSameOrNewer_spec in Hnew. rewrite Hnew.
    split; reflexivity.
  - intros Hold body w5 Hread.
    destruct (S3Service.remoteSameOrNewer (st_mtime stats) metadata) eqn:Hcmp.
    { exfalso. apply Hold, remoteSameOrNewer_spec, Hcmp. }
    unfold try_catch, bind, call, ret. rewrite Hread.
    cbn [world fileSystemData watcher].
    destruct (s3_PutObject O _ _ body _ w5) as [[u|e] w6]; split; reflexivity.
Qed.

(** The metadata probe, from the answer to its HEAD request. *)
Lemma getObjectMetadata_on_answer {W : Type} (P : Platform) (O : Oracle W)
    (key : string) (s : state W) (answer : result HeadOutput) (w : W) :
  s3_HeadObject O "9527" key (world s) = (answer, w) ->
  S3Service.getObjectMetadata P O key s =
  (match answer with
   | Ok response =>
       Ok (Some {| LastModified := head_LastModified response;
                   ETag := head_ETag response;
                   XOriginalMtime := S3Service.originalMtimeOf P response |})
   | Throw e => if S3Service.isNotFound e then Ok None else Throw e
   end,
   mkState w (fileSystemData s) (watcher s),
   [EvHeadObject "9527" key]).
Proof.
  intros H.
  unfold S3Service.getObjectMetadata, try_catch, bind, call, ret, throw,
    S3Service.BUCKET_NAME.
  rewrite H. destruct answer as [response|e]; [reflexivity|].
  destruct (S3Service.isNotFound e); reflexivity.
Qed.

(** The comparison on the metadata object is the comparison on the
    answer it was built from. *)
Lemma originNotOlder_spec (P : Platform) (response : HeadOutput) (localMtime : Z) :
  remoteAtLeastAsNew
    (Some {| LastModified := head_LastModified response;
             ETag := head_ETag response;
             XOriginalMtime := S3Service.originalMtimeOf P response |})
    localMtime <->
  originNotOlder P (Ok response) localMtime.
Proof.
  unfold remoteAtLeastAsNew, originNotOlder, S3Service.originalMtimeOf, truthy.
  split.
  - intros (m & x & Hm & Hx & Hle). injection Hm as <-. cbn in Hx.
    destruct (head_Metadata response) as [md|] eqn:Em; [|discriminate].
    destruct (lookup "x-original-mtime" md) as [[|c v]|] eqn:El;
      try discriminate.
    injection Hx as Hx.
    exists response, md, (String c v), x.
    repeat split; try reflexivity; try assumption.
    discriminate.
  - intros (response' & md & v & x & E & Hmd & Hl & Hv & Hd & Hle).
    injection E as <-. eexists. exists x. split; [reflexivity|]. cbn.
    rewrite Hmd, Hl. destruct v as [|c v]; [congruence|].
    rewrite Hd. split; [reflexivity|exact Hle].
Qed.

(** [uploadFile] on a file that fails the lock probe. *)
Lemma uploadFile_when_locked {W : Type} (P : Platform) (O : Oracle W)
    (localFilePath relativePath : string) (s : state W) :
  let run := S3Service.uploadFile P O localFilePath relativePath s in
  (forall e w1,
      fs_openSync O localFilePath (world s) = (Throw e, w1) ->
      outcome run = Ok false /\ calls run = [EvOpenSync localFilePath])
  /\ (forall fd w1 e w2,
        fs_openSync O localFilePath (world s) = (Ok fd, w1) ->
        fs_closeSync O fd w1 = (Throw e, w2) ->
        outcome run = Ok false
        /\ calls run = [EvOpenSync localFilePath; EvCloseSync fd]).
Proof.
  cbv zeta.
  unfold S3Service.uploadFile, S3Service.isFileAccessible, try_catch, bind,
    call, ret, outcome, calls.
  split.
  - intros e w1 Ho. rewrite Ho. split; reflexivity.
  - intros fd w1 e w2 Ho Hc. rewrite Ho. cbn [world]. rewrite Hc.
    split; reflexivity.
Qed.

(** C3.  [uploadFile] first probes the local file for a lock, as the
    specification's put paragraph says: a file that cannot be opened for
    reading and writing, or closed again, is skipped, returning false
    without throwing and without any command to the store.  On a file that
    passes the probe and whose stat succeeds, the HEAD request for the key
    decides.  When the object exists and carries a non-empty
    x-original-mtime that reads as a time greater than or equal to the
    local modification time, the upload is skipped, returning false without
    throwing.  Otherwise, when the request was answered or failed with
    not-found (name [NotFound] or status 404) and the file can be read, one
    put of the file body is issued whose x-original-mtime metadata is the
    local modification time in ISO-8601, and [uploadFile] returns whether
    the put went through. *)
Theorem uploadFile_last_writer_wins {W : Type} (P : Platform) (O : Oracle W)
    (localFilePath relativePath : string) (s : state W) :
  let key := stripLeadingSlash relativePath in
  let run := S3Service.uploadFile P O localFilePath relativePath s in
  (forall e w1,
      fs_openSync O localFilePath (world s) = (Throw e, w1) ->
      outcome run = Ok false /\ calls run = [EvOpenSync localFilePath])
  /\ (forall fd w1 e w2,
        fs_openSync O localFilePath (world s) = (Ok fd, w1) ->
        fs_closeSync O fd w1 = (Throw e, w2) ->
        outcome run = Ok false
        /\ calls run = [EvOpenSync localFilePath; EvCloseSync fd])
  /\ (forall fd w1 w2 stats w3 answer w4,
        let localMtime := st_mtime stats in
        let stamp := [("x-original-mtime", Date_toISOString P localMtime)] in
        fs_openSync O localFilePath (world s) = (Ok fd, w1) ->
        fs_closeSync O fd w1 = (Ok tt, w2) ->
        fs_stat O localFilePath w2 = (Ok stats, w3) ->
        s3_HeadObject O "9527" key w3 = (answer, w4) ->
        (originNotOlder P answer localMtime ->
         outcome run = Ok false /\ filter isPutObject (calls run) = [])
        /\ (~ originNotOlder P answer localMtime ->
            (exists response, answer = Ok response)
            \/ (exists e, answer = Throw e
                          /\ (exn_name e = Some "NotFound"
                              \/ exn_httpStatusCode e = Some 404)) ->
            forall body w5,
              fs_readFile O localFilePath w4 = (Ok body, w5) ->
              filter isPutObject (calls run) =
                [EvPutObject "9527" key body stamp]
              /\ outcome run =
                 Ok match fst (s3_PutObject O "9527" key body stamp w5) with
                    | Ok _ => true
                    | Throw _ => false
                    end)).
Proof.
  cbv zeta.
  destruct (uploadFile_when_locked P O localFilePath relativePath s)
    as [Hopen Hclose].
  split; [exact Hopen|]. split; [exact Hclose|].
  intros fd w1 w2 stats w3 answer w4 Ho Hc Hst Hhead.
  pose proof (getObjectMetadata_on_answer P O (stripLeadingSlash relativePath)
                (mkState w3 (fileSystemData s) (watcher s)) answer w4 Hhead)
    as Hmd.
  cbn [world fileSystemData watcher] in Hmd.
  destruct answer as [response|e].
  - destruct (uploadFile_when_accessible P O localFilePath relativePath s
                fd w1 w2 stats w3 _ _ _ Ho Hc Hst Hmd) as [Hskip Hput].
    split.
    + intros Hnew. apply Hskip, originNotOlder_spec, Hnew.
    + intros Hold _ body w5 Hread.
      apply (Hput (fun H => Hold (proj1 (originNotOlder_spec P response _) H))
                  body w5 Hread).
  - split.
    + intros (response & md & v & x & E & _). discriminate.
    + intros _ [[response E]|(e' & E & Hnf)]; [discriminate|].
      injection E as <-. apply isNotFound_spec in Hnf. rewrite Hnf in Hmd.
      destruct (uploadFile_when_accessible P O localFilePath relativePath s
                  fd w1 w2 stats w3 _ _ _ Ho Hc Hst Hmd) as [_ Hput].
      assert (Hnone : ~ remoteAtLeastAsNew None (st_mtime stats))
        by (intros (m & x & Hm & _); discriminate).
      intros body w5 Hread. exact (Hput Hnone body w5 Hread).
Qed.

(** The first upload of a fresh file puts it, stamped with its own
    modification time; the same file held open by another program is
    skipped. *)
Lemma uploadFile_last_writer_wins_witness :
  filter isPutObject
    (calls (S3Service.uploadFile Posix.platform Sim.oracle
              "/home/user/.local/share/Axi/UserData/Files/a.txt" "a.txt"
              (Sim.start Scenario.fresh))) =
  [EvPutObject "9527" "a.txt" "hello"
     [("x-original-mtime", "1970-01-01T00:00:01.000Z")]]
  /\ calls (S3Service.uploadFile Posix.platform Sim.oracle
              "/home/user/.local/share/Axi/UserData/Files/a.txt" "a.txt"
              (Sim.start Scenario.locked)) =
     [EvOpenSync "/home/user/.local/share/Axi/UserData/Files/a.txt"].
Proof.
  split.
  - destruct (uploadFile_last_writer_wins Posix.platform Sim.oracle
                "/home/user/.local/share/Axi/UserData/Files/a.txt" "a.txt"
                (Sim.start Scenario.fresh))
      as (_ & _ & Hacc).
    destruct (Hacc 3 Scenario.fresh Scenario.fresh
                (Sim.statOfFile Scenario.hello) Scenario.fresh
                (Throw Sim.NotFound) Scenario.fresh)
      as [_ Hput]; [reflexivity|reflexivity|reflexivity|reflexivity|].
    destruct (Hput) with (body := "hello") (w5 := Scenario.fresh) as [E _].
    + intros (response & md & v & x & Hr & _). discriminate.
    + right. exists Sim.NotFound. split; [reflexivity|]. left. reflexivity.
    + reflexivity.
    + exact E.
  - destruct (uploadFile_last_writer_wins Posix.platform Sim.oracle
                "/home/user/.local/share/Axi/UserData/Files/a.txt" "a.txt"
                (Sim.start Scenario.locked))
      as (Hlocked & _).
    destruct (Hlocked Sim.EBUSY Scenario.locked) as [_ E]; [reflexivity|].
    exact E.
Defined.

(** ** The pull pass *)

Section PullFacts.
Context {W : Type} (P : Platform) (O : Oracle W).

(** What the body of the pull loop does for a key whose local file exists
    and whose remote metadata came back: whether it downloads is decided by
    the store's own [LastModified]; [XOriginalMtime] is not read. *)
Lemma pullFile_on_existing_file (baseDir key : string) (s : state W)
    (w1 : W) (stats : Stats) (w2 : W) (md : ObjectMetadata)
    (s3 : state W) (t3 : list event) (lastModified : JsDate) :
  let localPath := path_join P [baseDir; key] in
  truthy (Some key) = true ->
  fs_existsSync O localPath (world s) = (true, w1) ->
  fs_stat O localPath w1 = (Ok stats, w2) ->
  S3Service.getObjectMetadata P O key
    (mkState w2 (fileSystemData s) (watcher s)) = (Ok (Some md), s3, t3) ->
  LastModified md = Some lastModified ->
  calls (SyncFs.pullFile P O baseDir (mkS3Object (Some key)) s) =
  ([EvExistsSync localPath; EvStat localPath;
    EvHeadObject S3Service.BUCKET_NAME key] ++
   if date_gt lastModified (DateMs (st_mtime stats))
   then calls (S3Service.downloadFile P O key localPath s3)
   else [])%list.
Proof.
  cbv zeta. intros Hkey Hex Hstat Hmeta Hlm.
  destruct (getObjectMetadata_run P O key
              (mkState w2 (fileSystemData s) (watcher s))) as (Ht3 & _).
  rewrite Hmeta in Ht3. unfold calls in Ht3. cbn [snd] in Ht3. subst t3.
  unfold SyncFs.pullFile. cbn [obj_Key]. rewrite Hkey. cbn [negb].
  unfold try_catch. unfold bind at 1. unfold ask at 1. rewrite Hex.
  cbn [negb world fileSystemData watcher].
  unfold bind at 1. unfold call at 1.
  cbn [world fileSystemData watcher]. rewrite Hstat.
  unfold bind at 1. rewrite Hmeta. rewrite Hlm.
  destruct (date_gt lastModified (DateMs (st_mtime stats))); [|reflexivity].
  unfold bind, ret, calls.
  destruct (S3Service.downloadFile P O key _ s3) as [[[b|e] s4] t4];
    simpl; rewrite ?app_nil_r; reflexivity.
Qed.

(** For a key with no local file the body of the loop goes straight to the
    download. *)
Lemma pullFile_on_missing_file (baseDir key : string) (s : state W) (w1 : W) :
  let localPath := path_join P [baseDir; key] in
  truthy (Some key) = true ->
  fs_existsSync O localPath (world s) = (false, w1) ->
  calls (SyncFs.pullFile P O baseDir (mkS3Object (Some key)) s) =
  (EvExistsSync localPath ::
   calls (S3Service.downloadFile P O key localPath
            (mkState w1 (fileSystemData s) (watcher s))))%list.
Proof.
  cbv zeta. intros Hkey Hex.
  unfold SyncFs.pullFile. cbn [obj_Key]. rewrite Hkey. cbn [negb].
  unfold try_catch. unfold bind at 1. unfold ask at 1. rewrite Hex.
  cbn [negb world fileSystemData watcher].
  unfold bind, ret, calls.
  destruct (S3Service.downloadFile P O key _ _) as [[[b|e] s4] t4];
    simpl; rewrite ?app_nil_r; reflexivity.
Qed.

End PullFacts.

(** C1 fails on the code.  Start from one local file modified at time
    1000 and an empty bucket, and let the engine push the file at time
    2000: the remote object's x-original-mtime is then 1000, equal to the
    local modification time, and its [LastModified] is 2000.  A forced pull
    in that state fetches the object, although the remote origin time is
    not greater than the local modification time.  Conversely, with a
    remote origin time of 5000, a local modification time of 3000 and a
    [LastModified] of 2000, the forced pull fetches nothing. *)
Theorem pull_compares_the_store_time :
  let file := "/home/user/.local/share/Axi/UserData/Files/a.txt" in
  let pushed :=
    final (SyncFs.syncFile Posix.platform Sim.oracle file Sim.root
             (Sim.start Scenario.fresh)) in
  (outcome (S3Service.getObjectMetadata Posix.platform Sim.oracle "a.txt" pushed)
   = Ok (Some {| LastModified := Some (DateMs 2000); ETag := None;
                 XOriginalMtime := Some (DateMs 1000) |})
   /\ fst (fs_stat Sim.oracle file (world pushed))
      = Ok (mkStats false true 5 1000 1000)
   /\ filter isGetObject
        (calls (SyncFs.force_sync_from_s3 Posix.platform Sim.oracle pushed))
      = [EvGetObject "9527" "a.txt"])
  /\
  (outcome (S3Service.getObjectMetadata Posix.platform Sim.oracle "a.txt"
              (Sim.start Scenario.skewed))
   = Ok (Some {| LastModified := Some (DateMs 2000); ETag := None;
                 XOriginalMtime := Some (DateMs 5000) |})
   /\ fst (fs_stat Sim.oracle file Scenario.skewed)
      = Ok (mkStats false true 3 3000 3000)
   /\ filter isGetObject
        (calls (SyncFs.force_sync_from_s3 Posix.platform Sim.oracle
                  (Sim.start Scenario.skewed)))
      = []).
Proof. vm_compute. repeat split. Qed.

(** C5 fails on the code.  The bucket holds an object without the
    x-original-mtime metadata, written at time 2000; the local file of the
    same key exists and was modified at time 1000.  A forced pull fetches
    the object and overwrites the local file with it. *)
Theorem pull_overwrites_without_origin_time :
  let file := "/home/user/.local/share/Axi/UserData/Files/a.txt" in
  let run :=
    SyncFs.force_sync_from_s3 Posix.platform Sim.oracle
      (Sim.start Scenario.foreign) in
  outcome (S3Service.getObjectMetadata Posix.platform Sim.oracle "a.txt"
             (Sim.start Scenario.foreign))
  = Ok (Some {| LastModified := Some (DateMs 2000); ETag := None;
                XOriginalMtime := None |})
  /\ Sim.find file (Sim.files Scenario.foreign)
     = Some (Sim.mkLocalFile "mine" 1000 false)
  /\ filter (fun ev => isGetObject ev ||
                       match ev with EvWriteFile _ _ => true | _ => false end)
       (calls run)
     = [EvGetObject "9527" "a.txt"; EvWriteFile file "theirs"]
  /\ Sim.find file (Sim.files (world (final run)))
     = Some (Sim.mkLocalFile "theirs" 3000 false).
Proof. vm_compute. repeat split. Qed.

(** * The code at work *)

(** The scan of the sample tree shows neither [.hidden] nor, under docs,
    [.secret] and [.git]. *)
Example scan_of_the_sample_tree :
  map (fun n => (node_name n,
                 match node_children n with
                 | Some cs => map node_name cs
                 | None => []
                 end))
      (SyncFs.scanDirectory Posix.platform (Ok Scenario.rootEntries) "/") =
  [("a.txt", []); ("docs", ["a.txt"; "sub"])].
Proof. reflexivity. Qed.

(** With the store out of reach, a forced pull lists, gets nothing and
    answers success. *)
Example forced_pull_offline :
  let run := SyncFs.force_sync_from_s3 Posix.platform Sim.oracle
               (Sim.start Scenario.offline) in
  outcome run = Ok SyncFs.succeeded /\ calls run = [EvListObjects "9527"].
Proof. split; reflexivity. Qed.

(** With the store out of reach, the metadata probe throws; on a missing
    object it returns null. *)
Example metadata_probe_offline_and_absent :
  outcome (S3Service.getObjectMetadata Posix.platform Sim.oracle "a.txt"
             (Sim.start Scenario.offline)) = Throw Sim.ECONNREFUSED
  /\ outcome (S3Service.getObjectMetadata Posix.platform Sim.oracle "a.txt"
                (Sim.start Scenario.fresh)) = Ok None.
Proof. split; reflexivity. Qed.

(** Deleting a missing item answers the failure envelope. *)
Example delete_missing_item :
  outcome (SyncFs.handle Posix.platform Sim.oracle (SyncFs.DeleteItem "/nope")
             (Sim.start Scenario.tree)) = Ok (SyncFs.failed "删除失败").
Proof. reflexivity. Qed.

(** The scenario of the specification: the file is pushed with its own
    modification time; an external update with a later origin time is
    pulled; a later local edit is pushed again. *)
Example push_stamps_the_local_time :
  Sim.bucket
    (world (final (SyncFs.on_add Posix.platform Sim.oracle
                     "/home/user/.local/share/Axi/UserData/Files/a.txt"
                     (Sim.start Scenario.fresh)))) =
  [("a.txt",
    Sim.mkRemoteObject "hello" 2000
      (Some [("x-original-mtime", "1970-01-01T00:00:01.000Z")]))].
Proof. reflexivity. Qed.

(** * More of the code *)

(** ** The start-up of the store client *)

(** X1.  [init] never throws, whatever the store answers, a failed
    creation included.  It sends HeadBucket for bucket 9527; when that
    succeeds nothing else is sent; when it fails with an error whose name
    is [NotFound] or whose HTTP status is 404, CreateBucket for 9527 is
    sent next; when it fails with any other error nothing is created. *)
Theorem init_creates_the_bucket_only_when_absent {W : Type}
    (O : S3ServiceInit.BucketOracle W) (w : W) :
  let answer := fst (S3ServiceInit.s3_HeadBucket O "9527" w) in
  let run := S3ServiceInit.init O w in
  let notFound (e : exn) :=
    exn_name e = Some "NotFound" \/ exn_httpStatusCode e = Some 404 in
  fst (fst run) = Ok tt
  /\ (forall u, answer = Ok u -> snd run = [S3ServiceInit.HeadBucket "9527"])
  /\ (forall e,
        answer = Throw e ->
        (notFound e ->
         snd run = [S3ServiceInit.HeadBucket "9527";
                    S3ServiceInit.CreateBucket "9527"])
        /\ (~ notFound e -> snd run = [S3ServiceInit.HeadBucket "9527"])).
Proof.
  cbv zeta. unfold S3ServiceInit.init, S3ServiceInit.bucketExists,
    S3ServiceInit.createBucket, S3Service.BUCKET_NAME.
  destruct (S3ServiceInit.s3_HeadBucket O "9527" w) as [[u|e] w1];
    cbn [fst snd negb].
  - split; [reflexivity|]. split; [reflexivity|]. intros e E. discriminate.
  - destruct (S3Service.isNotFound e) eqn:Hnf; cbn [fst snd negb].
    + apply isNotFound_spec in Hnf.
      destruct (S3ServiceInit.s3_CreateBucket O "9527" w1) as [[u|e'] w2];
        cbn [fst snd app];
        (split; [reflexivity|]; split; [intros u' E; discriminate|];
         intros e0 E; injection E as <-;
         split; [reflexivity|intros Hno; contradiction]).
    + apply isNotFound_false in Hnf.
      split; [reflexivity|]. split; [intros u' E; discriminate|].
      intros e0 E. injection E as <-.
      split; [intros Hyes; contradiction|reflexivity].
Qed.

(** [init] on a store without the bucket, and on a store that cannot be
    reached. *)
Lemma init_creates_the_bucket_only_when_absent_witness :
  snd (S3ServiceInit.init bucketStore (Some false)) =
    [S3ServiceInit.HeadBucket "9527"; S3ServiceInit.CreateBucket "9527"]
  /\ snd (S3ServiceInit.init bucketStore None) =
     [S3ServiceInit.HeadBucket "9527"].
Proof.
  split.
  - apply (init_creates_the_bucket_only_when_absent bucketStore (Some false))
      with (e := Sim.NotFound); [reflexivity|]. left. reflexivity.
  - apply (init_creates_the_bucket_only_when_absent bucketStore None)
      with (e := Sim.ECONNREFUSED); [reflexivity|].
    intros [H|H]; discriminate H.
Defined.

(** ** [downloadFile] *)

(** X2.  [downloadFile] never throws.  It first asks whether the parent
    directory of the destination exists and creates it only when it does
    not.  When it returns true, its last two calls are the GetObject for
    the key and the write of the destination file, and nothing was written
    before; it writes no other file than the destination, and it leaves the
    snapshot alone. *)
Theorem downloadFile_fetches_then_writes {W : Type} (P : Platform) (O : Oracle W)
    (key localFilePath : string) (s : state W) :
  let dir := path_dirname P localFilePath in
  let run := S3Service.downloadFile P O key localFilePath s in
  (exists b, outcome run = Ok b)
  /\ (exists rest,
        calls run = EvExistsSync dir :: rest
        /\ existsb isMkdir rest = negb (fst (fs_existsSync O dir (world s))))
  /\ (outcome run = Ok true ->
      exists pre body,
        calls run =
          (pre ++ [EvGetObject S3Service.BUCKET_NAME key;
                   EvWriteFile localFilePath body])%list
        /\ existsb isWriteFile pre = false)
  /\ (forall p text, In (EvWriteFile p text) (calls run) -> p = localFilePath)
  /\ fileSystemData (final run) = fileSystemData s.
Proof.
  cbv zeta.
  unfold S3Service.downloadFile, try_catch, bind, ask, call, lift, ret, throw,
    outcome, calls, final.
  destruct (fs_existsSync O (path_dirname P localFilePath) (world s))
    as [dirExists w1].
  destruct dirExists; cbn [negb fst snd world fileSystemData watcher];
    repeat match goal with
           | |- context [let (_, _) := ?x in _] => destruct x as [[?|?] ?]
           | |- context [match get_Body ?r with _ => _ end] =>
               destruct (get_Body r) as [[?|?]|]
           | _ => progress cbn [negb fst snd world fileSystemData watcher app]
           end.
  all: split; [eexists; reflexivity|].
  all: split; [eexists; split; reflexivity|].
  all: split; [|split; [|reflexivity]].
  all: try (intros H; discriminate H).
  all: try (intros _;
            first [ exists [EvExistsSync (path_dirname P localFilePath)];
                    eexists; split; reflexivity
                  | exists [EvExistsSync (path_dirname P localFilePath);
                            EvMkdir (path_dirname P localFilePath)];
                    eexists; split; reflexivity ]).
  all: simpl; intros p text H;
    repeat (destruct H as [H|H]; try discriminate H);
    try contradiction; injection H as <- _; reflexivity.
Qed.

(** ** Keys, and what the two passes may touch *)

Lemma keyOf_noBackslash (P : Platform) (names : list string) :
  forall base, names <> [] -> noBackslash (keyOf P base names) = true.
Proof.
  induction names as [|n rest IH]; intros base Hne; [congruence|].
  rewrite keyOf_cons. destruct rest as [|m rest'].
  - apply replaceBackslashes_noBackslash.
  - apply IH. discriminate.
Qed.

Lemma filesUnder_nonempty (entry : fsentry) :
  Forall (fun names => names <> []) (filesUnder entry).
Proof.
  destruct entry; simpl; repeat constructor; try discriminate.
  apply Forall_forall. intros names H. apply in_map_iff in H.
  destruct H as (tl & <- & _). discriminate.
Qed.

(** X3.  Every key [getAllFilesInDirectory] enumerates is free of
    backslashes, whatever [path.join] returns on the host; so is the key of
    every remote delete call that delete-item issues for a directory. *)
Theorem enumerated_keys_have_no_backslash {W : Type} (P : Platform) (O : Oracle W) :
  (forall (entries : listing) (base key : string),
      In key (SyncFs.getAllFilesInDirectory P entries base) ->
      noBackslash key = true)
  /\ (forall (entries : listing) (base : string) (s : state W),
        existsb hasBackslashKey
          (calls (SyncFs.deleteRemoteFiles O
                    (SyncFs.getAllFilesInDirectory P entries base) s)) = false).
Proof.
  assert (Hkeys : forall (entries : listing) (base key : string),
             In key (SyncFs.getAllFilesInDirectory P entries base) ->
             noBackslash key = true).
  { intros entries base key Hin.
    rewrite getAllFilesInDirectory_keys in Hin.
    apply in_map_iff in Hin. destruct Hin as (names & <- & Hin).
    apply keyOf_noBackslash.
    destruct entries as [es|e]; simpl in Hin; [|contradiction].
    apply in_flat_map in Hin. destruct Hin as (x & _ & Hin).
    pose proof (filesUnder_nonempty x) as H. rewrite Forall_forall in H.
    apply H, Hin. }
  split; [exact Hkeys|].
  intros entries base s.
  destruct (deleteRemoteFiles_run O
              (SyncFs.getAllFilesInDirectory P entries base) s) as [w ->].
  unfold calls. cbn [snd].
  apply not_true_is_false. intros H. apply existsb_exists in H.
  destruct H as (ev & Hin & Hbad).
  apply in_map_iff in Hin. destruct Hin as (k & <- & Hin).
  unfold deleteCall, hasBackslashKey in Hbad.
  rewrite (stripLeadingSlash_noBackslash _ (Hkeys _ _ _ Hin)) in Hbad.
  discriminate.
Qed.

Lemma enumerated_keys_have_no_backslash_witness :
  noBackslash "docs/.git/config" = true.
Proof.
  destruct (enumerated_keys_have_no_backslash Posix.platform Sim.oracle)
    as [H _].
  apply (H (Ok Scenario.docsEntries) "docs").
  simpl. right. right. right. left. reflexivity.
Defined.


(** X4.  Push-all ([syncAllFiles]) only lists and reads the local tree and
    only sends HEAD and PUT to the engine's bucket, on keys without
    backslash: it writes, removes or renames no local file, lists, fetches
    or deletes no remote object, emits no watcher event and publishes no
    snapshot; it leaves the cached snapshot as it is and never throws. *)
Theorem pushAll_reads_local_and_puts_remote {W : Type}
    (P : Platform) (O : Oracle W) (baseDir : string) (s : state W) :
  let run := SyncFs.syncAllFiles P O baseDir s in
  outcome run = Ok tt
  /\ forallb pushFootprint (calls run) = true
  /\ fileSystemData (final run) = fileSystemData s.
Proof.
  cbv zeta. split; [apply returns_value, syncAllFiles_returns|]. split.
  - apply (quiet_forallb pushFootprint), syncAllFiles_offPush.
  - apply (syncAllFiles_offPush P O baseDir s).
Qed.

(** X5.  A pull pass ([pullAllFilesFromS3]) only lists the engine's
    bucket, sends HEAD and GET to it, probes local paths, creates
    directories and writes files: it puts and deletes nothing on the store,
    removes, renames or copies no local file, emits no watcher event and
    publishes no snapshot; it leaves the cached snapshot as it is. *)
Theorem pullAll_reads_remote_and_writes_local {W : Type}
    (P : Platform) (O : Oracle W) (baseDir : string) (s : state W) :
  let run := SyncFs.pullAllFilesFromS3 P O baseDir s in
  forallb pullFootprint (calls run) = true
  /\ fileSystemData (final run) = fileSystemData s.
Proof.
  cbv zeta. split.
  - apply (quiet_forallb pullFootprint), pullAllFilesFromS3_offPull.
  - apply (pullAllFilesFromS3_offPull P O baseDir s).
Qed.

(** ** The listeners for single files *)

Section ListenerFacts.
Context {W : Type} (P : Platform) (O : Oracle W).

(** A listener runs the refresh first and then the rest, in the state the
    refresh leaves. *)
Lemma refresh_then_run {A} (k : M W A) (s : state W) :
  let refresh := SyncFs.updateFileSystemData P O s in
  (SyncFs.updateFileSystemData P O ;; k) s =
  (outcome (k (final refresh)), final (k (final refresh)),
   (calls refresh ++ calls (k (final refresh)))%list).
Proof.
  cbv zeta. unfold bind.
  destruct (updateFileSystemData_run P O s) as (Ho & _).
  unfold outcome, final, calls in *.
  destruct (SyncFs.updateFileSystemData P O s) as [[r s1] t1].
  simpl in *. subst r.
  destruct (k s1) as [[r2 s2] t2]. reflexivity.
Qed.

Lemma uploadFile_footprint localFilePath relativePath :
  quiet (fun ev => negb (uploadFootprint localFilePath
                           (stripLeadingSlash relativePath) ev))
        (S3Service.uploadFile P O localFilePath relativePath).
Proof.
  assert (Hp : String.eqb localFilePath localFilePath = true)
    by apply String.eqb_refl.
  assert (Hk : String.eqb (stripLeadingSlash relativePath)
                 (stripLeadingSlash relativePath) = true)
    by apply String.eqb_refl.
  unfold S3Service.uploadFile.
  apply quiet_bind.
  { unfold S3Service.isFileAccessible.
    apply quiet_try_catch; [|auto with quiet].
    apply quiet_bind; [apply quiet_call; simpl; rewrite Hp; reflexivity|].
    intros fd. auto with quiet. }
  intros accessible. apply quiet_if; [auto with quiet|].
  apply quiet_bind; [apply quiet_call; simpl; rewrite Hp; reflexivity|].
  intros localStat.
  apply quiet_bind.
  { apply getObjectMetadata_quiet. simpl. rewrite Hk. reflexivity. }
  intros metadata. apply quiet_if; [auto with quiet|].
  apply quiet_try_catch; [|auto with quiet].
  apply quiet_bind; [apply quiet_call; simpl; rewrite Hp; reflexivity|].
  intros body.
  apply quiet_bind; [|auto with quiet].
  apply quiet_call. simpl. rewrite Hk. reflexivity.
Qed.

Lemma syncFile_footprint filePath :
  quiet (fun ev => negb (uploadFootprint filePath (keyOfPath P filePath) ev))
        (SyncFs.syncFile P O filePath (getUserFilesDir P)).
Proof.
  unfold SyncFs.syncFile. apply quiet_try_catch; [|auto with quiet].
  apply quiet_bind; [|auto with quiet].
  apply uploadFile_footprint.
Qed.

(** The [unlink] listener's remote part is one delete call. *)
Lemma deleteFile_run filePath (s : state W) :
  exists w,
    SyncFs.deleteFile P O filePath (getUserFilesDir P) s =
    (Ok tt, mkState w (fileSystemData s) (watcher s),
     [EvDeleteObject S3Service.BUCKET_NAME (keyOfPath P filePath)]).
Proof.
  unfold SyncFs.deleteFile.
  destruct (deleteRemoteFile_run O
              (replaceBackslashes (path_relative P (getUserFilesDir P) filePath))
              s) as [w E].
  exists w. exact E.
Qed.

End ListenerFacts.

Section ListenerRuns.
Context {W : Type} (P : Platform) (O : Oracle W).

Lemma on_add_run (filePath : string) (s : state W) :
  let refresh := SyncFs.updateFileSystemData P O s in
  let run := SyncFs.on_add P O filePath s in
  outcome run = Ok tt
  /\ fileSystemData (final run) =
     SyncFs.scanDirectory P
       (fst (fs_readdir O (getUserFilesDir P) (world s))) "/"
  /\ watcher (final run) = watcher s
  /\ exists pushed,
       calls run = (calls refresh ++ pushed)%list
       /\ uploadsStarted pushed = [filePath]
       /\ forallb (uploadFootprint filePath (keyOfPath P filePath)) pushed = true.
Proof.
  cbv zeta.
  unfold SyncFs.on_add. rewrite refresh_then_run. cbv zeta.
  set (s1 := final (SyncFs.updateFileSystemData P O s)).
  destruct (syncFile_pushes P O filePath (getUserFilesDir P) s1) as [Ho Hu].
  destruct (syncFile_footprint P O filePath s1) as (Hf & Hw & _).
  split; [exact Ho|]. split; [|split].
  - unfold final at 1. cbn [fst snd]. rewrite Hf. unfold s1.
    destruct (updateFileSystemData_run P O s) as (_ & -> & _). reflexivity.
  - unfold final at 1. cbn [fst snd]. rewrite Hw. unfold s1.
    destruct (updateFileSystemData_run P O s) as (_ & _ & -> & _). reflexivity.
  - exists (calls (SyncFs.syncFile P O filePath (getUserFilesDir P) s1)).
    split; [reflexivity|]. split; [exact Hu|].
    apply (quiet_forallb (uploadFootprint filePath (keyOfPath P filePath))),
      syncFile_footprint.
Qed.

Lemma on_unlink_run (filePath : string) (s : state W) :
  let refresh := SyncFs.updateFileSystemData P O s in
  let run := SyncFs.on_unlink P O filePath s in
  outcome run = Ok tt
  /\ calls run =
     (calls refresh ++
      [EvDeleteObject S3Service.BUCKET_NAME (keyOfPath P filePath)])%list
  /\ fileSystemData (final run) =
     SyncFs.scanDirectory P
       (fst (fs_readdir O (getUserFilesDir P) (world s))) "/"
  /\ watcher (final run) = watcher s.
Proof.
  cbv zeta. unfold SyncFs.on_unlink. rewrite refresh_then_run. cbv zeta.
  destruct (deleteFile_run P O filePath
              (final (SyncFs.updateFileSystemData P O s))) as [w ->].
  unfold outcome at 1, final at 1 2, calls at 1.
  cbn [fst snd fileSystemData watcher].
  destruct (updateFileSystemData_run P O s) as (_ & -> & -> & _).
  repeat split.
Qed.

End ListenerRuns.

(** The calls of a refresh: the listing, the question to the window and,
    at most, the send. *)
Lemma refresh_calls {W : Type} (P : Platform) (O : Oracle W) (s : state W) :
  let t := calls (SyncFs.updateFileSystemData P O s) in
  forallb isRefreshCall t = true
  /\ filter isS3 t = []
  /\ uploadsStarted t = [].
Proof.
  cbv zeta. destruct (updateFileSystemData_run P O s) as (_ & _ & _ & ->).
  destruct (fst (win_isDestroyed O _)); repeat split.
Qed.

Lemma forallb_weaken {A} (c d : A -> bool) (t : list A) :
  (forall x, c x = true -> d x = true) ->
  forallb c t = true -> forallb d t = true.
Proof.
  intros Hcd. rewrite !forallb_forall. intros H x Hx. apply Hcd, H, Hx.
Qed.

(** X6.  The [add] listener and the [change] listener are the same code.
    The listener never throws and leaves as the snapshot the scan of what
    the watched directory listed when it started.  It starts exactly one
    upload, of the file it was given.  Besides the calls of the refresh
    (the listing, the question to the window, the send) it only opens,
    stats and reads that one local file and only sends HEAD and PUT to
    bucket 9527 for the key derived from the file's path (path relative to
    the watched directory, backslashes replaced, leading slash dropped).
    (The listener awaits neither task: nothing is said of how the calls of
    the two interleave.) *)
Theorem add_listener_pushes_the_one_file {W : Type}
    (P : Platform) (O : Oracle W) (filePath : string) (s : state W) :
  let key := keyOfPath P filePath in
  let run := SyncFs.on_add P O filePath s in
  SyncFs.on_change P O filePath s = run
  /\ outcome run = Ok tt
  /\ fileSystemData (final run) =
     SyncFs.scanDirectory P
       (fst (fs_readdir O (getUserFilesDir P) (world s))) "/"
  /\ uploadsStarted (calls run) = [filePath]
  /\ forallb (fun ev => isRefreshCall ev || uploadFootprint filePath key ev)
       (calls run) = true
  /\ forallb (uploadFootprint filePath key) (filter isS3 (calls run)) = true.
Proof.
  cbv zeta. split; [reflexivity|].
  destruct (on_add_run P O filePath s) as (Ho & Hf & _ & pushed & Hc & Hu & Hp).
  destruct (refresh_calls P O s) as (Hr & Hs & Hn). cbv zeta in Hr, Hs, Hn.
  split; [exact Ho|]. split; [exact Hf|]. rewrite Hc.
  split; [|split].
  - rewrite uploadsStarted_app, Hn, Hu. reflexivity.
  - rewrite forallb_app. apply andb_true_iff. split.
    + eapply forallb_weaken; [|exact Hr].
      intros ev Hev. rewrite Hev. reflexivity.
    + eapply forallb_weaken; [|exact Hp].
      intros ev Hev. rewrite Hev. apply orb_true_r.
  - rewrite filter_app, Hs. cbn [app].
    rewrite forallb_forall in Hp |- *. intros ev Hin.
    apply filter_In in Hin. apply Hp, Hin.
Qed.

(** X7.  The [unlink] listener never throws, whatever the store answers,
    and leaves as the snapshot the scan of what the watched directory
    listed when it started.  It sends exactly one command to the store: the
    DeleteObject, to bucket 9527, for the key derived from the path of the
    removed file.  Every other call it makes is a call of the refresh (the
    listing, the question to the window, the send).  (The listener awaits
    neither task: nothing is said of where the delete lies among the calls
    of the refresh.) *)
Theorem unlink_listener_deletes_the_one_key {W : Type}
    (P : Platform) (O : Oracle W) (filePath : string) (s : state W) :
  let run := SyncFs.on_unlink P O filePath s in
  outcome run = Ok tt
  /\ filter isS3 (calls run) = [EvDeleteObject "9527" (keyOfPath P filePath)]
  /\ forallb isRefreshCall (filter (fun ev => negb (isS3 ev)) (calls run)) = true
  /\ fileSystemData (final run) =
     SyncFs.scanDirectory P
       (fst (fs_readdir O (getUserFilesDir P) (world s))) "/".
Proof.
  cbv zeta.
  destruct (on_unlink_run P O filePath s) as (Ho & Hc & Hf & _).
  cbv zeta in Hc.
  destruct (refresh_calls P O s) as (Hr & Hs & _). cbv zeta in Hr, Hs.
  split; [exact Ho|]. rewrite Hc. split; [|split; [|exact Hf]].
  - rewrite filter_app, Hs. reflexivity.
  - rewrite filter_app. cbn [filter isS3 negb]. rewrite app_nil_r.
    rewrite forallb_forall in Hr |- *. intros ev Hin.
    apply filter_In in Hin. apply Hr, Hin.
Qed.

(** ** The handlers *)

Section EmitFacts.
Context {W : Type} (P : Platform) (O : Oracle W).

(** A synthesized [add]: the event, the refresh, then one upload. *)
Lemma emit_add_run (path : string) (s : state W) :
  exists s2 t,
    SyncFs.emit P O "add" path s = (Ok tt, s2, EvEmit "add" path :: t)
    /\ watcher s2 = watcher s
    /\ uploadsStarted t = [path]
    /\ existsb isEmit t = false
    /\ forallb (fun ev => negb (isS3 ev) ||
                          uploadFootprint path (keyOfPath P path) ev) t = true.
Proof.
  destruct (on_add_run P O path s) as (Ho & _ & Hw & pushed & Hc & Hu & Hf).
  destruct (updateFileSystemData_run P O s) as (_ & _ & _ & Hr).
  unfold SyncFs.emit, bind, tell. cbn [String.eqb Ascii.eqb Bool.eqb].
  unfold outcome, final, calls in *.
  destruct (SyncFs.on_add P O path s) as [[r s2] t]. simpl in *. subst r t.
  exists s2. eexists. split; [reflexivity|]. split; [exact Hw|].
  rewrite Hr. split; [|split].
  - simpl. destruct (fst (win_isDestroyed O _)); simpl; exact Hu.
  - simpl. destruct (fst (win_isDestroyed O _)); simpl;
      apply not_true_is_false; intros H; apply existsb_exists in H;
      destruct H as (ev & Hin & He); rewrite forallb_forall in Hf;
      specialize (Hf ev Hin); destruct ev; discriminate.
  - simpl. destruct (fst (win_isDestroyed O _)); simpl;
      apply forallb_forall; intros ev Hin; rewrite forallb_forall in Hf;
      rewrite (Hf ev Hin); apply orb_true_r.
Qed.

(** A synthesized [unlink]: the event, the refresh, then one delete. *)
Lemma emit_unlink_run (path : string) (s : state W) :
  exists s2 t,
    SyncFs.emit P O "unlink" path s = (Ok tt, s2, EvEmit "unlink" path :: t)
    /\ watcher s2 = watcher s
    /\ uploadsStarted t = []
    /\ existsb isEmit t = false
    /\ filter isS3 t =
       [EvDeleteObject S3Service.BUCKET_NAME (keyOfPath P path)].
Proof.
  destruct (on_unlink_run P O path s) as (Ho & Hc & _ & Hw).
  destruct (updateFileSystemData_run P O s) as (_ & _ & _ & Hr).
  unfold SyncFs.emit, bind, tell. cbn [String.eqb Ascii.eqb Bool.eqb].
  unfold outcome, final, calls in *.
  destruct (SyncFs.on_unlink P O path s) as [[r s2] t]. simpl in *. subst r t.
  exists s2. eexists. split; [reflexivity|]. split; [exact Hw|].
  rewrite Hr. simpl.
  destruct (fst (win_isDestroyed O _)); simpl; repeat split.
Qed.

End EmitFacts.

(** X8.  The create-file, create-folder and read-file-content handlers
    work on the local tree only: whatever their arguments and whatever the
    file system answers, they send no command to the store, hand no event
    to the watcher's listeners and leave the cached snapshot as it is.
    When create-file answers success, the last thing it did was to write
    the new file, with the given content or, when none was given, the
    empty string. *)
Theorem create_and_read_stay_local {W : Type} (P : Platform) (O : Oracle W)
    (s : state W) :
  (forall parentPath fileName text,
      let run := SyncFs.create_file P O parentPath fileName text s in
      let fullPath :=
        path_join P [path_join P [getUserFilesDir P; stripLeadingSlash parentPath];
                     fileName] in
      existsb isRemoteOrEmit (calls run) = false
      /\ fileSystemData (final run) = fileSystemData s
      /\ (outcome run = Ok SyncFs.succeeded ->
          exists pre,
            calls run =
              (pre ++ [EvWriteFile fullPath
                         match text with Some t => t | None => "" end])%list
            /\ existsb isWriteFile pre = false))
  /\ (forall parentPath folderName,
        let run := SyncFs.create_folder P O parentPath folderName s in
        existsb isRemoteOrEmit (calls run) = false
        /\ fileSystemData (final run) = fileSystemData s)
  /\ (forall filePath,
        let run := SyncFs.read_file_content P O filePath s in
        existsb isRemoteOrEmit (calls run) = false
        /\ fileSystemData (final run) = fileSystemData s).
Proof.
  split; [|split].
  - intros parentPath fileName text. cbv zeta.
    assert (Hq : quiet isRemoteOrEmit
                   (SyncFs.create_file P O parentPath fileName text)).
    { unfold SyncFs.create_file. auto 12 with quiet. }
    destruct (Hq s) as (Hf & _ & Hc).
    split; [exact Hc|]. split; [exact Hf|].
    unfold SyncFs.create_file, try_catch, bind, ask, call, ret, outcome, calls.
    destruct (fs_existsSync O _ (world s)) as [parentExists w1].
    destruct parentExists; cbn [negb fst snd world fileSystemData watcher].
    + destruct (fs_writeFile O _ _ w1) as [[u|e] w2]; cbn [fst snd app].
      * intros _. eexists [_]. split; reflexivity.
      * discriminate.
    + destruct (fs_mkdir O _ w1) as [[u|e] w1'];
        cbn [fst snd app world fileSystemData watcher]; [|discriminate].
      destruct (fs_writeFile O _ _ w1') as [[u'|e] w2]; cbn [fst snd app].
      * intros _. eexists [_; _]. split; reflexivity.
      * discriminate.
  - intros parentPath folderName. cbv zeta.
    assert (Hq : quiet isRemoteOrEmit
                   (SyncFs.create_folder P O parentPath folderName)).
    { unfold SyncFs.create_folder. auto 12 with quiet. }
    destruct (Hq s) as (Hf & _ & Hc). split; assumption.
  - intros filePath. cbv zeta.
    assert (Hq : quiet isRemoteOrEmit (SyncFs.read_file_content P O filePath)).
    { unfold SyncFs.read_file_content. auto 12 with quiet. }
    destruct (Hq s) as (Hf & _ & Hc). split; assumption.
Qed.

Lemma create_and_read_stay_local_witness :
  exists pre,
    calls (SyncFs.create_file Posix.platform Sim.oracle "/notes" "todo.txt" None
             (Sim.start Scenario.tree)) =
    (pre ++ [EvWriteFile
               "/home/user/.local/share/Axi/UserData/Files/notes/todo.txt" ""])%list
    /\ existsb isWriteFile pre = false.
Proof.
  destruct (create_and_read_stay_local Posix.platform Sim.oracle
              (Sim.start Scenario.tree)) as [H _].
  destruct (H "/notes" "todo.txt" None) as (_ & _ & Hw).
  apply Hw. reflexivity.
Defined.

(** X9.  When the stat of the target throws (the item does not exist, or
    cannot be looked at), delete-item answers the failure envelope and has
    done nothing else: no command was sent to the store and nothing was
    removed locally. *)
Theorem deleteItem_on_a_missing_item {W : Type} (P : Platform) (O : Oracle W)
    (itemPath : string) (s : state W) (e : exn) :
  let fullPath :=
    path_join P [getUserFilesDir P; stripLeadingSlash itemPath] in
  fst (fs_stat O fullPath (world s)) = Throw e ->
  let run := SyncFs.delete_item P O itemPath s in
  outcome run = Ok (SyncFs.failed "删除失败")
  /\ calls run = [EvStat fullPath].
Proof.
  cbv zeta. intros Hstat.
  unfold SyncFs.delete_item, try_catch, bind, call, ret, outcome, calls.
  destruct (fs_stat O _ (world s)) as [r w1]. simpl in Hstat. subst r.
  split; reflexivity.
Qed.

Lemma deleteItem_on_a_missing_item_witness :
  calls (SyncFs.delete_item Posix.platform Sim.oracle "/nope"
           (Sim.start Scenario.tree)) =
  [EvStat "/home/user/.local/share/Axi/UserData/Files/nope"].
Proof.
  destruct (deleteItem_on_a_missing_item Posix.platform Sim.oracle "/nope"
              (Sim.start Scenario.tree) Sim.ENOENT) as [_ E].
  - reflexivity.
  - exact E.
Defined.

(** X10.  On a target that is not a directory, delete-item sends the
    DeleteObject for the path it was given (leading slash dropped) and
    then unlinks the local file, in this order; the unlink is attempted
    whatever the store answered, and the envelope says success exactly
    when the unlink went through. *)
Theorem deleteItem_on_a_file {W : Type} (P : Platform) (O : Oracle W)
    (itemPath : string) (s : state W) (stats : Stats) (w1 : W) :
  let normalizedPath := stripLeadingSlash itemPath in
  let fullPath := path_join P [getUserFilesDir P; normalizedPath] in
  let key := stripLeadingSlash normalizedPath in
  fs_stat O fullPath (world s) = (Ok stats, w1) ->
  st_isDirectory stats = false ->
  let w2 := snd (s3_DeleteObject O S3Service.BUCKET_NAME key w1) in
  let run := SyncFs.delete_item P O itemPath s in
  calls run =
    [EvStat fullPath; EvDeleteObject S3Service.BUCKET_NAME key;
     EvUnlink fullPath]
  /\ outcome run =
     Ok match fst (fs_unlink O fullPath w2) with
        | Ok _ => SyncFs.succeeded
        | Throw _ => SyncFs.failed "删除失败"
        end.
Proof.
  cbv zeta. intros Hstat Hdir.
  unfold SyncFs.delete_item, S3Service.deleteFile, try_catch, bind, call, ret,
    outcome, calls.
  rewrite Hstat. cbn [world fileSystemData watcher]. rewrite Hdir.
  cbn [world fileSystemData watcher].
  destruct (s3_DeleteObject O _ _ w1) as [[u|e] w2];
    cbn [fst snd world fileSystemData watcher app];
    destruct (fs_unlink O _ w2) as [[u'|e'] w3]; split; reflexivity.
Qed.

Lemma deleteItem_on_a_file_witness :
  calls (SyncFs.delete_item Posix.platform Sim.oracle "/docs/a.txt"
           (Sim.start Scenario.offline)) =
  [EvStat "/home/user/.local/share/Axi/UserData/Files/docs/a.txt";
   EvDeleteObject "9527" "docs/a.txt";
   EvUnlink "/home/user/.local/share/Axi/UserData/Files/docs/a.txt"]
  /\ outcome (SyncFs.delete_item Posix.platform Sim.oracle "/docs/a.txt"
                (Sim.start Scenario.offline)) = Ok SyncFs.succeeded.
Proof.
  destruct (deleteItem_on_a_file Posix.platform Sim.oracle "/docs/a.txt"
              (Sim.start Scenario.offline)
              (Sim.statOfFile Scenario.hello) Scenario.offline) as [Hc Ho].
  - reflexivity.
  - reflexivity.
  - split; [exact Hc|exact Ho].
Defined.

(** X11.  On a directory, the envelope delete-item answers depends on the
    local removal alone: it says success exactly when the removal of the
    local tree went through, whatever the store answered to the delete
    calls, all of which were sent first. *)
Theorem deleteItem_answer_ignores_the_store {W : Type}
    (P : Platform) (O : Oracle W) (itemPath : string) (s : state W)
    (stats : Stats) (w1 : W) (entries : listing) (w2 : W) :
  let normalizedPath := stripLeadingSlash itemPath in
  let fullPath := path_join P [getUserFilesDir P; normalizedPath] in
  fs_stat O fullPath (world s) = (Ok stats, w1) ->
  st_isDirectory stats = true ->
  fs_readdir O fullPath w1 = (entries, w2) ->
  let keys := SyncFs.getAllFilesInDirectory P entries normalizedPath in
  let deleted :=
    SyncFs.deleteRemoteFiles O keys (mkState w2 (fileSystemData s) (watcher s)) in
  calls deleted = map deleteCall keys
  /\ outcome (SyncFs.delete_item P O itemPath s) =
     Ok match fst (fs_rm O fullPath (world (final deleted))) with
        | Ok _ => SyncFs.succeeded
        | Throw _ => SyncFs.failed "删除失败"
        end.
Proof.
  cbv zeta. intros Hstat Hdir Hread.
  unfold SyncFs.delete_item, try_catch.
  unfold bind at 1. unfold call at 1. rewrite Hstat.
  cbn [world fileSystemData watcher]. rewrite Hdir.
  unfold bind at 1. unfold bind at 1. unfold ask at 1.
  cbn [world fileSystemData watcher]. rewrite Hread.
  unfold bind at 1.
  destruct (deleteRemoteFiles_run O
              (SyncFs.getAllFilesInDirectory P entries (stripLeadingSlash itemPath))
              (mkState w2 (fileSystemData s) (watcher s))) as [w3 ->].
  unfold call, ret, outcome, calls, final.
  cbn [fst snd world fileSystemData watcher].
  split; [reflexivity|].
  destruct (fs_rm O _ w3) as [[u|e] w4]; reflexivity.
Qed.

Lemma deleteItem_answer_ignores_the_store_witness :
  outcome (SyncFs.delete_item Posix.platform Sim.oracle "/docs"
             (Sim.start Scenario.offline)) = Ok SyncFs.succeeded.
Proof.
  destruct (deleteItem_answer_ignores_the_store
              Posix.platform Sim.oracle "/docs" (Sim.start Scenario.offline)
              Sim.statOfDir Scenario.offline (Ok Scenario.docsEntries)
              Scenario.offline) as [_ Ho].
  - reflexivity.
  - reflexivity.
  - reflexivity.
  - exact Ho.
Defined.

(** One step of a handler: the next call's answer, by cases. *)
Ltac oracle_step P O :=
  match goal with
  | |- context [SyncFs.emit P O "add" ?p ?s1] =>
      let s2 := fresh "s" in let t := fresh "t" in let E := fresh "E" in
      destruct (emit_add_run P O p s1) as (s2 & t & E & ? & ? & ? & ?);
      rewrite E in *; clear E
  | |- context [SyncFs.emit P O "unlink" ?p ?s1] =>
      let s2 := fresh "s" in let t := fresh "t" in let E := fresh "E" in
      destruct (emit_unlink_run P O p s1) as (s2 & t & E & ? & ? & ? & ?);
      rewrite E in *; clear E
  | |- context [fs_existsSync O ?p ?w] =>
      destruct (fs_existsSync O p w) as [[] ?]
  | |- context [fs_mkdir O ?p ?w] => destruct (fs_mkdir O p w) as [[[]|?] ?]
  | |- context [fs_copyFile O ?a ?b ?w] =>
      destruct (fs_copyFile O a b w) as [[[]|?] ?]
  | |- context [fs_writeFile O ?a ?b ?w] =>
      destruct (fs_writeFile O a b w) as [[[]|?] ?]
  | |- context [fs_rename O ?a ?b ?w] =>
      destruct (fs_rename O a b w) as [[[]|?] ?]
  | |- context [fs_stat O ?p ?w] =>
      destruct (fs_stat O p w) as [[?|?] ?] eqn:?
  | |- context [if watcher ?s then _ else _] => destruct (watcher s) eqn:?
  | |- context [if st_isFile ?x then _ else _] => destruct (st_isFile x) eqn:?
  end;
  cbn [negb andb fst snd world fileSystemData watcher app] in *.

Ltac split_after_write :=
  let finish :=
    (split; [reflexivity|]; split; [reflexivity|];
     first [ reflexivity
           | eexists; split; [reflexivity|]; split; assumption ]) in
  first [ eexists [_;_], _; finish
        | eexists [_;_;_], _; finish
        | eexists [_;_;_;_], _; finish ].

(** X12.  An import that answers success has made its calls in this
    order: first calls that send nothing to the store and emit nothing,
    then the copy of the source (or the write of the buffer) to the target
    path inside the watched tree, then the stat of the target and, when the
    watcher is set, the [add] event for the target, handed to the listeners
    right after the stat; the listeners then start one upload, of the
    target, and emit nothing.  When the watcher is null the stat is the
    last call: nothing is sent to the store and nothing is emitted.  An
    import-file whose source does not exist answers the failure envelope
    after that one existence check. *)
Theorem imports_synthesize_add {W : Type} (P : Platform) (O : Oracle W)
    (s : state W) :
  (forall sourcePath targetDirectory,
      let targetPath :=
        path_join P
          [path_join P [getUserFilesDir P; stripLeadingSlash targetDirectory];
           path_basename P sourcePath] in
      let run := SyncFs.import_file P O sourcePath targetDirectory s in
      (fst (fs_existsSync O sourcePath (world s)) = false ->
       outcome run = Ok (SyncFs.failed "源文件不存在")
       /\ calls run = [EvExistsSync sourcePath])
      /\ (outcome run = Ok SyncFs.succeeded ->
          exists pre rest,
            calls run =
              (pre ++ EvCopyFile sourcePath targetPath ::
               EvStat targetPath :: rest)%list
            /\ existsb isRemoteOrEmit pre = false
            /\ if watcher s
               then exists t,
                   rest = EvEmit "add" targetPath :: t
                   /\ uploadsStarted t = [targetPath]
                   /\ existsb isEmit t = false
               else rest = []))
  /\ (forall fileName buffer targetDirectory,
        let targetPath :=
          path_join P
            [path_join P [getUserFilesDir P; stripLeadingSlash targetDirectory];
             fileName] in
        let run :=
          SyncFs.import_file_from_buffer P O fileName buffer targetDirectory s in
        outcome run = Ok SyncFs.succeeded ->
        exists pre rest,
          calls run =
            (pre ++ EvWriteFile targetPath buffer ::
             EvStat targetPath :: rest)%list
          /\ existsb isRemoteOrEmit pre = false
          /\ if watcher s
             then exists t,
                 rest = EvEmit "add" targetPath :: t
                 /\ uploadsStarted t = [targetPath]
                 /\ existsb isEmit t = false
             else rest = []).
Proof.
  split; [intros sourcePath targetDirectory; cbv zeta; split|
          intros fileName buffer targetDirectory; cbv zeta].
  - intros Hmissing.
    unfold SyncFs.import_file, try_catch, bind, ask, ret, outcome, calls.
    destruct (fs_existsSync O sourcePath (world s)) as [b w1].
    simpl in Hmissing. subst b. split; reflexivity.
  - unfold SyncFs.import_file, try_catch, bind, ask, call, ret, get_watcher,
      outcome, calls.
    cbn [negb andb fst snd world fileSystemData watcher app].
    repeat oracle_step P O.
    all: try (intros H; discriminate H).
    all: intros _; rewrite ?app_nil_r.
    all: split_after_write.
  - unfold SyncFs.import_file_from_buffer, try_catch, bind, ask, call, ret,
      get_watcher, outcome, calls.
    cbn [negb andb fst snd world fileSystemData watcher app].
    repeat oracle_step P O.
    all: try (intros H; discriminate H).
    all: intros _; rewrite ?app_nil_r.
    all: split_after_write.
Qed.

(** An import into docs/sub of the sample world: the copy, the stat, the
    event, one upload. *)
Lemma imports_synthesize_add_witness :
  exists pre t,
    calls (SyncFs.import_file Posix.platform Sim.oracle
             "/home/user/.local/share/Axi/UserData/Files/a.txt" "/docs/sub"
             (Sim.start Scenario.tree)) =
    (pre ++
     EvCopyFile "/home/user/.local/share/Axi/UserData/Files/a.txt"
                "/home/user/.local/share/Axi/UserData/Files/docs/sub/a.txt" ::
     EvStat "/home/user/.local/share/Axi/UserData/Files/docs/sub/a.txt" ::
     EvEmit "add"
            "/home/user/.local/share/Axi/UserData/Files/docs/sub/a.txt" :: t)%list
    /\ existsb isRemoteOrEmit pre = false
    /\ uploadsStarted t =
       ["/home/user/.local/share/Axi/UserData/Files/docs/sub/a.txt"]
    /\ existsb isEmit t = false.
Proof.
  destruct (imports_synthesize_add Posix.platform Sim.oracle
              (Sim.start Scenario.tree)) as [H _].
  destruct (H "/home/user/.local/share/Axi/UserData/Files/a.txt" "/docs/sub")
    as [_ Hok].
  destruct Hok as (pre & rest & Hc & Hpre & t & Hrest & Hu & He);
    [reflexivity|].
  exists pre, t. rewrite Hc, Hrest. repeat split; assumption.
Defined.

(** X13.  When the moved item is not a regular file (whenever the stat of
    the target succeeds it says so: a folder was moved), move-item itself
    sends no command to the store and hands no event to the listeners,
    whether the watcher is set or not; it leaves the cached snapshot as it
    is. *)
Theorem moveItem_of_a_folder_reaches_no_store {W : Type}
    (P : Platform) (O : Oracle W) (sourcePath targetDirectory : string)
    (s : state W) :
  let baseDir := getUserFilesDir P in
  let fullSourcePath := path_join P [baseDir; stripLeadingSlash sourcePath] in
  let targetPath :=
    path_join P [path_join P [baseDir; stripLeadingSlash targetDirectory];
                 path_basename P fullSourcePath] in
  (forall w stats w',
      fs_stat O targetPath w = (Ok stats, w') -> st_isFile stats = false) ->
  let run := SyncFs.move_item P O sourcePath targetDirectory s in
  existsb isRemoteOrEmit (calls run) = false
  /\ fileSystemData (final run) = fileSystemData s.
Proof.
  cbv zeta. intros Hfolder.
  unfold SyncFs.move_item, try_catch, bind, ask, call, ret, get_watcher,
    final, calls.
  cbn [negb andb fst snd world fileSystemData watcher app].
  repeat first
    [ match goal with
      | E : fs_stat O _ _ = (Ok ?st, _) |- context [st_isFile ?st] =>
          rewrite (Hfolder _ _ _ E);
          cbn [negb andb fst snd world fileSystemData watcher app]
      end
    | oracle_step P O ].
  all: split; reflexivity.
Qed.

Lemma moveItem_of_a_folder_reaches_no_store_witness :
  existsb isRemoteOrEmit
    (calls (SyncFs.move_item Posix.platform
              (uniformOracle (mkStats true false 0 0 0)) "/docs" "/archive"
              (mkState tt [] true))) = false.
Proof.
  destruct (moveItem_of_a_folder_reaches_no_store Posix.platform
              (uniformOracle (mkStats true false 0 0 0)) "/docs" "/archive"
              (mkState tt [] true)) as [H _].
  - intros w stats w' E. injection E as <- _. reflexivity.
  - exact H.
Defined.

(** X14.  A move of a regular file that answers success, with the watcher
    set, renames the file locally and then hands the listeners an [unlink]
    event for the old path followed by an [add] event for the new path:
    between the two events the one command sent to the store is the
    DeleteObject for the old key, and after the second one upload is
    started, of the new path.  Nothing reaches the store before the
    rename. *)
Theorem moveItem_of_a_file_deletes_then_uploads {W : Type}
    (P : Platform) (O : Oracle W) (sourcePath targetDirectory : string)
    (s : state W) :
  let baseDir := getUserFilesDir P in
  let fullSourcePath := path_join P [baseDir; stripLeadingSlash sourcePath] in
  let targetPath :=
    path_join P [path_join P [baseDir; stripLeadingSlash targetDirectory];
                 path_basename P fullSourcePath] in
  let run := SyncFs.move_item P O sourcePath targetDirectory s in
  (forall w stats w',
      fs_stat O targetPath w = (Ok stats, w') -> st_isFile stats = true) ->
  watcher s = true ->
  outcome run = Ok SyncFs.succeeded ->
  exists pre t1 t2,
    calls run =
      (pre ++ EvRename fullSourcePath targetPath :: EvStat targetPath ::
       EvEmit "unlink" fullSourcePath :: t1 ++
       EvEmit "add" targetPath :: t2)%list
    /\ existsb isRemoteOrEmit pre = false
    /\ filter isS3 t1 =
       [EvDeleteObject S3Service.BUCKET_NAME (keyOfPath P fullSourcePath)]
    /\ uploadsStarted t1 = []
    /\ uploadsStarted t2 = [targetPath]
    /\ existsb isEmit t1 = false /\ existsb isEmit t2 = false.
Proof.
  cbv zeta. intros Hfile Hwatch.
  unfold SyncFs.move_item, try_catch, bind, ask, call, ret, get_watcher,
    outcome, calls.
  cbn [negb andb fst snd world fileSystemData watcher app].
  rewrite Hwatch.
  repeat first
    [ match goal with
      | E : fs_stat O _ _ = (Ok ?st, _) |- context [st_isFile ?st] =>
          rewrite (Hfile _ _ _ E);
          cbn [negb andb fst snd world fileSystemData watcher app]
      | H : watcher ?s2 = watcher s |- context [watcher ?s2] =>
          rewrite H, Hwatch
      end
    | oracle_step P O ].
  all: try (intros H'; discriminate H').
  all: intros _; rewrite ?app_nil_r.
  all: first
         [ eexists [_;_;_], _, _; split; [reflexivity|]; repeat split;
           assumption || reflexivity
         | eexists [_;_;_;_], _, _; split; [reflexivity|]; repeat split;
           assumption || reflexivity ].
Qed.

Lemma moveItem_of_a_file_deletes_then_uploads_witness :
  exists pre t1 t2,
    calls (SyncFs.move_item Posix.platform
             (uniformOracle (mkStats false true 5 0 1000)) "/a.txt" "/docs"
             (mkState tt [] true)) =
      (pre ++
       EvRename "/home/user/.local/share/Axi/UserData/Files/a.txt"
                "/home/user/.local/share/Axi/UserData/Files/docs/a.txt" ::
       EvStat "/home/user/.local/share/Axi/UserData/Files/docs/a.txt" ::
       EvEmit "unlink" "/home/user/.local/share/Axi/UserData/Files/a.txt" ::
       t1 ++
       EvEmit "add" "/home/user/.local/share/Axi/UserData/Files/docs/a.txt" ::
       t2)%list
    /\ existsb isRemoteOrEmit pre = false
    /\ filter isS3 t1 = [EvDeleteObject "9527" "a.txt"]
    /\ uploadsStarted t1 = []
    /\ uploadsStarted t2 =
       ["/home/user/.local/share/Axi/UserData/Files/docs/a.txt"]
    /\ existsb isEmit t1 = false /\ existsb isEmit t2 = false.
Proof.
  apply (moveItem_of_a_file_deletes_then_uploads Posix.platform
           (uniformOracle (mkStats false true 5 0 1000)) "/a.txt" "/docs"
           (mkState tt [] true)).
  - intros w stats w' E. injection E as <- _. reflexivity.
  - reflexivity.
  - reflexivity.
Defined.

(** ** More on the scanner *)

Lemma collect_forallb {A B} (Q : B -> bool) (f : A -> result (list B))
    (xs : list A) :
  Forall (fun x => forall ns, f x = Ok ns -> forallb Q ns = true) xs ->
  forall ns, collect f xs = Ok ns -> forallb Q ns = true.
Proof.
  induction 1 as [|x rest Hx _ IH]; intros ns; simpl.
  - intros E. injection E as <-. reflexivity.
  - destruct (f x) as [ys|e] eqn:Ex; [|discriminate].
    destruct (collect f rest) as [zs|e] eqn:Er; [|discriminate].
    intros E. injection E as <-.
    rewrite forallb_app, (Hx ys eq_refl), (IH zs eq_refl). reflexivity.
Qed.

Section ShapeFacts.
Context (P : Platform).

Lemma scanEntry_wellShaped (entry : fsentry) :
  forall relativePath ns,
    SyncFs.scanEntry P relativePath entry = Ok ns ->
    forallb (fun n => String.eqb (node_path n)
                                 (path_join P [relativePath; node_name n])
                      && wellShaped P n) ns = true.
Proof.
  induction entry as [name st|name st entries IH|name st e|name];
    intros relativePath ns; simpl;
    destruct (startsWith _ ".") eqn:Hdot;
    try (intros E; injection E as <-; reflexivity);
    try (destruct st as [stats|e']; [|discriminate];
         intros E; injection E as <-; simpl;
         rewrite !String.eqb_refl; simpl).
  - reflexivity.
  - rewrite andb_true_r.
    destruct (collect _ entries) as [nodes|e'] eqn:Ec; [|reflexivity].
    eapply collect_forallb; [|exact Ec].
    apply list_all_Forall in IH.
    eapply Forall_impl; [|exact IH]. intros x Hx ns. apply Hx.
  - reflexivity.
Qed.

(** The names of the nodes an iteration pushes, when the stat of the entry
    does not throw. *)
Lemma scanEntry_names (entry : fsentry) (relativePath : string) :
  statThrows entry = false ->
  exists ns,
    SyncFs.scanEntry P relativePath entry = Ok ns
    /\ map node_name ns = if shown entry then [entry_name entry] else [].
Proof.
  unfold shown.
  destruct entry as [name st|name st entries|name st e|name]; simpl;
    destruct (startsWith _ ".") eqn:Hdot; simpl; intros Hst;
    try (eexists; split; reflexivity);
    destruct st as [stats|e']; try discriminate;
    eexists; split; reflexivity.
Qed.

Lemma scanEntry_stat_failure (entry : fsentry) (relativePath : string) :
  shown entry = true -> statThrows entry = true ->
  exists e, SyncFs.scanEntry P relativePath entry = Throw e.
Proof.
  unfold shown.
  destruct entry as [name st|name st entries|name st e|name]; simpl;
    destruct (startsWith _ ".") eqn:Hdot; simpl; intros Hs Hst;
    try discriminate;
    destruct st as [stats|e']; try discriminate; eexists; reflexivity.
Qed.

Lemma collect_names (relativePath : string) (es : list fsentry) :
  existsb statThrows es = false ->
  exists ns,
    collect (SyncFs.scanEntry P relativePath) es = Ok ns
    /\ map node_name ns = map entry_name (filter shown es).
Proof.
  induction es as [|x rest IH]; simpl; intros H.
  - exists []. split; reflexivity.
  - apply orb_false_iff in H. destruct H as [Hx Hrest].
    destruct (scanEntry_names x relativePath Hx) as (ys & -> & Hys).
    destruct (IH Hrest) as (zs & -> & Hzs).
    eexists. split; [reflexivity|].
    rewrite map_app, Hys, Hzs. destruct (shown x); reflexivity.
Qed.

Lemma collect_stat_failure (relativePath : string) (es : list fsentry) :
  existsb (fun x => shown x && statThrows x) es = true ->
  exists e, collect (SyncFs.scanEntry P relativePath) es = Throw e.
Proof.
  induction es as [|x rest IH]; simpl; [discriminate|].
  intros H.
  destruct (SyncFs.scanEntry P relativePath x) as [ys|e] eqn:Ex;
    [|eexists; reflexivity].
  destruct (shown x && statThrows x) eqn:Hx.
  - apply andb_true_iff in Hx. destruct Hx as [Hs Ht].
    destruct (scanEntry_stat_failure x relativePath Hs Ht) as [e He].
    congruence.
  - simpl in H. destruct (IH H) as [e ->]. eexists; reflexivity.
Qed.

End ShapeFacts.

(** X15.  Every node of every snapshot [scanDirectory] returns, at any
    depth, has the shape of the interface: its id is the base64 of its
    path, its path is the parent's path joined with its name (at the top,
    the relative path the scan was given), both dates are set, a file is a
    leaf with a size and no children, a folder is no leaf, has no size and
    has a list of children. *)
Theorem snapshot_nodes_are_well_shaped (P : Platform)
    (entries : listing) (relativePath : string) :
  forallb (fun n => String.eqb (node_path n)
                               (path_join P [relativePath; node_name n])
                    && wellShaped P n)
          (SyncFs.scanDirectory P entries relativePath) = true.
Proof.
  unfold SyncFs.scanDirectory. destruct entries as [es|e]; [|reflexivity].
  destruct (collect _ es) as [nodes|e] eqn:Ec; [|reflexivity].
  eapply collect_forallb; [|exact Ec].
  apply Forall_forall. intros x _ ns. apply scanEntry_wellShaped.
Qed.

(** X16.  When no stat throws, the top level of the snapshot lists exactly
    the regular files and the directories of the listing whose names do not
    begin with a dot, in the order of the listing; entries that are neither
    file nor directory are left out. *)
Theorem scan_lists_the_shown_entries (P : Platform)
    (es : list fsentry) (relativePath : string) :
  existsb statThrows es = false ->
  map node_name (SyncFs.scanDirectory P (Ok es) relativePath) =
  map entry_name (filter shown es).
Proof.
  intros H. unfold SyncFs.scanDirectory.
  destruct (collect_names P relativePath es H) as (ns & -> & Hn). exact Hn.
Qed.

Lemma scan_lists_the_shown_entries_witness :
  map node_name
    (SyncFs.scanDirectory Posix.platform
       (Ok (Scenario.rootEntries ++ [EOther "socket"])%list) "/") =
  ["a.txt"; "docs"].
Proof.
  rewrite (scan_lists_the_shown_entries Posix.platform
             (Scenario.rootEntries ++ [EOther "socket"])%list "/").
  - reflexivity.
  - reflexivity.
Defined.

(** X17.  When the stat of one shown entry of a directory throws, the scan
    of that directory returns the empty list: the nodes already built for
    the entries before it are lost with it.  When the listing itself
    throws, the scan returns the empty list as well. *)
Theorem scan_loses_the_level_on_a_stat_failure (P : Platform)
    (es : list fsentry) (relativePath : string) (e : exn) :
  existsb (fun x => shown x && statThrows x) es = true ->
  SyncFs.scanDirectory P (Ok es) relativePath = []
  /\ SyncFs.scanDirectory P (Throw e) relativePath = [].
Proof.
  intros H. split; [|reflexivity]. unfold SyncFs.scanDirectory.
  destruct (collect_stat_failure P relativePath es H) as [e' ->]. reflexivity.
Qed.

Lemma scan_loses_the_level_on_a_stat_failure_witness :
  SyncFs.scanDirectory Posix.platform
    (Ok [EFile "a.txt" (Scenario.fileStats 1000);
         EFile "gone.txt" (Throw Sim.ENOENT)]) "/" = [].
Proof.
  destruct (scan_loses_the_level_on_a_stat_failure Posix.platform
              [EFile "a.txt" (Scenario.fileStats 1000);
               EFile "gone.txt" (Throw Sim.ENOENT)] "/" Sim.ENOENT) as [H _].
  - reflexivity.
  - exact H.
Defined.

(** ** More on push-all *)

Section PushAbort.
Context {W : Type} (P : Platform) (O : Oracle W).

(** The loop of [processDirectory] over entries among which the walk
    stops: it throws, having started the uploads of the files met before. *)
Lemma processEntries_stop baseDir directory (es : list fsentry)
    (pushed : list string) :
  stopsAt P directory es pushed ->
  forall s : state W,
  exists e s' t,
    for_of es (SyncFs.processEntry P O baseDir directory) s = (Throw e, s', t)
    /\ uploadsStarted t = pushed.
Proof.
  induction 1 as [directory before name st e after Hdot Hr
                 |directory before name st entries after pushed Hdot Hr _ IH];
    intros s; rewrite for_of_app; unfold bind at 1;
    destruct (processDirectory_pushes P O baseDir directory before Hr s)
      as [Ho Hu];
    cbn [SyncFs.processDirectory] in Ho, Hu; unfold outcome, calls in Ho, Hu;
    destruct (for_of before _ s) as [[r s1] t1]; cbn [fst snd] in Ho, Hu;
    subst r; rewrite for_of_cons; unfold bind at 1;
    cbn [SyncFs.processEntry entry_name]; rewrite Hdot.
  - exists e, s1, t1. unfold throw. rewrite app_nil_r. split; [reflexivity|exact Hu].
  - destruct (IH s1) as (e & s' & t & -> & Ht).
    exists e, s', (t1 ++ t)%list. split; [reflexivity|].
    rewrite uploadsStarted_app, Hu, Ht. reflexivity.
Qed.

End PushAbort.

(** Where the walk stops does not depend on what is listed after. *)
Lemma stopsAt_app (P : Platform) directory es pushed (extra : list fsentry) :
  stopsAt P directory es pushed -> stopsAt P directory (es ++ extra) pushed.
Proof.
  intros H. destruct H as [directory before name st e after Hdot Hr
                          |directory before name st entries after pushed Hdot Hr H];
    rewrite <- app_assoc; cbn [app].
  - apply stops_here; assumption.
  - apply stops_below; assumption.
Qed.

Lemma stopsAt_cons (P : Platform) directory (x : fsentry) es pushed :
  readableEntry x = true ->
  stopsAt P directory es pushed ->
  stopsAt P directory (x :: es) (visibleUnder P directory x ++ pushed).
Proof.
  intros Hx H.
  destruct H as [directory before name st e after Hdot Hr
                |directory before name st entries after pushed Hdot Hr H].
  - rewrite <- (app_nil_r (flat_map (visibleUnder P directory) before)).
    rewrite app_assoc, app_nil_r.
    apply (stops_here P directory (x :: before)); [assumption|].
    cbn [forallb]. rewrite Hx, Hr. reflexivity.
  - rewrite app_assoc.
    apply (stops_below P directory (x :: before)); [assumption| |assumption].
    cbn [forallb]. rewrite Hx, Hr. reflexivity.
Qed.

Lemma unreadable_entries_stop (P : Platform) (es : list fsentry) :
  Forall (fun x => forall directory,
            readableEntry x = false ->
            exists pushed, stopsAt P directory [x] pushed) es ->
  forall directory,
    forallb readableEntry es = false ->
    exists pushed, stopsAt P directory es pushed.
Proof.
  induction 1 as [|x rest Hx _ IH]; intros directory Hr; [discriminate|].
  cbn [forallb] in Hr. destruct (readableEntry x) eqn:Ex.
  - destruct (IH directory Hr) as [pushed Hp].
    eexists. apply stopsAt_cons; eassumption.
  - destruct (Hx directory eq_refl) as [pushed Hp].
    exists pushed. apply (stopsAt_app P directory [x] pushed rest Hp).
Qed.

Lemma unreadable_entry_stops (P : Platform) (x : fsentry) :
  forall directory,
    readableEntry x = false ->
    exists pushed, stopsAt P directory [x] pushed.
Proof.
  induction x as [name st|name st entries IH|name st e|name];
    intros directory; cbn [readableEntry entry_name];
    destruct (startsWith name ".") eqn:Hdot; intros Hr; try discriminate.
  - apply list_all_Forall in IH.
    destruct (unreadable_entries_stop P entries IH
                (path_join P [directory; name]) Hr) as [pushed Hp].
    exists pushed.
    exact (stops_below P directory [] name st entries [] pushed Hdot eq_refl Hp).
  - exists [].
    exact (stops_here P directory [] name st e [] Hdot eq_refl).
Qed.

Lemma stopsAt_unreadable (P : Platform) directory es pushed :
  stopsAt P directory es pushed -> forallb readableEntry es = false.
Proof.
  induction 1 as [directory before name st e after Hdot Hr
                 |directory before name st entries after pushed Hdot Hr _ IH];
    rewrite forallb_app; cbn [forallb readableEntry entry_name];
    rewrite Hdot, ?IH, ?andb_false_r; reflexivity.
Qed.

(** X18.  Push-all stops at the first directory outside dot entries whose
    listing throws, at whatever depth it lies: an upload is started for the
    regular files outside dot entries that the depth-first walk meets
    before that directory, for nothing that comes after it, in the same
    directory or in any directory above, and push-all returns without
    throwing all the same.  This is what happens whenever some directory
    outside dot entries cannot be listed, and only then. *)
Theorem pushAll_stops_at_an_unreadable_directory {W : Type}
    (P : Platform) (O : Oracle W) (baseDir : string) (s : state W)
    (es : list fsentry) (w' : W) :
  fs_readdir O baseDir (world s) = (Ok es, w') ->
  let run := SyncFs.syncAllFiles P O baseDir s in
  (forall pushed,
      stopsAt P baseDir es pushed ->
      outcome run = Ok tt /\ uploadsStarted (calls run) = pushed)
  /\ (forallb readableEntry es = false <->
      exists pushed, stopsAt P baseDir es pushed).
Proof.
  cbv zeta. intros Hread. split.
  - intros pushed Hstop.
    split; [apply returns_value, syncAllFiles_returns|].
    unfold SyncFs.syncAllFiles, try_catch. unfold bind at 1. unfold ask at 1.
    rewrite Hread. cbn [SyncFs.processDirectory].
    destruct (processEntries_stop P O baseDir baseDir es pushed Hstop
                (mkState w' (fileSystemData s) (watcher s)))
      as (e & s' & t & -> & Ht).
    unfold ret, calls. cbn [snd uploadsStarted app]. rewrite app_nil_r.
    exact Ht.
  - split.
    + apply unreadable_entries_stop, Forall_forall.
      intros x _. apply unreadable_entry_stops.
    + intros [pushed Hstop]. eapply stopsAt_unreadable, Hstop.
Qed.

(** The watched directory lists a.txt, docs/ and z.txt; docs/ lists a.txt
    and private/, which cannot be listed: a.txt and docs/a.txt are pushed,
    z.txt is not. *)
Lemma pushAll_stops_at_an_unreadable_directory_witness :
  uploadsStarted
    (calls (SyncFs.syncAllFiles Posix.platform Sim.oracle Sim.root
              (Sim.start
                 (Sim.withDirs Scenario.guarded
                    [(Sim.root,
                      Ok [EFile "a.txt" (Scenario.fileStats 1000);
                          EDir "docs" Scenario.dirStats Scenario.guardedEntries;
                          EFile "z.txt" (Scenario.fileStats 1000)])])))) =
  ["/home/user/.local/share/Axi/UserData/Files/a.txt";
   "/home/user/.local/share/Axi/UserData/Files/docs/a.txt"].
Proof.
  destruct (pushAll_stops_at_an_unreadable_directory
              Posix.platform Sim.oracle Sim.root
              (Sim.start
                 (Sim.withDirs Scenario.guarded
                    [(Sim.root,
                      Ok [EFile "a.txt" (Scenario.fileStats 1000);
                          EDir "docs" Scenario.dirStats Scenario.guardedEntries;
                          EFile "z.txt" (Scenario.fileStats 1000)])]))
              [EFile "a.txt" (Scenario.fileStats 1000);
               EDir "docs" Scenario.dirStats Scenario.guardedEntries;
               EFile "z.txt" (Scenario.fileStats 1000)]
              (Sim.withDirs Scenario.guarded
                 [(Sim.root,
                   Ok [EFile "a.txt" (Scenario.fileStats 1000);
                       EDir "docs" Scenario.dirStats Scenario.guardedEntries;
                       EFile "z.txt" (Scenario.fileStats 1000)])])
              eq_refl) as [Hstops _].
  apply Hstops.
  apply (stops_below Posix.platform Sim.root
           [EFile "a.txt" (Scenario.fileStats 1000)] "docs" Scenario.dirStats
           Scenario.guardedEntries [EFile "z.txt" (Scenario.fileStats 1000)]
           ["/home/user/.local/share/Axi/UserData/Files/docs/a.txt"]);
    [reflexivity|reflexivity|].
  apply (stops_here Posix.platform
           "/home/user/.local/share/Axi/UserData/Files/docs"
           [EFile "a.txt" (Scenario.fileStats 1000)] "private"
           Scenario.dirStats Sim.EACCES []);
    reflexivity.
Defined.

(** ** More on the pull pass *)

Section PullLoop.
Context {W : Type} (P : Platform) (O : Oracle W).

(** A loop whose iterations all return runs each of them: the calls of the
    iteration for [x], from the state the loop reaches it in, are among the
    calls of the loop. *)
Lemma for_of_visits {A} (body : A -> M W unit) (xs : list A) (x : A) :
  (forall y, returns (body y)) ->
  In x xs ->
  forall s, exists s1,
    forall ev, In ev (calls (body x s1)) -> In ev (calls (for_of xs body s)).
Proof.
  intros Hret. induction xs as [|y rest IH]; intros Hin s; [contradiction|].
  rewrite for_of_cons. unfold bind, calls.
  destruct (Hret y s) as [u Hu]. unfold outcome in Hu.
  destruct Hin as [<-|Hin].
  - exists s. destruct (body y s) as [[r s1] t1]. simpl in Hu. subst r.
    destruct (for_of rest body s1) as [[r2 s2] t2]. simpl.
    intros ev H. apply in_or_app. left. exact H.
  - destruct (body y s) as [[r s1] t1]. simpl in Hu. subst r.
    destruct (IH Hin s1) as [s' Hs']. exists s'.
    unfold calls in Hs'.
    destruct (for_of rest body s1) as [[r2 s2] t2]. simpl in *.
    intros ev H. apply in_or_app. right. apply Hs', H.
Qed.

Lemma pullFile_first_call baseDir key (s : state W) :
  truthy (Some key) = true ->
  exists rest,
    calls (SyncFs.pullFile P O baseDir (mkS3Object (Some key)) s) =
    EvExistsSync (path_join P [baseDir; key]) :: rest.
Proof.
  intros Hkey. unfold SyncFs.pullFile. cbn [obj_Key]. rewrite Hkey.
  cbn [negb]. unfold try_catch. unfold bind at 1. unfold ask at 1.
  destruct (fs_existsSync O _ (world s)) as [b w1].
  match goal with
  | |- context [(if negb b then ?m1 else ?m2) ?s1] =>
      destruct ((if negb b then m1 else m2) s1) as [[[u|e] s2] t2]
  end; unfold calls, ret; simpl; eexists; reflexivity.
Qed.

End PullLoop.

(** X19.  When the listing of the bucket throws, a forced pull issues that
    one call and nothing else, and still answers success.  An object listed
    without a key, or with the empty key, costs no call at all. *)
Theorem pull_without_a_listing_does_nothing {W : Type}
    (P : Platform) (O : Oracle W) (s : state W) (e : exn) :
  (fst (s3_ListObjectsV2 O "9527" (world s)) = Throw e ->
   outcome (SyncFs.force_sync_from_s3 P O s) = Ok SyncFs.succeeded
   /\ calls (SyncFs.force_sync_from_s3 P O s) = [EvListObjects "9527"])
  /\ (forall baseDir file,
        truthy (obj_Key file) = false ->
        SyncFs.pullFile P O baseDir file s = (Ok tt, s, [])).
Proof.
  split.
  - intros Hlist.
    unfold SyncFs.force_sync_from_s3, SyncFs.pullAllFilesFromS3,
      S3Service.listFiles, try_catch, bind, call, ret, outcome, calls.
    destruct (s3_ListObjectsV2 O "9527" (world s)) as [r w1].
    simpl in Hlist. subst r. split; reflexivity.
  - intros baseDir [[key|]] Hkey; unfold SyncFs.pullFile;
      cbn [obj_Key] in *; [|reflexivity].
    rewrite Hkey. reflexivity.
Qed.

Lemma pull_without_a_listing_does_nothing_witness :
  calls (SyncFs.force_sync_from_s3 Posix.platform Sim.oracle
           (Sim.start Scenario.offline)) = [EvListObjects "9527"].
Proof.
  destruct (pull_without_a_listing_does_nothing Posix.platform Sim.oracle
              (Sim.start Scenario.offline) Sim.ECONNREFUSED) as [H _].
  destruct H as [_ Hc]; [reflexivity|]. exact Hc.
Defined.

(** X20.  A pull pass looks at every listed object that has a key,
    whatever happened with the objects before it: for each of them the
    existence of the local file at the watched directory joined with the
    key is asked. *)
Theorem pull_examines_every_listed_key {W : Type}
    (P : Platform) (O : Oracle W) (baseDir : string) (s : state W)
    (response : ListOutput) (w' : W) (files : list S3Object) (key : string) :
  s3_ListObjectsV2 O "9527" (world s) = (Ok response, w') ->
  list_Contents response = Some files ->
  In (mkS3Object (Some key)) files ->
  key <> "" ->
  In (EvExistsSync (path_join P [baseDir; key]))
     (calls (SyncFs.pullAllFilesFromS3 P O baseDir s)).
Proof.
  intros Hlist Hfiles Hin Hkey.
  assert (Htruthy : truthy (Some key) = true)
    by (destruct key; [congruence|reflexivity]).
  unfold SyncFs.pullAllFilesFromS3, S3Service.listFiles, try_catch.
  unfold bind at 1. unfold bind at 1. unfold call at 1.
  rewrite Hlist, Hfiles. unfold ret at 1. cbn [app].
  destruct (for_of_visits (SyncFs.pullFile P O baseDir) files
              (mkS3Object (Some key)) (pullFile_returns P O baseDir) Hin
              (mkState w' (fileSystemData s) (watcher s))) as [s1 Hs1].
  destruct (pullFile_first_call P O baseDir key s1 Htruthy) as [rest Hrest].
  specialize (Hs1 (EvExistsSync (path_join P [baseDir; key]))).
  rewrite Hrest in Hs1. specialize (Hs1 (or_introl eq_refl)).
  unfold calls in *.
  destruct (for_of files _ _) as [[[u|e] s2] t2]; simpl in *; right;
    rewrite ?app_nil_r; exact Hs1.
Qed.

Lemma pull_examines_every_listed_key_witness :
  In (EvExistsSync "/home/user/.local/share/Axi/UserData/Files/remote.txt")
     (calls (SyncFs.pullAllFilesFromS3 Posix.platform Sim.oracle Sim.root
               (Sim.start Scenario.tree))).
Proof.
  apply (pull_examines_every_listed_key Posix.platform Sim.oracle Sim.root
           (Sim.start Scenario.tree)
           (mkListOutput (Some [mkS3Object (Some "remote.txt")]))
           Scenario.tree [mkS3Object (Some "remote.txt")] "remote.txt").
  - reflexivity.
  - reflexivity.
  - left. reflexivity.
  - discriminate.
Defined.

(** X21.  For a key whose local file exists, the body of the pull loop
    asks for the local file, its stat and the remote metadata, and then
    downloads exactly when the store's own [LastModified] is greater than
    the local modification time; the x-original-mtime the object carries
    plays no part. *)
Theorem pull_decides_on_LastModified {W : Type} (P : Platform) (O : Oracle W)
    (baseDir key : string) (s : state W)
    (w1 : W) (stats : Stats) (w2 : W) (md : ObjectMetadata)
    (s3 : state W) (t3 : list event) (lastModified : JsDate) :
  let localPath := path_join P [baseDir; key] in
  truthy (Some key) = true ->
  fs_existsSync O localPath (world s) = (true, w1) ->
  fs_stat O localPath w1 = (Ok stats, w2) ->
  S3Service.getObjectMetadata P O key
    (mkState w2 (fileSystemData s) (watcher s)) = (Ok (Some md), s3, t3) ->
  LastModified md = Some lastModified ->
  calls (SyncFs.pullFile P O baseDir (mkS3Object (Some key)) s) =
  ([EvExistsSync localPath; EvStat localPath;
    EvHeadObject S3Service.BUCKET_NAME key] ++
   if date_gt lastModified (DateMs (st_mtime stats))
   then calls (S3Service.downloadFile P O key localPath s3)
   else [])%list.
Proof. cbv zeta. apply pullFile_on_existing_file. Qed.

Lemma pull_decides_on_LastModified_witness :
  calls (SyncFs.pullFile Posix.platform Sim.oracle Sim.root
           (mkS3Object (Some "a.txt")) (Sim.start Scenario.skewed)) =
  [EvExistsSync "/home/user/.local/share/Axi/UserData/Files/a.txt";
   EvStat "/home/user/.local/share/Axi/UserData/Files/a.txt";
   EvHeadObject "9527" "a.txt"].
Proof.
  rewrite (pull_decides_on_LastModified Posix.platform Sim.oracle Sim.root
             "a.txt" (Sim.start Scenario.skewed)
             Scenario.skewed (mkStats false true 3 3000 3000) Scenario.skewed
             {| LastModified := Some (DateMs 2000); ETag := None;
                XOriginalMtime := Some (DateMs 5000) |}
             (Sim.start Scenario.skewed) [EvHeadObject "9527" "a.txt"]
             (DateMs 2000)).
  - reflexivity.
  - reflexivity.
  - reflexivity.
  - reflexivity.
  - reflexivity.
  - reflexivity.
Defined.

(** X22.  For a key with no local file, the body of the pull loop asks for
    the local file and then downloads, without asking the store for
    metadata. *)
Theorem pull_downloads_what_is_missing_locally {W : Type}
    (P : Platform) (O : Oracle W) (baseDir key : string) (s : state W)
    (w1 : W) :
  let localPath := path_join P [baseDir; key] in
  truthy (Some key) = true ->
  fs_existsSync O localPath (world s) = (false, w1) ->
  calls (SyncFs.pullFile P O baseDir (mkS3Object (Some key)) s) =
  (EvExistsSync localPath ::
   calls (S3Service.downloadFile P O key localPath
            (mkState w1 (fileSystemData s) (watcher s))))%list.
Proof. cbv zeta. apply pullFile_on_missing_file. Qed.

Lemma pull_downloads_what_is_missing_locally_witness :
  calls (SyncFs.pullFile Posix.platform Sim.oracle Sim.root
           (mkS3Object (Some "remote.txt")) (Sim.start Scenario.tree)) =
  [EvExistsSync "/home/user/.local/share/Axi/UserData/Files/remote.txt";
   EvExistsSync "/home/user/.local/share/Axi/UserData/Files";
   EvGetObject "9527" "remote.txt";
   EvWriteFile "/home/user/.local/share/Axi/UserData/Files/remote.txt" "remote"].
Proof.
  rewrite (pull_downloads_what_is_missing_locally Posix.platform Sim.oracle
             Sim.root "remote.txt" (Sim.start Scenario.tree) Scenario.tree).
  - reflexivity.
  - reflexivity.
  - reflexivity.
Defined.

(** ** More on [uploadFile] *)

(** X23.  [uploadFile] asks the store for the metadata outside of its
    [try]: when the file passes the lock probe, its stat succeeds and the
    HEAD request fails with an error that is not a not-found error,
    [uploadFile] throws that error and nothing is put.  [syncFile], its
    only caller, catches it and returns. *)
Theorem uploadFile_rethrows_a_failed_probe {W : Type}
    (P : Platform) (O : Oracle W) (localFilePath relativePath : string)
    (s : state W) (fd : Z) (w1 w2 : W) (stats : Stats) (w3 : W)
    (e : exn) (w4 : W) :
  let key := stripLeadingSlash relativePath in
  fs_openSync O localFilePath (world s) = (Ok fd, w1) ->
  fs_closeSync O fd w1 = (Ok tt, w2) ->
  fs_stat O localFilePath w2 = (Ok stats, w3) ->
  s3_HeadObject O S3Service.BUCKET_NAME key w3 = (Throw e, w4) ->
  S3Service.isNotFound e = false ->
  let run := S3Service.uploadFile P O localFilePath relativePath s in
  outcome run = Throw e
  /\ calls run =
     [EvOpenSync localFilePath; EvCloseSync fd; EvStat localFilePath;
      EvHeadObject S3Service.BUCKET_NAME key]
  /\ forall baseDir,
       outcome (SyncFs.syncFile P O localFilePath baseDir s) = Ok tt.
Proof.
  cbv zeta. intros Hopen Hclose Hstat Hhead Hnf.
  split; [|split].
  - unfold S3Service.uploadFile. unfold bind at 1.
    rewrite (isFileAccessible_ok O localFilePath s fd w1 w2 Hopen Hclose).
    cbn [negb]. unfold bind at 1. unfold call at 1.
    cbn [world fileSystemData watcher]. rewrite Hstat.
    unfold bind at 1.
    unfold S3Service.getObjectMetadata, try_catch, bind, call, throw.
    cbn [world fileSystemData watcher]. rewrite Hhead, Hnf. reflexivity.
  - unfold S3Service.uploadFile. unfold bind at 1.
    rewrite (isFileAccessible_ok O localFilePath s fd w1 w2 Hopen Hclose).
    cbn [negb]. unfold bind at 1. unfold call at 1.
    cbn [world fileSystemData watcher]. rewrite Hstat.
    unfold bind at 1.
    unfold S3Service.getObjectMetadata, try_catch, bind, call, throw.
    cbn [world fileSystemData watcher]. rewrite Hhead, Hnf. reflexivity.
  - intros baseDir. apply returns_value, syncFile_returns.
Qed.

Lemma uploadFile_rethrows_a_failed_probe_witness :
  outcome (S3Service.uploadFile Posix.platform Sim.oracle
             "/home/user/.local/share/Axi/UserData/Files/a.txt" "a.txt"
             (Sim.start Scenario.offline)) = Throw Sim.ECONNREFUSED.
Proof.
  destruct (uploadFile_rethrows_a_failed_probe Posix.platform Sim.oracle
              "/home/user/.local/share/Axi/UserData/Files/a.txt" "a.txt"
              (Sim.start Scenario.offline) 3 Scenario.offline Scenario.offline
              (Sim.statOfFile Scenario.hello) Scenario.offline
              Sim.ECONNREFUSED Scenario.offline) as [H _].
  - reflexivity.
  - reflexivity.
  - reflexivity.
  - reflexivity.
  - reflexivity.
  - exact H.
Defined.

(** X24.  The stamp an upload writes and the comparison of the next upload
    fit together: when the remote object carries as x-original-mtime the
    ISO-8601 string of a time t0 that [new Date] reads back as t0, a file
    that passes the lock probe is not put again while its modification time
    is at most t0, and is put again, stamped with its new modification
    time, once it was modified after t0 (and can be read). *)
Theorem a_file_is_pushed_again_only_after_a_change {W : Type}
    (P : Platform) (O : Oracle W) (localFilePath relativePath : string)
    (s : state W) (fd : Z) (w1 w2 : W) (stats : Stats) (w3 : W)
    (response : HeadOutput) (w4 : W) (md : list (string * string)) (t0 : Z) :
  let key := stripLeadingSlash relativePath in
  let localMtime := st_mtime stats in
  fs_openSync O localFilePath (world s) = (Ok fd, w1) ->
  fs_closeSync O fd w1 = (Ok tt, w2) ->
  fs_stat O localFilePath w2 = (Ok stats, w3) ->
  s3_HeadObject O S3Service.BUCKET_NAME key w3 = (Ok response, w4) ->
  head_Metadata response = Some md ->
  lookup "x-original-mtime" md = Some (Date_toISOString P t0) ->
  Date_toISOString P t0 <> "" ->
  Date_new P (Date_toISOString P t0) = DateMs t0 ->
  let run := S3Service.uploadFile P O localFilePath relativePath s in
  (localMtime <= t0 ->
   outcome run = Ok false /\ filter isPutObject (calls run) = [])
  /\ (t0 < localMtime ->
      forall body w5,
        fs_readFile O localFilePath w4 = (Ok body, w5) ->
        filter isPutObject (calls run) =
        [EvPutObject S3Service.BUCKET_NAME key body
           [("x-original-mtime", Date_toISOString P localMtime)]]).
Proof.
  cbv zeta. intros Hopen Hclose Hstat Hhead Hmd Hlookup Hne Hparse.
  assert (Horigin : S3Service.originalMtimeOf P response = Some (DateMs t0)).
  { unfold S3Service.originalMtimeOf. rewrite Hmd, Hlookup.
    destruct (Date_toISOString P t0) eqn:E; [congruence|].
    simpl. first [rewrite Hparse | rewrite <- E, Hparse]. reflexivity. }
  assert (Hrun :
    S3Service.uploadFile P O localFilePath relativePath s =
    if st_mtime stats <=? t0
    then (Ok false, mkState w4 (fileSystemData s) (watcher s),
          [EvOpenSync localFilePath; EvCloseSync fd; EvStat localFilePath;
           EvHeadObject S3Service.BUCKET_NAME (stripLeadingSlash relativePath)])
    else
      match
        try_catch
          (body <- call (EvReadFile localFilePath) (fs_readFile O localFilePath) ;;
           call (EvPutObject S3Service.BUCKET_NAME (stripLeadingSlash relativePath)
                   body [("x-original-mtime", Date_toISOString P (st_mtime stats))])
                (s3_PutObject O S3Service.BUCKET_NAME
                   (stripLeadingSlash relativePath) body
                   [("x-original-mtime", Date_toISOString P (st_mtime stats))]) ;;
           ret true)
          (fun _ => ret false) (mkState w4 (fileSystemData s) (watcher s))
      with
      | (r, s5, t5) =>
          (r, s5,
           [EvOpenSync localFilePath; EvCloseSync fd; EvStat localFilePath;
            EvHeadObject S3Service.BUCKET_NAME (stripLeadingSlash relativePath)]
           ++ t5)%list
      end).
  { unfold S3Service.uploadFile. unfold bind at 1.
    rewrite (isFileAccessible_ok O localFilePath s fd w1 w2 Hopen Hclose).
    cbn [negb]. unfold bind at 1. unfold call at 1.
    cbn [world fileSystemData watcher]. rewrite Hstat.
    unfold bind at 1.
    unfold S3Service.getObjectMetadata at 1, try_catch at 1.
    unfold bind at 1. unfold call at 1.
    cbn [world fileSystemData watcher]. rewrite Hhead.
    unfold ret at 1. cbn [app].
    unfold S3Service.remoteSameOrNewer. cbn [XOriginalMtime].
    rewrite Horigin. cbn [date_le].
    destruct (st_mtime stats <=? t0).
    - reflexivity.
    - destruct (try_catch _ _ _) as [[r s5] t5]. reflexivity. }
  rewrite Hrun. split.
  - intros Hle. apply Z.leb_le in Hle. rewrite Hle. split; reflexivity.
  - intros Hlt body w5 Hread.
    assert (Hgt : (st_mtime stats <=? t0) = false) by (apply Z.leb_gt; exact Hlt).
    rewrite Hgt.
    unfold try_catch, bind, call, ret. cbn [world fileSystemData watcher].
    rewrite Hread. cbn [world fileSystemData watcher].
    destruct (s3_PutObject O _ _ body _ w5) as [[u|e] w6]; reflexivity.
Qed.

Lemma a_file_is_pushed_again_only_after_a_change_witness :
  let pushed :=
    final (SyncFs.syncFile Posix.platform Sim.oracle
             "/home/user/.local/share/Axi/UserData/Files/a.txt" Sim.root
             (Sim.start Scenario.fresh)) in
  filter isPutObject
    (calls (S3Service.uploadFile Posix.platform Sim.oracle
              "/home/user/.local/share/Axi/UserData/Files/a.txt" "a.txt"
              pushed)) = [].
Proof.
  cbv zeta.
  set (pushed := final (SyncFs.syncFile Posix.platform Sim.oracle
                          "/home/user/.local/share/Axi/UserData/Files/a.txt"
                          Sim.root (Sim.start Scenario.fresh))).
  destruct (a_file_is_pushed_again_only_after_a_change
              Posix.platform Sim.oracle
              "/home/user/.local/share/Axi/UserData/Files/a.txt" "a.txt"
              pushed 3 (world pushed) (world pushed)
              (Sim.statOfFile Scenario.hello) (world pushed)
              (mkHeadOutput (Some (DateMs 2000)) None
                 (Some [("x-original-mtime", "1970-01-01T00:00:01.000Z")]))
              (world pushed)
              [("x-original-mtime", "1970-01-01T00:00:01.000Z")] 1000)
    as [Hskip _].
  - reflexivity.
  - reflexivity.
  - reflexivity.
  - reflexivity.
  - reflexivity.
  - reflexivity.
  - discriminate.
  - reflexivity.
  - destruct Hskip as [_ Hnone]; [simpl; lia|]. exact Hnone.
Defined.

(** ** The refresh and the cached snapshot *)

(** X25.  A refresh always stores the scan of the watched directory as the
    cached snapshot, lists the directory and asks whether the window is
    destroyed; it sends the snapshot on the file-system-updated channel
    exactly when the window is not destroyed, and a send that throws
    changes nothing of this.  The get-file-system-data handler then returns
    the stored snapshot without any call. *)
Theorem refresh_caches_the_scan {W : Type} (P : Platform) (O : Oracle W)
    (s : state W) :
  let root := getUserFilesDir P in
  let listed := fs_readdir O root (world s) in
  let snapshot := SyncFs.scanDirectory P (fst listed) "/" in
  let run := SyncFs.updateFileSystemData P O s in
  outcome run = Ok tt
  /\ calls run =
     EvReaddir root :: EvIsDestroyed ::
     (if fst (win_isDestroyed O (snd listed)) then []
      else [EvSend "file-system-updated" snapshot])
  /\ outcome (SyncFs.get_file_system_data (final run)) = Ok snapshot
  /\ calls (SyncFs.get_file_system_data (final run)) = [].
Proof.
  cbv zeta.
  destruct (updateFileSystemData_run P O s) as (Ho & Hf & _ & Hc).
  split; [exact Ho|]. split; [exact Hc|].
  unfold SyncFs.get_file_system_data, get_fileSystemData, outcome, calls.
  cbn [fst snd]. rewrite Hf. split; reflexivity.
Qed.

(** ** Paths given to the handlers *)

Lemma stripLeadingSlash_slash (p : string) :
  stripLeadingSlash ("/" ++ p) = p.
Proof. unfold stripLeadingSlash, startsWith. simpl. destruct p; reflexivity. Qed.

Lemma stripLeadingSlash_relative (p : string) :
  startsWith p "/" = false -> stripLeadingSlash p = p.
Proof. unfold stripLeadingSlash. intros ->. reflexivity. Qed.

(** X26.  For the handlers that take a path inside the watched tree, one
    leading slash makes no difference: create-file, create-folder,
    delete-item, import-file, import-file-from-buffer and move-item do the
    same on ["/" ++ p] and on [p], for every path [p] that does not begin
    with a slash. *)
Theorem a_leading_slash_is_optional {W : Type} (P : Platform) (O : Oracle W)
    (p : string) (s : state W) :
  startsWith p "/" = false ->
  (forall fileName text,
      SyncFs.handle P O (SyncFs.CreateFile ("/" ++ p) fileName text) s =
      SyncFs.handle P O (SyncFs.CreateFile p fileName text) s)
  /\ (forall folderName,
        SyncFs.handle P O (SyncFs.CreateFolder ("/" ++ p) folderName) s =
        SyncFs.handle P O (SyncFs.CreateFolder p folderName) s)
  /\ SyncFs.handle P O (SyncFs.DeleteItem ("/" ++ p)) s =
     SyncFs.handle P O (SyncFs.DeleteItem p) s
  /\ (forall sourcePath,
        SyncFs.handle P O (SyncFs.ImportFile sourcePath ("/" ++ p)) s =
        SyncFs.handle P O (SyncFs.ImportFile sourcePath p) s)
  /\ (forall fileName buffer,
        SyncFs.handle P O (SyncFs.ImportFileFromBuffer fileName buffer ("/" ++ p)) s =
        SyncFs.handle P O (SyncFs.ImportFileFromBuffer fileName buffer p) s)
  /\ (forall q,
        startsWith q "/" = false ->
        SyncFs.handle P O (SyncFs.MoveItem ("/" ++ p) ("/" ++ q)) s =
        SyncFs.handle P O (SyncFs.MoveItem p q) s).
Proof.
  intros Hp.
  repeat split; intros; cbn [SyncFs.handle];
    unfold SyncFs.create_file, SyncFs.create_folder, SyncFs.delete_item,
      SyncFs.import_file, SyncFs.import_file_from_buffer, SyncFs.move_item;
    rewrite ?stripLeadingSlash_slash, ?(stripLeadingSlash_relative p Hp);
    try match goal with
        | H : startsWith ?q "/" = false |- _ =>
            rewrite ?(stripLeadingSlash_relative q H)
        end;
    reflexivity.
Qed.

Lemma a_leading_slash_is_optional_witness :
  SyncFs.handle Posix.platform Sim.oracle (SyncFs.DeleteItem "/docs")
    (Sim.start Scenario.tree) =
  SyncFs.handle Posix.platform Sim.oracle (SyncFs.DeleteItem "docs")
    (Sim.start Scenario.tree).
Proof.
  destruct (a_leading_slash_is_optional Posix.platform Sim.oracle "docs"
              (Sim.start Scenario.tree)) as (_ & _ & H & _).
  - reflexivity.
  - exact H.
Defined.
